(** * Optimile financial ledger: reducer and customer-ledger view

    A shallow embedding of [appReducer] (src/App.tsx) and of the
    [ledgerData] computation (src/components/CustomerLedger.tsx), with
    the properties of the ledger specification stated and proved over it.

    Modelling conventions.
    - A JS [number] holding money or a count is an integer [Z] (whole
      currency units); [Math.round((a / 0.98) * 0.02)] is evaluated in exact
      rational arithmetic.  The statements therefore speak of what the code
      does in one operation, of order and of structure; none rests on the
      cancellation or the re-association of sums, which the code's
      floating-point numbers do not have.
    - An optional field [f?: T] is an [option T]; [undefined] is [None].
    - [Vendor] objects are the only objects the reducer writes in place
      ([vendor.balance = ...] in RECORD_VENDOR_PAYMENT).  They therefore
      live in a store ([Heap]) and the state holds references to them; all
      other records are only ever copied and are plain values.
    - [Date.now()], [new Date()] and [Math.random()] read the environment
      ([Env]); the reducer runs synchronously, so one invocation sees one
      instant.  Locale formatting and date parsing belong to the host
      ([Runtime]). *)

From Stdlib Require Import ZArith QArith Qround String Ascii List Lia Lqa Bool.
From Stdlib Require Import DecimalString Permutation Sorted.
From stdpp Require Import base list strings.

Import ListNotations.
Local Open Scope string_scope.
Local Open Scope Z_scope.
Local Open Scope list_scope.

(** ** Primitive JS operations *)

(** Template-literal rendering of an integer number. *)
Definition showZ (z : Z) : string := NilZero.string_of_int (Z.to_int z).

(** [Math.round]: the nearest integer, ties towards +infinity. *)
Definition Math_round (q : Q) : Z := Qfloor (Qplus q (1 # 2)).

(** [s.includes(sub)] *)
Fixpoint String_includes (sub s : string) : bool :=
  String.prefix sub s ||
  match s with
  | EmptyString => false
  | String _ s' => String_includes sub s'
  end.

(** [s.split(sep)[0]] for a non-empty separator: the part of [s] before
    the first occurrence of [sep], all of [s] when there is none. *)
Fixpoint split_head (sep s : string) : string :=
  if String.prefix sep s then EmptyString
  else match s with
       | EmptyString => EmptyString
       | String c s' => String c (split_head sep s')
       end.

(** [arr.includes(x)] on an array of strings. *)
Definition Array_includes (arr : list string) (x : string) : bool :=
  existsb (String.eqb x) arr.

#[global] Arguments Array_includes : simpl never.

(** Truthiness of an optional string: [undefined] and [''] are falsy. *)
Definition truthy (o : option string) : bool :=
  match o with
  | Some s => negb (String.eqb s EmptyString)
  | None => false
  end.

(** [o || d] for an optional string. *)
Definition str_or (o : option string) (d : string) : string :=
  match o with
  | Some s => if String.eqb s EmptyString then d else s
  | None => d
  end.

(** [o || 0] for an optional number. *)
Definition num_or0 (o : option Z) : Z :=
  match o with
  | Some z => z
  | None => 0
  end.

(** [a === b] where [a] may be [undefined] and [b] is a string. *)
Definition opt_eqb (a : option string) (b : string) : bool :=
  match a with
  | Some s => String.eqb s b
  | None => false
  end.

(** ** Domain model (types.ts) *)

Inductive InvoiceStatus := draft | sent | paid | overdue | partial.
Inductive TransactionType := credit | debit.
Inductive VehicleStatus := v_active | v_maintenance | v_retired.
Inductive UserRole := Admin | FinanceManager | Accountant | OperationsManager | Viewer.
Inductive ExpenseStatus := approved | pending_approval.
Inductive ExpenseCategory := Fuel | Maintenance | Insurance | Toll | Freight | Driver | EMI.
Inductive EntryKind := Manual | Auto.
Inductive BookingStatus := pending | invoiced.
Inductive MatchStatus := matched | unmatched.
Inductive NotificationType := n_success | n_error | n_info | n_warning.
Inductive EntityType := E_Invoice | E_Payment | E_Expense | E_System | E_Booking.
Inductive Activity := Active | Inactive.

Definition InvoiceStatus_str (s : InvoiceStatus) : string :=
  match s with
  | draft => "draft" | sent => "sent" | paid => "paid"
  | overdue => "overdue" | partial => "partial"
  end.

Definition UserRole_str (r : UserRole) : string :=
  match r with
  | Admin => "Admin" | FinanceManager => "Finance Manager"
  | Accountant => "Accountant" | OperationsManager => "Operations Manager"
  | Viewer => "Viewer"
  end.

Definition ExpenseCategory_str (c : ExpenseCategory) : string :=
  match c with
  | Fuel => "Fuel" | Maintenance => "Maintenance" | Insurance => "Insurance"
  | Toll => "Toll" | Freight => "Freight" | Driver => "Driver" | EMI => "EMI"
  end.

Definition UserRole_eqb (a b : UserRole) : bool :=
  match a, b with
  | Admin, Admin | FinanceManager, FinanceManager | Accountant, Accountant
  | OperationsManager, OperationsManager | Viewer, Viewer => true
  | _, _ => false
  end.

Definition is_Freight (c : ExpenseCategory) : bool :=
  match c with Freight => true | _ => false end.

Module Customer.
Record t := mk {
  id : string; name : string; email : string; taxId : string;
  creditLimit : Z; status : Activity; joinedDate : string;
  address : option string; contactPerson : option string;
  phone : option string; paymentTerms : option Z; tdsRate : option Z;
  relationshipManager : option string }.
End Customer.

Module LineItem.
Record t := mk {
  id : string; description : string; quantity : Z; unitPrice : Z;
  taxRate : option Z; total : Z }.
End LineItem.

Module Invoice.
Record t := mk {
  id : string; customerId : string; customerName : string;
  invoiceNumber : string; status : InvoiceStatus; date : string;
  dueDate : string; amount : Z;
  paidAmount : option Z;   (* cash / bank payments *)
  adjustments : option Z;  (* non-cash credits such as TDS, discounts *)
  taxAmount : option Z; discount : option Z;
  lineItems : list LineItem.t;
  lastReminderSent : option string; notes : option string }.

(** [{ ...i, paidAmount, adjustments, status }] *)
Definition settle (p a : Z) (st : InvoiceStatus) (i : t) : t :=
  mk (id i) (customerId i) (customerName i) (invoiceNumber i) st (date i)
     (dueDate i) (amount i) (Some p) (Some a) (taxAmount i) (discount i)
     (lineItems i) (lastReminderSent i) (notes i).

(** [{ ...i, status }] *)
Definition set_status (st : InvoiceStatus) (i : t) : t :=
  mk (id i) (customerId i) (customerName i) (invoiceNumber i) st (date i)
     (dueDate i) (amount i) (paidAmount i) (adjustments i) (taxAmount i)
     (discount i) (lineItems i) (lastReminderSent i) (notes i).

(** [{ ...i, lastReminderSent, notes }] *)
Definition remind (ts note : string) (i : t) : t :=
  mk (id i) (customerId i) (customerName i) (invoiceNumber i) (status i)
     (date i) (dueDate i) (amount i) (paidAmount i) (adjustments i)
     (taxAmount i) (discount i) (lineItems i) (Some ts) (Some note).
End Invoice.

Module Booking.
Record t := mk {
  id : string; customerId : string; customerName : string;
  origin : string; destination : string; distance : Z;
  vehicleId : string; driverName : string; driverPhone : string;
  bookedDate : string; completedDate : string;
  amount : Z;   (* revenue to bill *)
  expense : Z;  (* trip cost, payable to the vendor *)
  status : BookingStatus; podUrl : option string; podVerified : bool;
  vendorId : option string; vendorName : option string }.

Definition set_status (st : BookingStatus) (b : t) : t :=
  mk (id b) (customerId b) (customerName b) (origin b) (destination b)
     (distance b) (vehicleId b) (driverName b) (driverPhone b)
     (bookedDate b) (completedDate b) (amount b) (expense b) st (podUrl b)
     (podVerified b) (vendorId b) (vendorName b).
End Booking.

Module Vehicle.
Record t := mk {
  id : string; regNumber : string; model : string; status : VehicleStatus;
  mileage : Z; lastMaintenance : option string }.
End Vehicle.

Module Expense.
Record t := mk {
  id : string; vehicleId : string; category : ExpenseCategory; amount : Z;
  date : string; vendor : string; vendorId : option string;
  bookingId : option string; costPerKm : option Z;
  receiptUrl : option string; status : ExpenseStatus;
  entryType : option EntryKind; odometer : option Z }.

Definition set_status (st : ExpenseStatus) (e : t) : t :=
  mk (id e) (vehicleId e) (category e) (amount e) (date e) (vendor e)
     (vendorId e) (bookingId e) (costPerKm e) (receiptUrl e) st
     (entryType e) (odometer e).
End Expense.

Module Transaction.
Record t := mk {
  id : string; customerId : option string; vendorId : option string;
  vendorName : option string; date : string; amount : Z;
  type : TransactionType; description : string;
  referenceId : option string;  (* invoice id or booking id *)
  matched : bool; paymentMode : option string;
  referenceNo : option string; category : option string }.
End Transaction.

Module Shipment.
Record t := mk {
  id : string; route : string; currentRate : Z; breakevenRate : Z;
  status : Activity }.
End Shipment.

Module Vendor.
Record t := mk {
  id : string; name : string; code : option string; taxId : option string;
  lastActivity : option string; rating : Z; category : string;
  balance : Z; paymentTerms : Z }.

(** The object after [v.balance = b; v.lastActivity = ts], and the copy
    [{ ...v, balance: b, lastActivity: ts }]. *)
Definition touch (b : Z) (ts : string) (v : t) : t :=
  mk (id v) (name v) (code v) (taxId v) (Some ts) (rating v) (category v)
     b (paymentTerms v).
End Vendor.

Module BankAccount.
Record t := mk {
  id : string; bankName : string; accountNumber : string; balance : Z;
  lastSynced : string }.
End BankAccount.

Module BankTransaction.
Record t := mk {
  id : string; bankAccountId : string; date : string;
  description : string; amount : Z; type : TransactionType;
  status : MatchStatus }.

Definition set_status (st : MatchStatus) (b : t) : t :=
  mk (id b) (bankAccountId b) (date b) (description b) (amount b)
     (type b) st.
End BankTransaction.

Module UserProfile.
Record t := mk {
  companyName : string; taxId : string; address : string;
  logoUrl : option string }.

(** [Partial<UserProfile>] *)
Record partial := mkPartial {
  p_companyName : option string; p_taxId : option string;
  p_address : option string; p_logoUrl : option string }.

(** [{ ...u, ...p }] *)
Definition merge (u : t) (p : partial) : t :=
  mk (default (companyName u) (p_companyName p))
     (default (taxId u) (p_taxId p))
     (default (address u) (p_address p))
     (match p_logoUrl p with Some l => Some l | None => logoUrl u end).
End UserProfile.

Module SystemUser.
Record t := mk {
  id : string; name : string; email : string; role : UserRole;
  status : Activity }.
End SystemUser.

Module Notification.
Record t := mk { id : string; message : string; type : NotificationType }.
End Notification.

Module AuditLog.
Record t := mk {
  id : string; timestamp : string; userId : string; userName : string;
  userRole : UserRole; action : string; entityId : string;
  entityType : EntityType; details : string;
  oldValue : option string; newValue : option string }.
End AuditLog.

(** A reference to a [Vendor] object, and the store of those objects.
    Allocation appends, so a reference is an index into the store. *)
Abbreviation loc := nat (only parsing).
Abbreviation Heap := (list Vendor.t) (only parsing).

Definition alloc (h : Heap) (v : Vendor.t) : Heap * loc :=
  (h ++ [v], length h).

Module AppState.
Record t := mk {
  currentUser : SystemUser.t;
  customers : list Customer.t;
  invoices : list Invoice.t;
  bookings : list Booking.t;
  vehicles : list Vehicle.t;
  expenses : list Expense.t;
  transactions : list Transaction.t;
  shipments : list Shipment.t;
  vendors : list loc;
  bankAccounts : list BankAccount.t;
  bankFeed : list BankTransaction.t;
  users : list SystemUser.t;
  userProfile : UserProfile.t;
  notifications : list Notification.t;
  auditLogs : list AuditLog.t;
  isLoading : bool;
  searchQuery : string }.

(** [Partial<AppState>] *)
Record partial := mkPartial {
  p_currentUser : option SystemUser.t;
  p_customers : option (list Customer.t);
  p_invoices : option (list Invoice.t);
  p_bookings : option (list Booking.t);
  p_vehicles : option (list Vehicle.t);
  p_expenses : option (list Expense.t);
  p_transactions : option (list Transaction.t);
  p_shipments : option (list Shipment.t);
  p_vendors : option (list loc);
  p_bankAccounts : option (list BankAccount.t);
  p_bankFeed : option (list BankTransaction.t);
  p_users : option (list SystemUser.t);
  p_userProfile : option UserProfile.t;
  p_notifications : option (list Notification.t);
  p_auditLogs : option (list AuditLog.t);
  p_isLoading : option bool;
  p_searchQuery : option string }.

(** [{ ...s, ...p }] *)
Definition merge (s : t) (p : partial) : t :=
  mk (default (currentUser s) (p_currentUser p))
     (default (customers s) (p_customers p))
     (default (invoices s) (p_invoices p))
     (default (bookings s) (p_bookings p))
     (default (vehicles s) (p_vehicles p))
     (default (expenses s) (p_expenses p))
     (default (transactions s) (p_transactions p))
     (default (shipments s) (p_shipments p))
     (default (vendors s) (p_vendors p))
     (default (bankAccounts s) (p_bankAccounts p))
     (default (bankFeed s) (p_bankFeed p))
     (default (users s) (p_users p))
     (default (userProfile s) (p_userProfile p))
     (default (notifications s) (p_notifications p))
     (default (auditLogs s) (p_auditLogs p))
     (default (isLoading s) (p_isLoading p))
     (default (searchQuery s) (p_searchQuery p)).

Definition set_isLoading (x : bool) (s : t) : t :=
  mk (currentUser s) (customers s) (invoices s) (bookings s) (vehicles s)
     (expenses s) (transactions s) (shipments s) (vendors s)
     (bankAccounts s) (bankFeed s) (users s) (userProfile s)
     (notifications s) (auditLogs s) x (searchQuery s).

Definition set_searchQuery (x : string) (s : t) : t :=
  mk (currentUser s) (customers s) (invoices s) (bookings s) (vehicles s)
     (expenses s) (transactions s) (shipments s) (vendors s)
     (bankAccounts s) (bankFeed s) (users s) (userProfile s)
     (notifications s) (auditLogs s) (isLoading s) x.

Definition set_currentUser (x : SystemUser.t) (s : t) : t :=
  mk x (customers s) (invoices s) (bookings s) (vehicles s)
     (expenses s) (transactions s) (shipments s) (vendors s)
     (bankAccounts s) (bankFeed s) (users s) (userProfile s)
     (notifications s) (auditLogs s) (isLoading s) (searchQuery s).

Definition set_invoices (x : list Invoice.t) (s : t) : t :=
  mk (currentUser s) (customers s) x (bookings s) (vehicles s)
     (expenses s) (transactions s) (shipments s) (vendors s)
     (bankAccounts s) (bankFeed s) (users s) (userProfile s)
     (notifications s) (auditLogs s) (isLoading s) (searchQuery s).

Definition set_bookings (x : list Booking.t) (s : t) : t :=
  mk (currentUser s) (customers s) (invoices s) x (vehicles s)
     (expenses s) (transactions s) (shipments s) (vendors s)
     (bankAccounts s) (bankFeed s) (users s) (userProfile s)
     (notifications s) (auditLogs s) (isLoading s) (searchQuery s).

Definition set_expenses (x : list Expense.t) (s : t) : t :=
  mk (currentUser s) (customers s) (invoices s) (bookings s) (vehicles s)
     x (transactions s) (shipments s) (vendors s)
     (bankAccounts s) (bankFeed s) (users s) (userProfile s)
     (notifications s) (auditLogs s) (isLoading s) (searchQuery s).

Definition set_transactions (x : list Transaction.t) (s : t) : t :=
  mk (currentUser s) (customers s) (invoices s) (bookings s) (vehicles s)
     (expenses s) x (shipments s) (vendors s)
     (bankAccounts s) (bankFeed s) (users s) (userProfile s)
     (notifications s) (auditLogs s) (isLoading s) (searchQuery s).

Definition set_vendors (x : list loc) (s : t) : t :=
  mk (currentUser s) (customers s) (invoices s) (bookings s) (vehicles s)
     (expenses s) (transactions s) (shipments s) x
     (bankAccounts s) (bankFeed s) (users s) (userProfile s)
     (notifications s) (auditLogs s) (isLoading s) (searchQuery s).

Definition set_bankFeed (x : list BankTransaction.t) (s : t) : t :=
  mk (currentUser s) (customers s) (invoices s) (bookings s) (vehicles s)
     (expenses s) (transactions s) (shipments s) (vendors s)
     (bankAccounts s) x (users s) (userProfile s)
     (notifications s) (auditLogs s) (isLoading s) (searchQuery s).

Definition set_userProfile (x : UserProfile.t) (s : t) : t :=
  mk (currentUser s) (customers s) (invoices s) (bookings s) (vehicles s)
     (expenses s) (transactions s) (shipments s) (vendors s)
     (bankAccounts s) (bankFeed s) (users s) x
     (notifications s) (auditLogs s) (isLoading s) (searchQuery s).

Definition set_notifications (x : list Notification.t) (s : t) : t :=
  mk (currentUser s) (customers s) (invoices s) (bookings s) (vehicles s)
     (expenses s) (transactions s) (shipments s) (vendors s)
     (bankAccounts s) (bankFeed s) (users s) (userProfile s)
     x (auditLogs s) (isLoading s) (searchQuery s).

Definition set_auditLogs (x : list AuditLog.t) (s : t) : t :=
  mk (currentUser s) (customers s) (invoices s) (bookings s) (vehicles s)
     (expenses s) (transactions s) (shipments s) (vendors s)
     (bankAccounts s) (bankFeed s) (users s) (userProfile s)
     (notifications s) x (isLoading s) (searchQuery s).
End AppState.

(** Payloads of the two payment actions. *)
Module RecordPayment.
Record t := mk {
  invoiceId : string; date : string; reference : string; amount : Z;
  type : TransactionType; category : string;
  debitNoteNo : option string; autoTds : option bool }.
End RecordPayment.

Module RecordVendorPayment.
Record t := mk {
  vendorIds : list string; date : string; amount : Z; category : string;
  reference : string; autoTds : bool; bookingId : option string }.
End RecordVendorPayment.

(** The closed action vocabulary.  [ADD_EXPENSE] carries an expense whose
    [status] the reducer overwrites; [OTHER] stands for any tag that the
    [switch] does not list. *)
Inductive Action :=
  | SET_LOADING (payload : bool)
  | SET_DATA (payload : AppState.partial)
  | SET_SEARCH_QUERY (payload : string)
  | SWITCH_USER (payload : UserRole)
  | ADD_INVOICE (payload : Invoice.t)
  | DELETE_INVOICE (payload : string)
  | ADD_EXPENSE (payload : Expense.t)
  | APPROVE_EXPENSE (payload : string)
  | MATCH_BANK_TRANSACTION (payload : string)
  | UPDATE_PROFILE (payload : UserProfile.partial)
  | RECORD_PAYMENT (payload : RecordPayment.t)
  | RECORD_VENDOR_PAYMENT (payload : RecordVendorPayment.t)
  | COMPLETE_TRIP (bookingId : string)
  | UPDATE_INVOICE_STATUS (id : string) (status : InvoiceStatus)
  | SEND_REMINDERS (payload : list string)
  | MARK_BOOKINGS_INVOICED (payload : list string)
  | ADD_NOTIFICATION (message : string) (type : NotificationType)
  | REMOVE_NOTIFICATION (payload : string)
  | OTHER (tag : string).

(** ** Host and environment *)

(** What the reducer and the ledger view take from the JS host: locale
    formatting, ISO rendering and parsing of dates, case folding.
    [Date_parse s] is [new Date(s).getTime()], [None] being [NaN]. *)
Class Runtime := {
  toLocaleString_INR : Z -> string;
  toISOString : Z -> string;
  toLocaleDateString : Z -> string;
  toLocaleTimeString : Z -> string;
  Date_parse : string -> option Z;
  toLowerCase : string -> string }.

(** What one invocation reads from the outside world: the clock
    ([Date.now()], [new Date()]) and the rendering of the [Math.random()]
    draw. *)
Record Env := mkEnv { Date_now : Z; Math_random : string }.

Definition nl : string := String (ascii_of_nat 10) EmptyString.

(** [new Set(arr).size] and [new Set(arr).has(x)] *)
Definition Set_size (arr : list string) : Z :=
  Z.of_nat (length (nodup string_dec arr)).

Definition Set_has (arr : list string) (x : string) : bool :=
  existsb (String.eqb x) arr.

Definition flag (o : option bool) : bool :=
  match o with
  | Some b => b
  | None => false
  end.

(** [Math.round((amount / 0.98) * 0.02)] *)
Definition tdsOf (amount : Z) : Z :=
  Math_round (Qmult (Qdiv (inject_Z amount) (98 # 100)) (2 # 100)).

(** The categories RECORD_PAYMENT books against [adjustments]. *)
Definition nonCash : list string :=
  ["TDS"; "Discount"; "Adjustment"; "Credit note"].

(** The first reference in [refs] whose object has id [vid]:
    [updatedVendors.find(v => v.id === vid)]. *)
Definition findVendor (h : Heap) (refs : list loc) (vid : string) : option loc :=
  List.find (fun l => match h !! l with
                      | Some v => String.eqb (Vendor.id v) vid
                      | None => false
                      end) refs.

(** [refs.map(v => f v ? copy : v)]: the callback either returns the object
    it was given or a fresh object. *)
Fixpoint mapVendors (f : Vendor.t -> option Vendor.t) (h : Heap)
    (refs : list loc) : Heap * list loc :=
  match refs with
  | [] => (h, [])
  | l :: refs' =>
      match h !! l with
      | Some v =>
          match f v with
          | Some v' =>
              let '(h1, l') := alloc h v' in
              let '(h2, ls) := mapVendors f h1 refs' in
              (h2, l' :: ls)
          | None =>
              let '(h2, ls) := mapVendors f h refs' in
              (h2, l :: ls)
          end
      | None =>
          let '(h2, ls) := mapVendors f h refs' in
          (h2, l :: ls)
      end
  end.

Section Reducer.
Context `{Runtime}.

(** [formatINR] *)
Definition formatINR (amount : Z) : string := toLocaleString_INR amount.

(** [createLog] *)
Definition createLog (env : Env) (state : AppState.t) (actionType : string)
    (entityType : EntityType) (entityId details : string)
    (oldVal newVal : option string) : AuditLog.t :=
  AuditLog.mk
    ("log_" +:+ showZ (Date_now env) +:+ "_" +:+ Math_random env)
    (toISOString (Date_now env))
    (SystemUser.id (AppState.currentUser state))
    (SystemUser.name (AppState.currentUser state))
    (SystemUser.role (AppState.currentUser state))
    actionType entityId entityType details oldVal newVal.

Definition notify (env : Env) (pre : string) (ty : NotificationType)
    (msg : string) : Notification.t :=
  Notification.mk (pre +:+ showZ (Date_now env)) msg ty.

(** The user SWITCH_USER installs for a role. *)
Definition userFor (targetRole : UserRole) : SystemUser.t :=
  match targetRole with
  | Admin => SystemUser.mk "u1" "John Smith" "john@opt.com" Admin Active
  | FinanceManager =>
      SystemUser.mk "u2" "Sarah Connor" "sarah@opt.com" FinanceManager Active
  | Accountant => SystemUser.mk "u4" "Gary Green" "gary@opt.com" Accountant Active
  | _ => SystemUser.mk "u5" "Mike Ops" "mike@opt.com" OperationsManager Active
  end.

(** *** RECORD_PAYMENT *)

Definition isNonCashAdjustment (category : string) : bool :=
  Array_includes nonCash category.

Definition mainDescription (p : RecordPayment.t) (invoice : Invoice.t) : string :=
  let category := RecordPayment.category p in
  if flag (RecordPayment.autoTds p)
     && (String.eqb category "Full payment" || String.eqb category "Partial payment")
  then "Bank Receipt - " +:+ Invoice.invoiceNumber invoice
  else category +:+ " - " +:+ Invoice.invoiceNumber invoice +:+ " " +:+
       (if truthy (RecordPayment.debitNoteNo p)
        then "(DN: " +:+ str_or (RecordPayment.debitNoteNo p) EmptyString
             +:+ ")"
        else EmptyString).

(** [newPaid] after step 1. *)
Definition newPaidOf (p : RecordPayment.t) (invoice : Invoice.t) : Z :=
  let currentPaid := num_or0 (Invoice.paidAmount invoice) in
  if isNonCashAdjustment (RecordPayment.category p) then currentPaid
  else match RecordPayment.type p with
       | credit => currentPaid + RecordPayment.amount p
       | debit => currentPaid - RecordPayment.amount p
       end.

(** The condition of step 2. *)
Definition tdsApplies (p : RecordPayment.t) : bool :=
  flag (RecordPayment.autoTds p)
  && match RecordPayment.type p with credit => true | debit => false end
  && negb (isNonCashAdjustment (RecordPayment.category p)).

(** [newAdjustments] after steps 1 and 2. *)
Definition newAdjustmentsOf (p : RecordPayment.t) (invoice : Invoice.t) : Z :=
  let currentAdjustments := num_or0 (Invoice.adjustments invoice) in
  let afterMain :=
    if isNonCashAdjustment (RecordPayment.category p) then
      match RecordPayment.type p with
      | credit => currentAdjustments + RecordPayment.amount p
      | debit => currentAdjustments - RecordPayment.amount p
      end
    else currentAdjustments in
  if tdsApplies p then afterMain + tdsOf (RecordPayment.amount p)
  else afterMain.

Definition mainTransaction (env : Env) (p : RecordPayment.t)
    (invoice : Invoice.t) : Transaction.t :=
  Transaction.mk ("tx_" +:+ showZ (Date_now env))
    (Some (Invoice.customerId invoice)) None None (RecordPayment.date p)
    (RecordPayment.amount p) (RecordPayment.type p)
    (mainDescription p invoice) (Some (Invoice.id invoice)) true
    None None None.

Definition tdsTransaction (env : Env) (p : RecordPayment.t)
    (invoice : Invoice.t) : Transaction.t :=
  Transaction.mk ("tx_tds_" +:+ showZ (Date_now env) +:+ "_2")
    (Some (Invoice.customerId invoice)) None None (RecordPayment.date p)
    (tdsOf (RecordPayment.amount p)) credit
    ("TDS Deduction (2%) - " +:+ Invoice.invoiceNumber invoice)
    (Some (Invoice.id invoice)) true None None None.

Definition newTransactionsOf (env : Env) (p : RecordPayment.t)
    (invoice : Invoice.t) : list Transaction.t :=
  [mainTransaction env p invoice] ++
  (if tdsApplies p then [tdsTransaction env p invoice] else []).

(** [new Date() > new Date(dueDate)]; a comparison with [NaN] is false. *)
Definition isOverdue (env : Env) (dueDate : string) : bool :=
  match Date_parse dueDate with
  | Some t => t <? Date_now env
  | None => false
  end.

(** Step 3: the status from the balance. *)
Definition statusFor (env : Env) (invoice : Invoice.t) (balance : Z) : InvoiceStatus :=
  if balance <=? 5 then paid
  else if balance <? Invoice.amount invoice then sent
  else if isOverdue env (Invoice.dueDate invoice) then overdue else sent.

Definition newStatusOf (env : Env) (p : RecordPayment.t)
    (invoice : Invoice.t) : InvoiceStatus :=
  let totalCredits := newPaidOf p invoice + newAdjustmentsOf p invoice in
  let balance := Invoice.amount invoice - totalCredits in
  statusFor env invoice balance.

Definition recordPayment (env : Env) (state : AppState.t)
    (p : RecordPayment.t) : AppState.t :=
  match List.find (fun i => String.eqb (Invoice.id i) (RecordPayment.invoiceId p))
                  (AppState.invoices state) with
  | None => state
  | Some invoice =>
      let newPaid := newPaidOf p invoice in
      let newAdjustments := newAdjustmentsOf p invoice in
      let newStatus := newStatusOf env p invoice in
      let log :=
        createLog env state "Record" E_Payment (Invoice.invoiceNumber invoice)
          ("Recorded " +:+
           match RecordPayment.type p with credit => "credit" | debit => "debit" end
           +:+ " of " +:+ formatINR (RecordPayment.amount p) +:+ " via " +:+
           RecordPayment.category p +:+ " " +:+
           (if flag (RecordPayment.autoTds p) then "(+TDS)" else EmptyString))
          (Some (InvoiceStatus_str (Invoice.status invoice)))
          (Some (InvoiceStatus_str newStatus)) in
      AppState.set_auditLogs (log :: AppState.auditLogs state)
        (AppState.set_notifications
           (AppState.notifications state ++
            [notify env "notif_" n_success "Payment recorded successfully."])
           (AppState.set_transactions
              (newTransactionsOf env p invoice ++ AppState.transactions state)
              (AppState.set_invoices
                 (List.map (fun i =>
                    if String.eqb (Invoice.id i) (Invoice.id invoice)
                    then Invoice.settle newPaid newAdjustments newStatus i
                    else i) (AppState.invoices state))
                 state)))
  end.

(** *** RECORD_VENDOR_PAYMENT *)

Definition vendorTds (p : RecordVendorPayment.t) : Z :=
  if RecordVendorPayment.autoTds p then tdsOf (RecordVendorPayment.amount p)
  else 0.

Definition vendorMainDesc (p : RecordVendorPayment.t) : string :=
  let reference := RecordVendorPayment.reference p in
  let bookingId := RecordVendorPayment.bookingId p in
  let trip := "(Trip: " +:+ str_or bookingId EmptyString +:+ ")" in
  if RecordVendorPayment.autoTds p then
    "Bank Payment - " +:+ reference +:+ " " +:+
    (if truthy bookingId then trip else EmptyString)
  else
    RecordVendorPayment.category p +:+ " - " +:+ reference +:+
    (if truthy bookingId then " " +:+ trip else EmptyString).

Definition vendorTransactions (env : Env) (p : RecordVendorPayment.t)
    (vid : string) (vendor : Vendor.t) : list Transaction.t :=
  [Transaction.mk ("vtx_" +:+ showZ (Date_now env) +:+ "_" +:+ vid)
     None (Some vid) (Some (Vendor.name vendor)) (RecordVendorPayment.date p)
     (RecordVendorPayment.amount p) credit (vendorMainDesc p)
     (RecordVendorPayment.bookingId p) true None
     (Some (RecordVendorPayment.reference p))
     (Some (RecordVendorPayment.category p))] ++
  (if RecordVendorPayment.autoTds p && (0 <? vendorTds p) then
     [Transaction.mk ("vtx_tds_" +:+ showZ (Date_now env) +:+ "_" +:+ vid)
        None (Some vid) (Some (Vendor.name vendor)) (RecordVendorPayment.date p)
        (vendorTds p) credit
        ("TDS (2%) on Payment " +:+ RecordVendorPayment.reference p)
        (RecordVendorPayment.bookingId p) true None None (Some "TDS")]
   else []).

(** One round of the [vendorIds.forEach] callback: it appends to
    [newTransactions] and writes the vendor object in place. *)
Definition payVendor (env : Env) (p : RecordVendorPayment.t)
    (updatedVendors : list loc) (acc : Heap * list Transaction.t)
    (vid : string) : Heap * list Transaction.t :=
  let '(h, newTransactions) := acc in
  match findVendor h updatedVendors vid with
  | None => acc
  | Some l =>
      match h !! l with
      | None => acc
      | Some vendor =>
          (<[l := Vendor.touch
                    (Z.max 0 (Vendor.balance vendor -
                              (RecordVendorPayment.amount p + vendorTds p)))
                    (toISOString (Date_now env)) vendor]> h,
           newTransactions ++ vendorTransactions env p vid vendor)
      end
  end.

Definition recordVendorPayment (env : Env) (h : Heap) (state : AppState.t)
    (p : RecordVendorPayment.t) : Heap * AppState.t :=
  let updatedVendors := AppState.vendors state in
  let '(h', newTransactions) :=
    fold_left (payVendor env p updatedVendors)
              (RecordVendorPayment.vendorIds p) (h, []) in
  let log :=
    createLog env state "Record" E_Payment
      (showZ (Z.of_nat (length (RecordVendorPayment.vendorIds p))) +:+ " Vendor(s)")
      ("Recorded " +:+ RecordVendorPayment.category p +:+ " of " +:+
       formatINR (RecordVendorPayment.amount p) +:+ " " +:+
       (if RecordVendorPayment.autoTds p then "(+TDS)" else EmptyString))
      None None in
  (h',
   AppState.set_auditLogs (log :: AppState.auditLogs state)
     (AppState.set_notifications
        (AppState.notifications state ++
         [notify env "n_" n_success "Vendor payment recorded."])
        (AppState.set_transactions
           (newTransactions ++ AppState.transactions state)
           (AppState.set_vendors updatedVendors state)))).

(** *** COMPLETE_TRIP *)

Definition isFreightOf (bookingId : string) (e : Expense.t) : bool :=
  opt_eqb (Expense.bookingId e) bookingId && is_Freight (Expense.category e).

Definition freightExpense (env : Env) (booking : Booking.t) : Expense.t :=
  Expense.mk ("exp_auto_" +:+ showZ (Date_now env))
    (Booking.vehicleId booking) Freight (Booking.expense booking)
    (split_head "T" (toISOString (Date_now env)))
    (str_or (Booking.vendorName booking) "Unknown")
    (Booking.vendorId booking) (Some (Booking.id booking)) None None
    approved (Some Auto) None.

(** The callback of [state.vendors.map] in COMPLETE_TRIP. *)
Definition creditVendor (env : Env) (booking : Booking.t) (v : Vendor.t)
    : option Vendor.t :=
  if opt_eqb (Booking.vendorId booking) (Vendor.id v)
  then Some (Vendor.touch (Vendor.balance v + Booking.expense booking)
                          (toISOString (Date_now env)) v)
  else None.

Definition completeTrip (env : Env) (h : Heap) (state : AppState.t)
    (bookingId : string) : Heap * AppState.t :=
  match List.find (fun b => String.eqb (Booking.id b) bookingId)
                  (AppState.bookings state) with
  | None => (h, state)
  | Some booking =>
      if negb (truthy (Booking.vendorId booking)) then
        (h, AppState.set_notifications
              (AppState.notifications state ++
               [notify env "n_" n_error
                  ("Trip " +:+ bookingId +:+ " has no vendor assigned.")])
              state)
      else
        match List.find (isFreightOf bookingId) (AppState.expenses state) with
        | Some _ =>
            (h, AppState.set_notifications
                  (AppState.notifications state ++
                   [notify env "n_" n_warning
                      ("Trip " +:+ bookingId +:+ " already posted to ledger.")])
                  state)
        | None =>
            let newExpense := freightExpense env booking in
            let '(h', updatedVendors) :=
              mapVendors (creditVendor env booking) h (AppState.vendors state) in
            let log :=
              createLog env state "Post" E_Expense bookingId
                ("Auto-posted freight charge of " +:+
                 formatINR (Booking.expense booking))
                (Some "Pending") (Some "Posted") in
            (h',
             AppState.set_notifications
               (AppState.notifications state ++
                [notify env "n_" n_success
                   ("Trip " +:+ bookingId +:+ " posted to Vendor Ledger.")])
               (AppState.set_auditLogs (log :: AppState.auditLogs state)
                  (AppState.set_expenses
                     (AppState.expenses state ++ [newExpense])
                     (AppState.set_vendors updatedVendors state))))
        end
  end.

(** *** The remaining branches *)

Definition deleteInvoice (env : Env) (state : AppState.t) (payload : string)
    : AppState.t :=
  if UserRole_eqb (SystemUser.role (AppState.currentUser state)) Accountant then
    AppState.set_notifications
      (AppState.notifications state ++
       [notify env "n_" n_error
          "Access Denied: Accountants cannot delete records."])
      state
  else
    let invToDelete :=
      List.find (fun i => String.eqb (Invoice.id i) payload)
                (AppState.invoices state) in
    let log :=
      createLog env state "Delete" E_Invoice
        (str_or (option_map Invoice.invoiceNumber invToDelete) payload)
        "Deleted Invoice Record" None None in
    AppState.set_notifications
      (AppState.notifications state ++
       [notify env "n_" n_success "Invoice deleted."])
      (AppState.set_auditLogs (log :: AppState.auditLogs state)
         (AppState.set_invoices
            (List.filter (fun i => negb (String.eqb (Invoice.id i) payload))
                         (AppState.invoices state))
            state)).

Definition addExpense (env : Env) (state : AppState.t) (payload : Expense.t)
    : AppState.t :=
  let threshold := 50000 in
  let isHighValue := threshold <? Expense.amount payload in
  let newExpense :=
    Expense.set_status (if isHighValue then pending_approval else approved)
                       payload in
  let log :=
    createLog env state "Create" E_Expense (Expense.id newExpense)
      ("Recorded expense ₹" +:+ showZ (Expense.amount newExpense) +:+ " (" +:+
       ExpenseCategory_str (Expense.category newExpense) +:+ ")")
      None (Some (if isHighValue then "Pending" else "Approved")) in
  let notifs :=
    AppState.notifications state ++
    [if isHighValue
     then notify env "n_" n_warning "Expense > ₹50k requires approval."
     else notify env "n_" n_success "Expense recorded successfully."] in
  AppState.set_notifications notifs
    (AppState.set_auditLogs (log :: AppState.auditLogs state)
       (AppState.set_expenses (newExpense :: AppState.expenses state) state)).

Definition approveExpense (env : Env) (state : AppState.t) (payload : string)
    : AppState.t :=
  match List.find (fun e => String.eqb (Expense.id e) payload)
                  (AppState.expenses state) with
  | None => state
  | Some expense =>
      let log :=
        createLog env state "Approve" E_Expense (Expense.id expense)
          "Approved high-value expense"
          (Some "pending_approval") (Some "approved") in
      AppState.set_notifications
        (AppState.notifications state ++
         [notify env "n_" n_success "Expense Approved."])
        (AppState.set_auditLogs (log :: AppState.auditLogs state)
           (AppState.set_expenses
              (List.map (fun e =>
                 if String.eqb (Expense.id e) payload
                 then Expense.set_status approved e else e)
                 (AppState.expenses state))
              state))
  end.

Definition updateInvoiceStatus (env : Env) (state : AppState.t) (id : string)
    (status : InvoiceStatus) : AppState.t :=
  let targetInv :=
    List.find (fun i => String.eqb (Invoice.id i) id)
              (AppState.invoices state) in
  let log :=
    createLog env state "Update" E_Invoice
      (str_or (option_map Invoice.invoiceNumber targetInv) EmptyString)
      "Status Change"
      (option_map (fun i => InvoiceStatus_str (Invoice.status i)) targetInv)
      (Some (InvoiceStatus_str status)) in
  AppState.set_auditLogs (log :: AppState.auditLogs state)
    (AppState.set_invoices
       (List.map (fun i =>
          if String.eqb (Invoice.id i) id
          then Invoice.set_status status i else i)
          (AppState.invoices state))
       state).

Definition sendReminders (env : Env) (state : AppState.t)
    (payload : list string) : AppState.t :=
  let timestamp := toISOString (Date_now env) in
  let count := Set_size payload in
  if count =? 0 then state
  else
    let log :=
      createLog env state "Communicate" E_Invoice (showZ count +:+ " items")
        "Sent bulk reminders" None (Some timestamp) in
    let newNote :=
      "Reminder Sent: " +:+ toLocaleDateString (Date_now env) +:+ " " +:+
      toLocaleTimeString (Date_now env) in
    AppState.set_notifications
      (AppState.notifications state ++
       [notify env "notif_" n_success
          ("Reminders sent to " +:+ showZ count +:+ " customers.")])
      (AppState.set_auditLogs (log :: AppState.auditLogs state)
         (AppState.set_invoices
            (List.map (fun i =>
               if Set_has payload (Invoice.id i) then
                 let currentNotes := str_or (Invoice.notes i) EmptyString in
                 Invoice.remind timestamp
                   (if String.eqb currentNotes EmptyString then newNote
                    else currentNotes +:+ nl +:+ newNote) i
               else i) (AppState.invoices state))
            state)).

(** ** The reducer *)

Definition appReducer (env : Env) (h : Heap) (state : AppState.t)
    (action : Action) : Heap * AppState.t :=
  match action with
  | SET_LOADING payload => (h, AppState.set_isLoading payload state)
  | SET_DATA payload => (h, AppState.merge state payload)
  | SET_SEARCH_QUERY payload => (h, AppState.set_searchQuery payload state)
  | SWITCH_USER targetRole =>
      (h, AppState.set_notifications
            (AppState.notifications state ++
             [notify env "n_" n_info
                ("Switched role to " +:+ UserRole_str targetRole)])
            (AppState.set_currentUser (userFor targetRole) state))
  | ADD_INVOICE payload =>
      let log :=
        createLog env state "Create" E_Invoice (Invoice.invoiceNumber payload)
          ("Created invoice for " +:+ formatINR (Invoice.amount payload))
          None None in
      (h, AppState.set_auditLogs (log :: AppState.auditLogs state)
            (AppState.set_invoices (payload :: AppState.invoices state) state))
  | DELETE_INVOICE payload => (h, deleteInvoice env state payload)
  | ADD_EXPENSE payload => (h, addExpense env state payload)
  | APPROVE_EXPENSE payload => (h, approveExpense env state payload)
  | MATCH_BANK_TRANSACTION payload =>
      (h, AppState.set_bankFeed
            (List.map (fun t =>
               if String.eqb (BankTransaction.id t) payload
               then BankTransaction.set_status matched t else t)
               (AppState.bankFeed state))
            state)
  | UPDATE_PROFILE payload =>
      (h, AppState.set_userProfile
            (UserProfile.merge (AppState.userProfile state) payload) state)
  | UPDATE_INVOICE_STATUS id status => (h, updateInvoiceStatus env state id status)
  | RECORD_PAYMENT payload => (h, recordPayment env state payload)
  | RECORD_VENDOR_PAYMENT payload => recordVendorPayment env h state payload
  | COMPLETE_TRIP bookingId => completeTrip env h state bookingId
  | SEND_REMINDERS payload => (h, sendReminders env state payload)
  | MARK_BOOKINGS_INVOICED payload =>
      (h, AppState.set_bookings
            (List.map (fun b =>
               if Set_has payload (Booking.id b)
               then Booking.set_status invoiced b else b)
               (AppState.bookings state))
            state)
  | ADD_NOTIFICATION message type =>
      (h, AppState.set_notifications
            (AppState.notifications state ++
             [notify env "notif_" type message])
            state)
  | REMOVE_NOTIFICATION payload =>
      (h, AppState.set_notifications
            (List.filter (fun n => negb (String.eqb (Notification.id n) payload))
                         (AppState.notifications state))
            state)
  | OTHER _ => (h, state)
  end.

(** Dispatching a sequence of actions, each at its own instant. *)
Fixpoint dispatchAll (h : Heap) (state : AppState.t)
    (steps : list (Env * Action)) : Heap * AppState.t :=
  match steps with
  | [] => (h, state)
  | (env, a) :: rest =>
      let '(h', state') := appReducer env h state a in
      dispatchAll h' state' rest
  end.

(** The vendor records a state denotes in a store. *)
Definition vendorsOf (h : Heap) (state : AppState.t) : list (option Vendor.t) :=
  List.map (fun l => h !! l) (AppState.vendors state).

End Reducer.

(** ** The customer ledger view (CustomerLedger.tsx, [ledgerData]) *)

Inductive LedgerKind := L_Manual | L_Auto | L_Adjustment.

Module LedgerEntry.
Record t := mk {
  id : string; date : string; invoiceId : option string;
  invoiceNumber : string; customerId : string; customerName : string;
  entryType : LedgerKind; category : string; credit : Z; debit : Z;
  balance : Z; shortPayment : option Z;
  showShortPayment : option bool;  (* only on the latest row *)
  isLinkedToPrevious : option bool }.

(** [{ ...entry, balance }] *)
Definition set_balance (b : Z) (e : t) : t :=
  mk (id e) (date e) (invoiceId e) (invoiceNumber e) (customerId e)
     (customerName e) (entryType e) (category e) (credit e) (debit e) b
     (shortPayment e) (showShortPayment e) (isLinkedToPrevious e).

(** [{ ...entry, showShortPayment }] *)
Definition set_showShortPayment (f : option bool) (e : t) : t :=
  mk (id e) (date e) (invoiceId e) (invoiceNumber e) (customerId e)
     (customerName e) (entryType e) (category e) (credit e) (debit e)
     (balance e) (shortPayment e) f (isLinkedToPrevious e).
End LedgerEntry.

(** [Array.prototype.sort] with a comparator.  ECMAScript fixes the result
    for a consistent comparator: the stable ordering.  A comparator result
    of [NaN] ([None]) counts as [+0]. *)
Section ArraySort.
Context {A : Type} (comparefn : A -> A -> option Z).

Definition SortCompare (x y : A) : Z :=
  match comparefn x y with
  | Some v => v
  | None => 0
  end.

Fixpoint sort_insert (x : A) (l : list A) : list A :=
  match l with
  | [] => [x]
  | y :: l' =>
      if 0 <? SortCompare x y then y :: sort_insert x l' else x :: l
  end.

Fixpoint Array_sort (l : list A) : list A :=
  match l with
  | [] => []
  | x :: l' => sort_insert x (Array_sort l')
  end.

(** [a] may stand before [b]. *)
Definition inOrder (a b : A) : Prop := SortCompare a b <= 0.
End ArraySort.

Module CustomerLedger.
Section View.
Context `{Runtime}.

Definition invoiceEntry (inv : Invoice.t) : LedgerEntry.t :=
  LedgerEntry.mk ("led_inv_" +:+ Invoice.id inv) (Invoice.date inv)
    (Some (Invoice.id inv)) (Invoice.invoiceNumber inv)
    (Invoice.customerId inv) (Invoice.customerName inv) L_Auto "Invoice"
    0 (Invoice.amount inv) 0 (Some 0) None None.

Definition transactionEntry (invoices : list Invoice.t) (t : Transaction.t)
    : LedgerEntry.t :=
  let linkedInv :=
    List.find (fun i => opt_eqb (Transaction.referenceId t) (Invoice.id i))
              invoices in
  let categoryName := split_head " - " (Transaction.description t) in
  let isAdjustment := Array_includes nonCash categoryName in
  let isTDS := String_includes "TDS" categoryName in
  let shortPayment :=
    match linkedInv with
    | Some inv =>
        if match Transaction.type t with credit => true | debit => false end
           || isAdjustment
        then
          let invPaid := num_or0 (Invoice.paidAmount inv) in
          let invAdj := num_or0 (Invoice.adjustments inv) in
          let totalCredits := invPaid + invAdj in
          let currentBalance := Invoice.amount inv - totalCredits in
          if 1 <? currentBalance then currentBalance else 0
        else 0
    | None => 0
    end in
  LedgerEntry.mk ("led_tx_" +:+ Transaction.id t) (Transaction.date t)
    (option_map Invoice.id linkedInv)
    (str_or (option_map Invoice.invoiceNumber linkedInv) "-")
    (str_or (Transaction.customerId t) EmptyString)
    (str_or (option_map Invoice.customerName linkedInv) "Unknown")
    (if isAdjustment then L_Adjustment else L_Manual)
    (Transaction.description t)
    (match Transaction.type t with
     | credit => Transaction.amount t | debit => 0 end)
    (match Transaction.type t with
     | debit => Transaction.amount t | credit => 0 end)
    0 (Some shortPayment) None (Some isTDS).

Definition isInvoiceRow (e : LedgerEntry.t) : bool :=
  String.eqb (LedgerEntry.category e) "Invoice".

(** [new Date(e.date).getTime()] *)
Definition getTime (e : LedgerEntry.t) : option Z :=
  Date_parse (LedgerEntry.date e).

(** The comparator given to [allEntries.sort]; [None] is [NaN]. *)
Definition compareEntries (a b : LedgerEntry.t) : option Z :=
  match getTime a, getTime b with
  | Some ta, Some tb =>
      let dateDiff := ta - tb in
      if negb (dateDiff =? 0) then Some dateDiff
      else if isInvoiceRow a && negb (isInvoiceRow b) then Some (-1)
      else if negb (isInvoiceRow a) && isInvoiceRow b then Some 1
      else Some 0
  | _, _ => None
  end.

(** The [map] that threads [runningBalance]. *)
Fixpoint withRunningBalance (runningBalance : Z) (l : list LedgerEntry.t)
    : list LedgerEntry.t :=
  match l with
  | [] => []
  | entry :: rest =>
      let runningBalance' :=
        runningBalance + LedgerEntry.debit entry - LedgerEntry.credit entry in
      LedgerEntry.set_balance runningBalance' entry
        :: withRunningBalance runningBalance' rest
  end.

(** The predicate of the [localSearch] filter. *)
Definition matchesSearch (selectedCustomerId q : string) (e : LedgerEntry.t)
    : bool :=
  String_includes q (toLowerCase (LedgerEntry.invoiceNumber e))
  || String_includes q (toLowerCase (LedgerEntry.category e))
  || (String.eqb selectedCustomerId "all"
      && String_includes q (toLowerCase (LedgerEntry.customerName e))).

(** The post-process over [reversed], threading [seenInvoices]. *)
Fixpoint flagShortPayments (seenInvoices : list string)
    (reversed : list LedgerEntry.t) : list LedgerEntry.t :=
  match reversed with
  | [] => []
  | entry :: rest =>
      if truthy (LedgerEntry.invoiceId entry)
         && negb (Set_has seenInvoices
                    (str_or (LedgerEntry.invoiceId entry) EmptyString))
      then
        LedgerEntry.set_showShortPayment
          (Some (negb (isInvoiceRow entry))) entry
        :: flagShortPayments
             (str_or (LedgerEntry.invoiceId entry) EmptyString
              :: seenInvoices) rest
      else
        LedgerEntry.set_showShortPayment (Some false) entry
        :: flagShortPayments seenInvoices rest
  end.

Definition invoiceEntries (invoices : list Invoice.t)
    (selectedCustomerId : string) : list LedgerEntry.t :=
  let relevantInvoices :=
    if String.eqb selectedCustomerId "all" then invoices
    else List.filter (fun i => String.eqb (Invoice.customerId i) selectedCustomerId)
                     invoices in
  List.map invoiceEntry relevantInvoices.

Definition transactionEntries (invoices : list Invoice.t)
    (transactions : list Transaction.t) (selectedCustomerId : string)
    : list LedgerEntry.t :=
  let relevantTransactions :=
    if String.eqb selectedCustomerId "all" then transactions
    else List.filter (fun t => opt_eqb (Transaction.customerId t) selectedCustomerId)
                     transactions in
  List.map (transactionEntry invoices)
    (List.filter (fun t => truthy (Transaction.customerId t))
                 relevantTransactions).

(** The rows in ascending order with their running balance, before the
    search filter and the reversal. *)
Definition ascendingEntries (invoices : list Invoice.t)
    (transactions : list Transaction.t) (selectedCustomerId : string)
    : list LedgerEntry.t :=
  let allEntries :=
    invoiceEntries invoices selectedCustomerId ++
    transactionEntries invoices transactions selectedCustomerId in
  withRunningBalance 0 (Array_sort compareEntries allEntries).

Definition searched (localSearch selectedCustomerId : string)
    (allEntries : list LedgerEntry.t) : list LedgerEntry.t :=
  if String.eqb localSearch EmptyString then allEntries
  else List.filter (matchesSearch selectedCustomerId (toLowerCase localSearch))
                   allEntries.

(** [ledgerData] *)
Definition ledgerData (invoices : list Invoice.t)
    (transactions : list Transaction.t)
    (localSearch selectedCustomerId : string) : list LedgerEntry.t :=
  let allEntries :=
    searched localSearch selectedCustomerId
      (ascendingEntries invoices transactions selectedCustomerId) in
  let reversed := rev allEntries in
  flagShortPayments [] reversed.

End View.
End CustomerLedger.

(** ** A host and sample data for evaluating the model *)

(** A host that renders amounts without digit grouping and knows the
    dates the examples use (epoch milliseconds, UTC). *)
Definition sampleDates : list (string * Z) :=
  [("2024-01-15", 1705276800000); ("2024-02-01", 1706745600000);
   ("2024-03-01", 1709251200000)].

Definition sampleParse (s : string) : option Z :=
  option_map snd (List.find (fun d => String.eqb (fst d) s) sampleDates).

Definition sampleISO (z : Z) : string :=
  match List.find (fun d => snd d =? z) sampleDates with
  | Some d => fst d +:+ "T00:00:00.000Z"
  | None => "1970-01-01T00:00:00.000Z"
  end.

Definition sampleRuntime : Runtime :=
  {| toLocaleString_INR := fun z => "INR " +:+ showZ z;
     toISOString := sampleISO;
     toLocaleDateString := fun z => split_head "T" (sampleISO z);
     toLocaleTimeString := fun _ => "00:00:00";
     Date_parse := sampleParse;
     toLowerCase := fun s => s |}.

Definition env1 : Env := mkEnv 1709251200000 "0.25".
Definition env2 : Env := mkEnv 1709251200001 "0.75".

Definition sampleInvoice (id number date due : string) (amount : Z)
    (paid adj : option Z) : Invoice.t :=
  Invoice.mk id "cust_1" "Acme Freight" number sent date due amount paid adj
    None None [] None None.

Definition sampleUser (role : UserRole) : SystemUser.t :=
  SystemUser.mk "u1" "John Smith" "john@opt.com" role Active.

Definition sampleVendor (id : string) (balance : Z) : Vendor.t :=
  Vendor.mk id "Speedy Carriers" None None None 4 "Transporter" balance 30.

Definition sampleBooking (id : string) (expense : Z) (vendorId : option string)
    : Booking.t :=
  Booking.mk id "cust_1" "Acme Freight" "Pune" "Mumbai" 150 "veh_1" "Ravi" "+91"
    "2024-01-15" "2024-02-01" 9000 expense pending None true vendorId
    (Some "Speedy Carriers").

Definition sampleState (role : UserRole) (invoices : list Invoice.t)
    (bookings : list Booking.t) (expenses : list Expense.t)
    (transactions : list Transaction.t) (vendors : list loc) : AppState.t :=
  AppState.mk (sampleUser role) [] invoices bookings [] expenses transactions
    [] vendors [] [] [] (UserProfile.mk "Optimile" "27AABCU9603R1ZN" "Pune" None)
    [] [] false EmptyString.

(** ** Notions the properties are stated with *)

Abbreviation isInv := CustomerLedger.isInvoiceRow.
Abbreviation cmpE := CustomerLedger.compareEntries.

Section Notions.
Context `{Runtime}.

(** [i => i.id === I] *)
Definition hasId (I : string) (i : Invoice.t) : bool :=
  String.eqb (Invoice.id i) I.

(** The reading of "a stale reference is a no-op": the reducer hands back
    the store and the state it was given. *)
Definition staleNoop (env : Env) (h : Heap) (state : AppState.t)
    (a : Action) : Prop :=
  appReducer env h state a = (h, state).

(** Every reference the state holds denotes an object. *)
Definition wfRefs (h : Heap) (refs : list loc) : Prop :=
  Forall (fun l => (l < length h)%nat) refs.

(** What [refs.map(v => f v ? copy : v)] returns, read as values. *)
Definition mapped (f : Vendor.t -> option Vendor.t) (v : Vendor.t) : Vendor.t :=
  match f v with
  | Some v' => v'
  | None => v
  end.

(** Balances of the objects the references denote are not negative. *)
Definition refsNonneg (h : Heap) (refs : list loc) : Prop :=
  forall l v, In l refs -> h !! l = Some v -> 0 <= Vendor.balance v.

(** The state COMPLETE_TRIP builds when it posts the freight expense. *)
Definition postedState (env : Env) (state : AppState.t) (bookingId : string)
    (booking : Booking.t) (updatedVendors : list loc) : AppState.t :=
  AppState.set_notifications
    (AppState.notifications state ++
     [notify env "n_" n_success
        ("Trip " +:+ bookingId +:+ " posted to Vendor Ledger.")])
    (AppState.set_auditLogs
       (createLog env state "Post" E_Expense bookingId
          ("Auto-posted freight charge of " +:+
           formatINR (Booking.expense booking))
          (Some "Pending") (Some "Posted")
        :: AppState.auditLogs state)
       (AppState.set_expenses
          (AppState.expenses state ++ [freightExpense env booking])
          (AppState.set_vendors updatedVendors state))).

(** The actions the vendor-balance invariant is about. *)
Definition isVendorFlow (a : Action) : Prop :=
  match a with
  | RECORD_VENDOR_PAYMENT _ | COMPLETE_TRIP _ => True
  | _ => False
  end.

Definition expensesNonneg (state : AppState.t) : Prop :=
  Forall (fun b => 0 <= Booking.expense b) (AppState.bookings state).

(** Freight idempotence in the words of the specification: after two
    COMPLETE_TRIP dispatches for a booking there is exactly one Freight
    expense linked to it, the balance of the booking's vendor has gone up
    by the booking's expense exactly once, and the second dispatch changed
    nothing but the notifications, which gained one warning. *)
Definition postsOnce (envA envB : Env) (h : Heap) (state : AppState.t)
    (bookingId : string) (booking : Booking.t) : Prop :=
  let r1 := appReducer envA h state (COMPLETE_TRIP bookingId) in
  let r2 := appReducer envB (fst r1) (snd r1) (COMPLETE_TRIP bookingId) in
  (exists e,
      List.filter (isFreightOf bookingId) (AppState.expenses (snd r2)) = [e]
      /\ Expense.amount e = Booking.expense booking
      /\ Expense.status e = approved
      /\ Expense.entryType e = Some Auto)
  /\ List.map (option_map Vendor.balance) (vendorsOf (fst r2) (snd r2))
     = List.map
         (option_map (fun v =>
            if opt_eqb (Booking.vendorId booking) (Vendor.id v)
            then Vendor.balance v + Booking.expense booking
            else Vendor.balance v))
         (vendorsOf h state)
  /\ fst r2 = fst r1
  /\ exists w,
       snd r2 = AppState.set_notifications
                  (AppState.notifications (snd r1) ++ [w]) (snd r1)
       /\ Notification.type w = n_warning.

(** Purity in the words of the specification, at one state and action:
    two invocations return equal results, and the vendor records of the input
    state read the same after the call as before it. *)
Definition pureAt (envA envB : Env) (h : Heap) (state : AppState.t)
    (a : Action) : Prop :=
  appReducer envA h state a = appReducer envB h state a
  /\ vendorsOf (fst (appReducer envA h state a)) state = vendorsOf h state.

(** The actions whose branch reads neither the clock nor [Math.random]. *)
Definition readsNoEnv (a : Action) : bool :=
  match a with
  | SET_LOADING _ | SET_DATA _ | SET_SEARCH_QUERY _
  | MATCH_BANK_TRANSACTION _ | UPDATE_PROFILE _
  | MARK_BOOKINGS_INVOICED _ | REMOVE_NOTIFICATION _ | OTHER _ => true
  | _ => false
  end.

Definition isVendorPayment (a : Action) : bool :=
  match a with
  | RECORD_VENDOR_PAYMENT _ => true
  | _ => false
  end.

(** The date text of the row denotes an instant for the host. *)
Definition validDate (e : LedgerEntry.t) : Prop :=
  Date_parse (LedgerEntry.date e) <> None.

(** The row is dated at the instant [d]. *)
Definition timeIs (d : Z) (e : LedgerEntry.t) : bool :=
  match Date_parse (LedgerEntry.date e) with
  | Some t => t =? d
  | None => false
  end.

(** The instant of a row, for rows with a valid date. *)
Definition timeOf (e : LedgerEntry.t) : Z :=
  match Date_parse (LedgerEntry.date e) with
  | Some t => t
  | None => 0
  end.

(** Date ascending, in the words of the specification: of two rows whose
    dates denote instants, the one that comes first in the list is not
    dated later than the other. *)
Definition ascendingByDate (l : list LedgerEntry.t) : Prop :=
  forall i j a b ta tb,
    (i < j)%nat -> l !! i = Some a -> l !! j = Some b ->
    Date_parse (LedgerEntry.date a) = Some ta ->
    Date_parse (LedgerEntry.date b) = Some tb ->
    ta <= tb.

(** Debits less credits over a list of rows. *)
Definition netOf (l : list LedgerEntry.t) : Z :=
  fold_right (fun e acc => LedgerEntry.debit e - LedgerEntry.credit e + acc) 0 l.

(** What holds of every row as it is built: no balance and no flag yet. *)
Definition freshRow (e : LedgerEntry.t) : Prop :=
  LedgerEntry.balance e = 0 /\ LedgerEntry.showShortPayment e = None.

(** The short-payment flag in the words of the specification: walking the
    rows newest first,
    the flag goes to the first row of each invoice that is not the invoice
    row itself, that is, to the invoice's most recent transaction row. *)
Fixpoint latestTransactionFlags (flagged : list string)
    (reversed : list LedgerEntry.t) : list bool :=
  match reversed with
  | [] => []
  | entry :: rest =>
      if truthy (LedgerEntry.invoiceId entry)
         && negb (isInv entry)
         && negb (Set_has flagged
                    (str_or (LedgerEntry.invoiceId entry) EmptyString))
      then true
           :: latestTransactionFlags
                (str_or (LedgerEntry.invoiceId entry) EmptyString :: flagged)
                rest
      else false :: latestTransactionFlags flagged rest
  end.

Definition flagsAsSpecified (out : list LedgerEntry.t) : Prop :=
  List.map LedgerEntry.showShortPayment out
  = List.map Some (latestTransactionFlags [] out).

End Notions.

(** ** Sample inputs *)

Definition payFull : RecordPayment.t :=
  RecordPayment.mk "inv_1" "2024-03-01" "UTR1" 9800 credit "Full payment"
    None (Some true).

Definition freshInvoice : Invoice.t :=
  sampleInvoice "inv_1" "INV-001" "2024-02-01" "2024-03-01" 10000 None None.

Definition overpay : RecordPayment.t :=
  RecordPayment.mk "inv_1" "2024-03-01" "UTR2" 12000 credit "Full payment"
    None None.

Definition accountantState : AppState.t :=
  sampleState Accountant [freshInvoice] [] [] [] [].

Definition adminState : AppState.t :=
  sampleState Admin [freshInvoice] [] [] [] [].

Definition tripBooking : Booking.t := sampleBooking "BK-1" 5000 (Some "vnd_1").

Definition tripState : AppState.t :=
  sampleState Admin [] [tripBooking] [] [] [0%nat].

Definition tripHeap : list Vendor.t := [sampleVendor "vnd_1" 5000].

(** A state in which the freight of BK-1 is already on the books. *)
Definition postedExpense : Expense.t :=
  Expense.mk "exp_1" "veh_1" Freight 5000 "2024-02-01" "Speedy Carriers"
    (Some "vnd_1") (Some "BK-1") None None approved (Some Auto) None.

Definition alreadyPosted : AppState.t :=
  sampleState Admin [] [tripBooking] [postedExpense] [] [0%nat].

Definition payVnd1 : RecordVendorPayment.t :=
  RecordVendorPayment.mk ["vnd_1"] "2024-03-01" 1000 "Full payment" "UTR5"
    true None.

(** An advance recorded on 15 January against an invoice dated 1 February,
    and a part payment made on the invoice date. *)
Definition febInvoice : Invoice.t :=
  sampleInvoice "inv_1" "INV-001" "2024-02-01" "2024-03-01" 10000 (Some 4900) None.

Definition sampleReceipt (id date description : string) (amount : Z)
    : Transaction.t :=
  Transaction.mk id (Some "cust_1") None None date amount credit description
    (Some "inv_1") true None None None.

(** Three invoices, the second of which has lost its date. *)
Definition marInvoice : Invoice.t :=
  sampleInvoice "inv_3" "INV-003" "2024-03-01" "2024-03-01" 3000 None None.

Definition blankInvoice : Invoice.t :=
  sampleInvoice "inv_2" "INV-002" EmptyString "2024-03-01" 2000 None None.

Definition janInvoice : Invoice.t :=
  sampleInvoice "inv_1" "INV-001" "2024-01-15" "2024-03-01" 1000 None None.

Definition janAdvance : Transaction.t :=
  sampleReceipt "tx_1" "2024-01-15" "Advance payment - INV-001 " 4900.

Definition febPayment : Transaction.t :=
  sampleReceipt "tx_2" "2024-02-01" "Partial payment - INV-001 " 4900.

(** ** Further code: derived views and the dialogs that dispatch *)

(** [Math.floor] and [Math.ceil] of an exact quotient. *)
Definition Math_floor (q : Q) : Z := Qfloor q.
Definition Math_ceil (q : Q) : Z := Qceiling q.

(** [a < b] on exact rationals. *)
Definition Qltb (a b : Q) : bool := negb (Qle_bool b a).

(** [s.split('').reduce((a, b) => a + b.charCodeAt(0), 0)], for an id made
    of ASCII characters. *)
Fixpoint charCodeSum (s : string) : Z :=
  match s with
  | EmptyString => 0
  | String c s' => Z.of_nat (nat_of_ascii c) + charCodeSum s'
  end.

Inductive DisplayStatus := Paid | Overdue | PartiallyPaid | Unpaid.

Module DerivedInvoice.
(** [{ ...inv, paidAmount, balanceAmount, overdueDays, displayStatus }] *)
Record t := mk {
  inv : Invoice.t; paidAmount : Z; balanceAmount : Z; overdueDays : Z;
  displayStatus : DisplayStatus }.
End DerivedInvoice.

(** Rows of the vendor's operational ledger (VendorDetails): as built from
    expenses and transactions, and as returned with the running balance. *)
Module VendorEntry.
Record t := mk {
  id : string; date : string; bookingId : option string;
  entryType : EntryKind; category : string; paymentMode : string;
  referenceNo : string; debit : Z; credit : Z; isDisputed : bool }.
End VendorEntry.

Module VendorRow.
Record t := mk {
  entry : VendorEntry.t; freightAmount : Z; paidAmount : Z; balance : Z }.
End VendorRow.

Inductive MatchKind := M_Invoice | M_Expense.

Module Suggestion.
Record t := mk {
  id : string; date : string; description : string; amount : Z;
  type : MatchKind }.
End Suggestion.

(** The values of the payment form (PaymentModal) when it is submitted. *)
Module PaymentForm.
Record t := mk {
  entry : TransactionType; invoiceId : string; category : string;
  amount : Z; reference : string; debitNoteNo : string; date : string;
  autoTds : bool }.
End PaymentForm.

Section Views.
Context `{Runtime}.

(** *** CustomerLedger: [deriveInvoiceData], [customerExposure] *)

Definition msPerDay : Z := 1000 * 60 * 60 * 24.

Definition deriveInvoiceData (env : Env) (inv : Invoice.t) : DerivedInvoice.t :=
  let adjustments := num_or0 (Invoice.adjustments inv) in
  let paid :=
    match Invoice.paidAmount inv with
    | Some p => p
    | None =>
        (* mock simulation for missing data *)
        match Invoice.status inv with
        | paid => Invoice.amount inv
        | sent =>
            let sum := charCodeSum (Invoice.id inv) in
            if sum mod 3 =? 0
            then Math_floor (Qmult (inject_Z (Invoice.amount inv)) (4 # 10))
            else 0
        | _ => 0
        end
    end in
  let balance0 := Invoice.amount inv - (paid + adjustments) in
  let balance := if balance0 <? 0 then 0 else balance0 in
  let overdueDays :=
    match Date_parse (Invoice.dueDate inv) with
    | Some due =>
        let diffTime := Date_now env - due in
        if (0 <? balance) && (0 <? diffTime)
        then Math_ceil (Qdiv (inject_Z diffTime) (inject_Z msPerDay))
        else 0
    | None => 0
    end in
  let displayStatus :=
    if balance <=? 5 then Paid
    else if (0 <? balance) && (0 <? overdueDays) then Overdue
    else if ((0 <? paid) || (0 <? adjustments)) && (0 <? balance)
         then PartiallyPaid
    else Unpaid in
  DerivedInvoice.mk inv paid balance overdueDays displayStatus.

Definition customerAllInvoices (invoices : list Invoice.t)
    (selectedCustomerId : string) : list Invoice.t :=
  if String.eqb selectedCustomerId "all" then []
  else List.filter (fun i => String.eqb (Invoice.customerId i) selectedCustomerId)
                   invoices.

Definition customerExposure (invoices : list Invoice.t)
    (selectedCustomerId : string) : Z :=
  fold_left
    (fun acc inv =>
       let paid := num_or0 (Invoice.paidAmount inv) in
       let adj := num_or0 (Invoice.adjustments inv) in
       let bal := Z.max 0 (Invoice.amount inv - paid - adj) in
       acc + bal)
    (customerAllInvoices invoices selectedCustomerId) 0.

(** *** PaymentModal *)

Definition openInvoices (state : AppState.t) : list Invoice.t :=
  List.filter
    (fun i => match Invoice.status i with paid => false | _ => true end)
    (AppState.invoices state).

(** [balance] of the invoice selected in the form. *)
Definition formBalance (state : AppState.t) (selectedInvoiceId : string) : Z :=
  match List.find (fun i => String.eqb (Invoice.id i) selectedInvoiceId)
                  (AppState.invoices state) with
  | Some currentInvoice =>
      Invoice.amount currentInvoice
      - (num_or0 (Invoice.paidAmount currentInvoice)
         + num_or0 (Invoice.adjustments currentInvoice))
  | None => 0
  end.

(** The amount the form fills in for "Full payment"; the field holds its
    decimal rendering, which [Number] reads back on submit. *)
Definition suggestedAmount (autoTds : bool) (balance : Z) : Z :=
  let suggested :=
    if autoTds then Math_floor (Qmult (inject_Z balance) (98 # 100))
    else balance in
  if 0 <? suggested then suggested else 0.

(** [onSubmit]: nothing is dispatched without an invoice id. *)
Definition onSubmit (data : PaymentForm.t) : option Action :=
  if String.eqb (PaymentForm.invoiceId data) EmptyString then None
  else Some (RECORD_PAYMENT
               (RecordPayment.mk (PaymentForm.invoiceId data)
                  (PaymentForm.date data) (PaymentForm.reference data)
                  (PaymentForm.amount data) (PaymentForm.entry data)
                  (PaymentForm.category data)
                  (Some (PaymentForm.debitNoteNo data))
                  (Some (PaymentForm.autoTds data)))).

(** *** VendorDetails: [ledgerData], [isBookingPosted] *)

Definition disputeCategories : list string :=
  ["Shortage Deduction"; "Damage Penalty"].

(** The members of [disputedBookingIds]. *)
Definition disputedBookingIds (transactions : list Transaction.t)
    (vendor : Vendor.t) : list string :=
  List.map (fun o => str_or o EmptyString)
    (List.filter truthy
       (List.map Transaction.referenceId
          (List.filter
             (fun t => opt_eqb (Transaction.vendorId t) (Vendor.id vendor)
                       && Array_includes disputeCategories
                            (str_or (Transaction.category t) EmptyString))
             transactions))).

Definition vendorDebits (state : AppState.t) (vendor : Vendor.t)
    : list VendorEntry.t :=
  List.map
    (fun e =>
       VendorEntry.mk (Expense.id e) (Expense.date e) (Expense.bookingId e)
         (match Expense.entryType e with Some k => k | None => Auto end)
         (ExpenseCategory_str (Expense.category e)) "-" "-"
         (Expense.amount e) 0
         (if truthy (Expense.bookingId e)
          then Set_has (disputedBookingIds (AppState.transactions state) vendor)
                       (str_or (Expense.bookingId e) EmptyString)
          else false))
    (List.filter (fun e => opt_eqb (Expense.vendorId e) (Vendor.id vendor))
                 (AppState.expenses state)).

Definition vendorCredits (state : AppState.t) (vendor : Vendor.t)
    : list VendorEntry.t :=
  List.map
    (fun t =>
       VendorEntry.mk (Transaction.id t) (Transaction.date t)
         (Transaction.referenceId t) Manual
         (str_or (Transaction.category t) "Payment")
         (str_or (Transaction.paymentMode t) "NA")
         (str_or (Transaction.referenceNo t) "-")
         0 (Transaction.amount t) false)
    (List.filter
       (fun t => opt_eqb (Transaction.vendorId t) (Vendor.id vendor)
                 && match Transaction.type t with
                    | credit => true
                    | debit => false
                    end)
       (AppState.transactions state)).

(** The comparator of the vendor ledger: dates only; [None] is [NaN]. *)
Definition compareByDate (a b : VendorEntry.t) : option Z :=
  match Date_parse (VendorEntry.date a), Date_parse (VendorEntry.date b) with
  | Some ta, Some tb => Some (ta - tb)
  | _, _ => None
  end.

Fixpoint vendorRunning (runningBalance : Z) (l : list VendorEntry.t)
    : list VendorRow.t :=
  match l with
  | [] => []
  | entry :: rest =>
      let runningBalance' :=
        runningBalance + VendorEntry.debit entry - VendorEntry.credit entry in
      VendorRow.mk entry (VendorEntry.debit entry) (VendorEntry.credit entry)
        runningBalance'
      :: vendorRunning runningBalance' rest
  end.

(** [ledgerData] of the vendor page for the vendor with the given id. *)
Definition vendorLedgerData (h : Heap) (state : AppState.t) (id : string)
    : list VendorRow.t :=
  match findVendor h (AppState.vendors state) id with
  | None => []
  | Some l =>
      match h !! l with
      | None => []
      | Some vendor =>
          let allEntries :=
            Array_sort compareByDate
              (vendorDebits state vendor ++ vendorCredits state vendor) in
          rev (vendorRunning 0 allEntries)
      end
  end.

Definition isBookingPosted (state : AppState.t) (bookingId : string) : bool :=
  existsb (isFreightOf bookingId) (AppState.expenses state).

(** *** Reconciliation: [unmatchedBankTx], [suggestedMatches] *)

Definition unmatchedBankTx (state : AppState.t) : list BankTransaction.t :=
  List.filter
    (fun bt => match BankTransaction.status bt with
               | unmatched => true
               | matched => false
               end)
    (AppState.bankFeed state).

(** [Math.abs(x - amount) < amount * 0.01] *)
Definition within1pct (x amount : Z) : bool :=
  Qltb (inject_Z (Z.abs (x - amount))) (Qmult (inject_Z amount) (1 # 100)).

Definition suggestedMatches (state : AppState.t)
    (selectedBankTx : option BankTransaction.t) : list Suggestion.t :=
  match selectedBankTx with
  | None => []
  | Some bt =>
      match BankTransaction.type bt with
      | credit =>
          List.map
            (fun inv =>
               Suggestion.mk (Invoice.id inv) (Invoice.date inv)
                 ("Invoice #" +:+ Invoice.invoiceNumber inv +:+ " - " +:+
                  Invoice.customerName inv)
                 (Invoice.amount inv) M_Invoice)
            (List.filter
               (fun inv => within1pct (Invoice.amount inv)
                                      (BankTransaction.amount bt))
               (AppState.invoices state))
      | debit =>
          List.map
            (fun exp =>
               Suggestion.mk (Expense.id exp) (Expense.date exp)
                 (ExpenseCategory_str (Expense.category exp) +:+ " - " +:+
                  Expense.vendor exp)
                 (Expense.amount exp) M_Expense)
            (List.filter
               (fun exp => within1pct (Expense.amount exp)
                                      (BankTransaction.amount bt))
               (AppState.expenses state))
      end
  end.

End Views.

(** ** Notions for the further properties *)

Section MoreNotions.
Context `{Runtime}.

(** The money fields of an invoice. *)
Definition moneyOf (i : Invoice.t) : string * Z * option Z * option Z :=
  (Invoice.id i, Invoice.amount i, Invoice.paidAmount i, Invoice.adjustments i).

(** The actions that replace, add, remove or settle invoices. *)
Definition touchesInvoiceMoney (a : Action) : bool :=
  match a with
  | SET_DATA _ | ADD_INVOICE _ | DELETE_INVOICE _ | RECORD_PAYMENT _ => true
  | _ => false
  end.

Definition isSetData (a : Action) : bool :=
  match a with
  | SET_DATA _ => true
  | _ => false
  end.

(** The audit entry names the user who was current when it was written. *)
Definition attributedTo (state : AppState.t) (log : AuditLog.t) : Prop :=
  AuditLog.userId log = SystemUser.id (AppState.currentUser state)
  /\ AuditLog.userName log = SystemUser.name (AppState.currentUser state)
  /\ AuditLog.userRole log = SystemUser.role (AppState.currentUser state).

(** The balance of an invoice as the reducer computes it, not floored. *)
Definition rawBalance (i : Invoice.t) : Z :=
  Invoice.amount i
  - (num_or0 (Invoice.paidAmount i) + num_or0 (Invoice.adjustments i)).

(** What a row of the vendor ledger shows of money: freight and paid. *)
Definition rowAmounts (r : VendorRow.t) : Z * Z :=
  (VendorRow.freightAmount r, VendorRow.paidAmount r).

(** The vendor records of [h'] are those of [h] up to balance and last
    activity. *)
Definition sameVendors (h h' : list Vendor.t) : Prop :=
  Forall2 (fun v v' => Vendor.id v' = Vendor.id v
                       /\ Vendor.name v' = Vendor.name v) h h'.

(** The transactions one round of the batch writes for the id [vid]. *)
Definition roundTransactions (env : Env) (p : RecordVendorPayment.t)
    (h : list Vendor.t) (refs : list nat) (vid : string)
    : list Transaction.t :=
  match findVendor h refs vid with
  | Some l =>
      match h !! l with
      | Some vendor => vendorTransactions env p vid vendor
      | None => []
      end
  | None => []
  end.

(** The ids of the batch that name a vendor of the state, one per
    occurrence. *)
Definition paidIds (h : list Vendor.t) (state : AppState.t)
    (p : RecordVendorPayment.t) : list string :=
  List.filter
    (fun vid => match findVendor h (AppState.vendors state) vid with
                | Some _ => true
                | None => false
                end)
    (RecordVendorPayment.vendorIds p).

(** The rows one payment of a batch adds to a vendor's ledger. *)
Definition paymentRows (p : RecordVendorPayment.t) : list (Z * Z) :=
  (0, RecordVendorPayment.amount p)
  :: (if RecordVendorPayment.autoTds p && (0 <? vendorTds p)
      then [(0, vendorTds p)] else []).

End MoreNotions.

(** A bank line of 10,000 received, and the steps of a trip that is posted
    and then paid. *)
Definition sampleBankLine : BankTransaction.t :=
  BankTransaction.mk "btx_1" "bank_1" "2024-03-01" "NEFT ACME" 10000 credit
    unmatched.

Definition postThenPay : list (Env * Action) :=
  [(env1, COMPLETE_TRIP "BK-1"); (env2, RECORD_VENDOR_PAYMENT payVnd1)].

(** ** Auxiliary facts *)

Lemma tdsOf_div (n : Z) : tdsOf n = (2 * n + 49) / 98.
Proof.
  unfold tdsOf, Math_round.
  rewrite (Qfloor_comp _ ((2 * n + 49) # 98)).
  - reflexivity.
  - unfold Qeq, Qplus, Qmult, Qdiv, Qinv, inject_Z; simpl. lia.
Qed.

Example tdsOf_9800 : tdsOf 9800 = 200.
Proof. reflexivity. Qed.

Example tdsOf_1000 : tdsOf 1000 = 20.
Proof. reflexivity. Qed.

(** A part payment of 4900 on a fresh invoice of 10000 leaves the balance
    5100 and the status [sent]. *)
Example partial_payment :
  List.map (fun i => (Invoice.paidAmount i, Invoice.adjustments i,
                      Invoice.status i))
    (AppState.invoices
       (snd (appReducer (H := sampleRuntime) env1 []
               (sampleState Admin [freshInvoice] [] [] [] [])
               (RECORD_PAYMENT
                  (RecordPayment.mk "inv_1" "2024-03-01" "UTR0" 4900 credit
                     "Partial payment" None None)))))
  = [(Some 4900, Some 0, sent)].
Proof. reflexivity. Qed.

Lemma find_map_keep {A : Type} (p : A -> bool) (f : A -> A) (l : list A) :
  (forall x, p (f x) = p x) ->
  List.find p (List.map f l) = option_map f (List.find p l).
Proof.
  intros Hp. induction l as [|x l IH]; simpl; [reflexivity|].
  rewrite Hp. destruct (p x); [reflexivity|exact IH].
Qed.

Lemma find_filter_none {A : Type} (p : A -> bool) (l : list A) :
  List.find p (List.filter (fun x => negb (p x)) l) = None.
Proof.
  induction l as [|x l IH]; simpl; [reflexivity|].
  destruct (p x) eqn:E; simpl; [exact IH|]. rewrite E. exact IH.
Qed.

Lemma filter_find_none {A : Type} (p : A -> bool) (l : list A) :
  List.find p l = None -> List.filter (fun x => negb (p x)) l = l.
Proof.
  induction l as [|x l IH]; simpl; [reflexivity|].
  destruct (p x) eqn:E; simpl; [discriminate|]. intros Hn. f_equal. auto.
Qed.

(** ** RECORD_PAYMENT *)

Section RecordPaymentFacts.
Context `{Runtime}.

(** The invoice RECORD_PAYMENT looks up is found again afterwards, settled
    with the new amounts and status. *)
Lemma recordPayment_found env state p invoice :
  List.find (hasId (RecordPayment.invoiceId p)) (AppState.invoices state)
    = Some invoice ->
  List.find (hasId (RecordPayment.invoiceId p))
            (AppState.invoices (recordPayment env state p))
    = Some (Invoice.settle (newPaidOf p invoice) (newAdjustmentsOf p invoice)
                           (newStatusOf env p invoice) invoice)
  /\ AppState.transactions (recordPayment env state p)
     = newTransactionsOf env p invoice ++ AppState.transactions state.
Proof.
  intros Hf. unfold recordPayment.
  change (fun i : Invoice.t =>
            String.eqb (Invoice.id i) (RecordPayment.invoiceId p))
    with (hasId (RecordPayment.invoiceId p)).
  rewrite Hf. cbn [AppState.invoices AppState.transactions
                   AppState.set_auditLogs AppState.set_notifications
                   AppState.set_transactions AppState.set_invoices].
  split; [|reflexivity].
  rewrite find_map_keep.
  - rewrite Hf. cbn [option_map]. rewrite String.eqb_refl. reflexivity.
  - intros x. unfold hasId.
    destruct (String.eqb (Invoice.id x) (Invoice.id invoice)); reflexivity.
Qed.

(** C1.  A credit RECORD_PAYMENT of net amount [N] in a cash category with
    [autoTds] set raises [adjustments] by [round((N / 0.98) * 0.02)] and
    [paidAmount] by [N], and prepends exactly two transactions, the receipt
    for [N] and the "TDS Deduction (2%)" entry for the rounded amount, both
    carrying the payload date and both matched; the receipt is described as
    "Bank Receipt" for the categories Full payment and Partial payment.
    Unless [autoTds] is set, the direction is credit and the category is a
    cash movement, exactly one transaction is prepended and [adjustments]
    receives no TDS amount. *)
Theorem record_payment_tds_split env h state p invoice :
  List.find (hasId (RecordPayment.invoiceId p)) (AppState.invoices state)
    = Some invoice ->
  let state' := snd (appReducer env h state (RECORD_PAYMENT p)) in
  let N := RecordPayment.amount p in
  let tds := Math_round (Qmult (Qdiv (inject_Z N) (98 # 100)) (2 # 100)) in
  let number := Invoice.invoiceNumber invoice in
  let category := RecordPayment.category p in
  (RecordPayment.autoTds p = Some true ->
   RecordPayment.type p = credit ->
   Array_includes nonCash category = false ->
   (exists invoice',
       List.find (hasId (RecordPayment.invoiceId p)) (AppState.invoices state')
         = Some invoice'
       /\ Invoice.adjustments invoice'
          = Some (num_or0 (Invoice.adjustments invoice) + tds)
       /\ Invoice.paidAmount invoice'
          = Some (num_or0 (Invoice.paidAmount invoice) + N))
   /\ exists t1 t2,
       AppState.transactions state' = t1 :: t2 :: AppState.transactions state
       /\ Transaction.amount t1 = N /\ Transaction.type t1 = credit
       /\ Transaction.amount t2 = tds /\ Transaction.type t2 = credit
       /\ Transaction.description t2 = "TDS Deduction (2%) - " +:+ number
       /\ Transaction.date t1 = RecordPayment.date p
       /\ Transaction.date t2 = RecordPayment.date p
       /\ Transaction.matched t1 = true /\ Transaction.matched t2 = true
       /\ (category = "Full payment" \/ category = "Partial payment" ->
           Transaction.description t1 = "Bank Receipt - " +:+ number))
  /\ (~ (RecordPayment.autoTds p = Some true
         /\ RecordPayment.type p = credit
         /\ Array_includes nonCash category = false) ->
      exists invoice' t1,
        List.find (hasId (RecordPayment.invoiceId p)) (AppState.invoices state')
          = Some invoice'
        /\ AppState.transactions state' = t1 :: AppState.transactions state
        /\ Transaction.amount t1 = N
        /\ Invoice.adjustments invoice'
           = Some (num_or0 (Invoice.adjustments invoice) +
                   if Array_includes nonCash category
                   then match RecordPayment.type p with
                        | credit => N
                        | debit => - N
                        end
                   else 0)).
Proof.
  intros Hf state' N tds number category.
  destruct (recordPayment_found env state p invoice Hf) as [Hinv Htx].
  subst state'. cbn [appReducer snd]. split.
  - intros Hauto Hty Hcash. split.
    + eexists. split; [exact Hinv|].
      unfold Invoice.settle; cbn [Invoice.adjustments Invoice.paidAmount].
      unfold newAdjustmentsOf, newPaidOf, tdsApplies, isNonCashAdjustment.
      fold category. rewrite Hauto, Hty, Hcash. cbn. split; reflexivity.
    + exists (mainTransaction env p invoice), (tdsTransaction env p invoice).
      rewrite Htx. unfold newTransactionsOf, tdsApplies, isNonCashAdjustment.
      fold category. rewrite Hauto, Hty, Hcash. cbn.
      repeat split; try assumption.
      intros Hcat. unfold mainDescription. fold category. rewrite Hauto.
      destruct Hcat as [-> | ->]; reflexivity.
  - intros Hno.
    assert (Happ : tdsApplies p = false).
    { unfold tdsApplies, isNonCashAdjustment, flag. fold category.
      destruct (RecordPayment.autoTds p) as [[|]|];
        destruct (RecordPayment.type p);
        destruct (Array_includes nonCash category); try reflexivity.
      exfalso. apply Hno. auto. }
    eexists. exists (mainTransaction env p invoice).
    split; [exact Hinv|]. rewrite Htx.
    unfold newTransactionsOf. rewrite Happ. cbn. repeat split.
    unfold Invoice.settle; cbn [Invoice.adjustments].
    unfold newAdjustmentsOf, isNonCashAdjustment. fold category.
    rewrite Happ. subst N.
    destruct (Array_includes nonCash category);
      destruct (RecordPayment.type p); f_equal; lia.
Qed.

Lemma statusFor_cases env invoice b :
  (b <= 5 -> statusFor env invoice b = paid)
  /\ (5 < b -> b < Invoice.amount invoice -> statusFor env invoice b = sent)
  /\ (5 < b -> Invoice.amount invoice <= b ->
      isOverdue env (Invoice.dueDate invoice) = true ->
      statusFor env invoice b = overdue)
  /\ (5 < b -> Invoice.amount invoice <= b ->
      isOverdue env (Invoice.dueDate invoice) = false ->
      statusFor env invoice b = sent).
Proof.
  unfold statusFor.
  destruct (Z.leb_spec b 5); destruct (Z.ltb_spec b (Invoice.amount invoice));
    repeat split; intros; try lia; try reflexivity;
    match goal with E : isOverdue _ _ = _ |- _ => rewrite E end; reflexivity.
Qed.

Lemma isOverdue_spec env dueDate :
  isOverdue env dueDate = true <->
  exists t, Date_parse dueDate = Some t /\ t < Date_now env.
Proof.
  unfold isOverdue. destruct (Date_parse dueDate) as [t|].
  - rewrite Z.ltb_lt. split.
    + intros Hlt. exists t. auto.
    + intros [t' [Ht' Hlt]]. injection Ht' as ->. exact Hlt.
  - split; [discriminate|]. intros [t [Ht _]]. discriminate.
Qed.

(** C2.  After RECORD_PAYMENT on an invoice that is found, the stored status
    follows from [b = amount - (paidAmount' + adjustments')], taken with
    the updated amounts: [paid] if [b <= 5]; else [sent] if
    [0 < b < amount]; else ([b >= amount]) [overdue] if the due date is in
    the past and [sent] otherwise.  The updated amounts are the old ones
    plus or minus the payment (plus the TDS amount when it applies), with
    no clamping, so [b] may be negative, and then the status is [paid]. *)
Theorem record_payment_status env h state p invoice :
  List.find (hasId (RecordPayment.invoiceId p)) (AppState.invoices state)
    = Some invoice ->
  let state' := snd (appReducer env h state (RECORD_PAYMENT p)) in
  let N := RecordPayment.amount p in
  let signed := match RecordPayment.type p with credit => N | debit => - N end in
  let cash := negb (Array_includes nonCash (RecordPayment.category p)) in
  let tds :=
    if flag (RecordPayment.autoTds p) && cash
       && match RecordPayment.type p with credit => true | debit => false end
    then Math_round (Qmult (Qdiv (inject_Z N) (98 # 100)) (2 # 100)) else 0 in
  exists invoice',
    List.find (hasId (RecordPayment.invoiceId p)) (AppState.invoices state')
      = Some invoice'
    /\ Invoice.amount invoice' = Invoice.amount invoice
    /\ Invoice.dueDate invoice' = Invoice.dueDate invoice
    /\ Invoice.paidAmount invoice'
       = Some (num_or0 (Invoice.paidAmount invoice) + if cash then signed else 0)
    /\ Invoice.adjustments invoice'
       = Some (num_or0 (Invoice.adjustments invoice)
               + (if cash then 0 else signed) + tds)
    /\ let amount := Invoice.amount invoice' in
       let b := amount - (num_or0 (Invoice.paidAmount invoice')
                          + num_or0 (Invoice.adjustments invoice')) in
       let pastDue :=
         exists t, Date_parse (Invoice.dueDate invoice') = Some t
                   /\ t < Date_now env in
       (b <= 5 -> Invoice.status invoice' = paid)
       /\ (5 < b -> 0 < b < amount -> Invoice.status invoice' = sent)
       /\ (5 < b -> amount <= b -> pastDue -> Invoice.status invoice' = overdue)
       /\ (5 < b -> amount <= b -> ~ pastDue -> Invoice.status invoice' = sent)
       /\ (b < 0 -> Invoice.status invoice' = paid).
Proof.
  intros Hf state' N signed cash tds.
  destruct (recordPayment_found env state p invoice Hf) as [Hinv _].
  subst state'. cbn [appReducer snd]. eexists. split; [exact Hinv|].
  unfold Invoice.settle;
    cbn [Invoice.amount Invoice.dueDate Invoice.paidAmount Invoice.adjustments
         Invoice.status num_or0].
  assert (Hp : newPaidOf p invoice
               = num_or0 (Invoice.paidAmount invoice) + if cash then signed else 0).
  { unfold newPaidOf, isNonCashAdjustment. subst cash signed N.
    destruct (Array_includes nonCash (RecordPayment.category p));
      destruct (RecordPayment.type p); cbn [negb]; lia. }
  assert (Ha : newAdjustmentsOf p invoice
               = num_or0 (Invoice.adjustments invoice)
                 + (if cash then 0 else signed) + tds).
  { unfold newAdjustmentsOf, tdsApplies, isNonCashAdjustment, tdsOf.
    subst tds cash signed N.
    destruct (Array_includes nonCash (RecordPayment.category p));
      destruct (RecordPayment.type p);
      destruct (flag (RecordPayment.autoTds p)); cbn [negb andb]; lia. }
  split; [reflexivity|]. split; [reflexivity|].
  split; [f_equal; exact Hp|]. split; [f_equal; exact Ha|].
  unfold newStatusOf.
  set (b := Invoice.amount invoice
            - (newPaidOf p invoice + newAdjustmentsOf p invoice)).
  destruct (statusFor_cases env invoice b) as (H1 & H2 & H3 & H4).
  repeat split.
  - exact H1.
  - intros; apply H2; lia.
  - intros Hb Hge Hpast. apply H3; try assumption.
    apply isOverdue_spec. exact Hpast.
  - intros Hb Hge Hnot. apply H4; try assumption.
    destruct (isOverdue env (Invoice.dueDate invoice)) eqn:E; [|reflexivity].
    exfalso. apply Hnot. apply isOverdue_spec. exact E.
  - intros Hb. apply H1. lia.
Qed.

End RecordPaymentFacts.

Lemma record_payment_tds_split_witness :
  let state := sampleState Admin [freshInvoice] [] [] [] [] in
  let state' :=
    snd (appReducer (H := sampleRuntime) env1 [] state (RECORD_PAYMENT payFull)) in
  exists invoice',
    List.find (hasId "inv_1") (AppState.invoices state') = Some invoice'
    /\ Invoice.adjustments invoice' = Some 200
    /\ Invoice.paidAmount invoice' = Some 9800.
Proof.
  destruct (@record_payment_tds_split sampleRuntime env1 []
              (sampleState Admin [freshInvoice] [] [] [] []) payFull
              freshInvoice eq_refl) as [HA _].
  destruct (HA eq_refl eq_refl eq_refl) as [Hinv _]. exact Hinv.
Defined.

Lemma record_payment_status_witness :
  let state := sampleState Admin [freshInvoice] [] [] [] [] in
  let state' :=
    snd (appReducer (H := sampleRuntime) env1 [] state (RECORD_PAYMENT overpay)) in
  exists invoice',
    List.find (hasId "inv_1") (AppState.invoices state') = Some invoice'
    /\ Invoice.paidAmount invoice' = Some 12000
    /\ Invoice.status invoice' = paid.
Proof.
  destruct (@record_payment_status sampleRuntime env1 []
              (sampleState Admin [freshInvoice] [] [] [] []) overpay
              freshInvoice eq_refl)
    as (invoice' & Hfind & Hamt & _ & Hpaid & Hadj & Hst).
  exists invoice'. split; [exact Hfind|]. split; [exact Hpaid|].
  destruct Hst as (_ & _ & _ & _ & Hneg). apply Hneg.
  rewrite Hamt, Hpaid, Hadj. reflexivity.
Defined.

(** ** DELETE_INVOICE and stale references *)

Section Gates.
Context `{Runtime}.

Lemma set_invoices_same state :
  AppState.set_invoices (AppState.invoices state) state = state.
Proof. destruct state; reflexivity. Qed.

Lemma UserRole_eqb_eq a b : UserRole_eqb a b = true <-> a = b.
Proof. destruct a, b; cbn; split; intros E; congruence. Qed.


(** C4, as the code has it.  RECORD_PAYMENT, APPROVE_EXPENSE and
    COMPLETE_TRIP on an id that is not in the state return the state
    unchanged.  DELETE_INVOICE by a user who is not an Accountant, on an id
    no invoice has, removes nothing but still prepends one audit entry,
    filed under the id itself, and appends one success notification. *)
Theorem stale_reference_handling env h state :
  (forall p,
     List.find (hasId (RecordPayment.invoiceId p)) (AppState.invoices state) = None ->
     staleNoop env h state (RECORD_PAYMENT p))
  /\ (forall id,
        List.find (fun e => String.eqb (Expense.id e) id) (AppState.expenses state)
          = None ->
        staleNoop env h state (APPROVE_EXPENSE id))
  /\ (forall bookingId,
        List.find (fun b => String.eqb (Booking.id b) bookingId)
                  (AppState.bookings state) = None ->
        staleNoop env h state (COMPLETE_TRIP bookingId))
  /\ (forall id,
        SystemUser.role (AppState.currentUser state) <> Accountant ->
        List.find (hasId id) (AppState.invoices state) = None ->
        exists log n,
          appReducer env h state (DELETE_INVOICE id)
            = (h, AppState.set_notifications
                    (AppState.notifications state ++ [n])
                    (AppState.set_auditLogs (log :: AppState.auditLogs state)
                       state))
          /\ AuditLog.action log = "Delete"
          /\ AuditLog.entityId log = id
          /\ Notification.type n = n_success).
Proof.
  unfold staleNoop. repeat split.
  - intros p Hf. cbn [appReducer]. unfold recordPayment.
    change (fun i : Invoice.t =>
              String.eqb (Invoice.id i) (RecordPayment.invoiceId p))
      with (hasId (RecordPayment.invoiceId p)).
    rewrite Hf. reflexivity.
  - intros id Hf. cbn [appReducer]. unfold approveExpense. rewrite Hf.
    reflexivity.
  - intros bookingId Hf. cbn [appReducer]. unfold completeTrip. rewrite Hf.
    reflexivity.
  - intros id Hrole Hf. cbn [appReducer]. unfold deleteInvoice.
    destruct (UserRole_eqb (SystemUser.role (AppState.currentUser state))
                           Accountant) eqn:E.
    + apply UserRole_eqb_eq in E. contradiction.
    + change (fun i : Invoice.t => String.eqb (Invoice.id i) id)
        with (hasId id).
      rewrite Hf. rewrite (filter_find_none (hasId id)) by exact Hf.
      rewrite set_invoices_same. cbn [option_map str_or].
      eexists. eexists. split; [reflexivity|]. repeat split.
Qed.

(** *** RECORD_VENDOR_PAYMENT with no matching vendor *)

Lemma payVendor_none env p refs h txs vids :
  Forall (fun vid => findVendor h refs vid = None) vids ->
  fold_left (payVendor env p refs) vids (h, txs) = (h, txs).
Proof.
  induction 1 as [|vid vids Hv _ IH]; cbn [fold_left]; [reflexivity|].
  unfold payVendor at 2. rewrite Hv. exact IH.
Qed.

Lemma findVendor_none h refs vid :
  (forall l v, In l refs -> h !! l = Some v -> Vendor.id v <> vid) ->
  findVendor h refs vid = None.
Proof.
  intros Hno. unfold findVendor.
  destruct (List.find _ refs) as [l|] eqn:E; [|reflexivity].
  apply List.find_some in E as [Hin Hl].
  destruct (h !! l) as [v|] eqn:Ev; [|discriminate].
  apply String.eqb_eq in Hl. exfalso. exact (Hno l v Hin Ev Hl).
Qed.

(** C10.  When no id in [vendorIds] is the id of a vendor of the state (in
    particular for the empty list), RECORD_VENDOR_PAYMENT leaves the vendor
    objects, the vendor list and the transactions as they were, and still
    prepends one audit entry for the batch and appends one success
    notification: afterwards the audit log is that entry followed by the
    old log, the notifications are the old ones followed by that message,
    and nothing else in the state has changed. *)
Theorem vendor_payment_without_match env h state p :
  (forall vid l v,
     In vid (RecordVendorPayment.vendorIds p) ->
     In l (AppState.vendors state) ->
     h !! l = Some v -> Vendor.id v <> vid) ->
  let h' := fst (appReducer env h state (RECORD_VENDOR_PAYMENT p)) in
  let state' := snd (appReducer env h state (RECORD_VENDOR_PAYMENT p)) in
  h' = h
  /\ AppState.vendors state' = AppState.vendors state
  /\ AppState.transactions state' = AppState.transactions state
  /\ exists log n,
       AppState.auditLogs state' = log :: AppState.auditLogs state
       /\ AppState.notifications state' = AppState.notifications state ++ [n]
       /\ length (AppState.auditLogs state')
          = S (length (AppState.auditLogs state))
       /\ length (AppState.notifications state')
          = S (length (AppState.notifications state))
       /\ AppState.invoices state' = AppState.invoices state
       /\ AppState.bookings state' = AppState.bookings state
       /\ AppState.expenses state' = AppState.expenses state
       /\ AppState.bankFeed state' = AppState.bankFeed state
       /\ AppState.currentUser state' = AppState.currentUser state
       /\ state' = AppState.set_auditLogs (log :: AppState.auditLogs state)
                     (AppState.set_notifications
                        (AppState.notifications state ++ [n]) state)
       /\ AuditLog.action log = "Record"
       /\ AuditLog.entityType log = E_Payment
       /\ AuditLog.entityId log
          = showZ (Z.of_nat (length (RecordVendorPayment.vendorIds p)))
            +:+ " Vendor(s)"
       /\ Notification.type n = n_success
       /\ Notification.message n = "Vendor payment recorded.".
Proof.
  intros Hno h' state'. subst h' state'. cbn [appReducer].
  unfold recordVendorPayment. rewrite payVendor_none.
  - cbn [fst snd app]. split; [reflexivity|].
    destruct state; cbn. split; [reflexivity|]. split; [reflexivity|].
    eexists. eexists. split; [reflexivity|]. split; [reflexivity|].
    split; [reflexivity|].
    split; [rewrite length_app; cbn [length]; lia|].
    repeat split.
  - apply Forall_forall. intros vid Hin. apply findVendor_none.
    intros l v Hl Hv. exact (Hno vid l v (proj1 (list_elem_of_In _ _) Hin) Hl Hv).
Qed.

End Gates.


(** C4 as stated fails for DELETE_INVOICE: an Admin deleting the id
    ["inv_9"], which no invoice has, does not get the state back; the audit
    log and the notifications have each grown by one entry. *)
Lemma delete_unknown_invoice_not_noop :
  List.find (hasId "inv_9") (AppState.invoices adminState) = None
  /\ SystemUser.role (AppState.currentUser adminState) <> Accountant
  /\ ~ staleNoop (H := sampleRuntime) env1 [] adminState (DELETE_INVOICE "inv_9")
  /\ length (AppState.auditLogs
               (snd (appReducer (H := sampleRuntime) env1 [] adminState
                       (DELETE_INVOICE "inv_9")))) = 1%nat
  /\ length (AppState.notifications
               (snd (appReducer (H := sampleRuntime) env1 [] adminState
                       (DELETE_INVOICE "inv_9")))) = 1%nat.
Proof.
  split; [reflexivity|]. split; [discriminate|]. split; [|split; reflexivity].
  unfold staleNoop. intros E.
  apply (f_equal (fun r => length (AppState.auditLogs (snd r)))) in E.
  vm_compute in E. discriminate.
Qed.

Lemma stale_reference_handling_witness :
  staleNoop (H := sampleRuntime) env1 [] adminState
    (RECORD_PAYMENT (RecordPayment.mk "inv_9" "2024-03-01" "UTR" 100 credit
                       "Full payment" None None))
  /\ staleNoop (H := sampleRuntime) env1 [] adminState (APPROVE_EXPENSE "exp_9")
  /\ staleNoop (H := sampleRuntime) env1 [] adminState (COMPLETE_TRIP "BK-9")
  /\ exists log n,
       appReducer (H := sampleRuntime) env1 [] adminState (DELETE_INVOICE "inv_9")
       = ([], AppState.set_notifications
                (AppState.notifications adminState ++ [n])
                (AppState.set_auditLogs (log :: AppState.auditLogs adminState)
                   adminState))
       /\ AuditLog.action log = "Delete"
       /\ AuditLog.entityId log = "inv_9"
       /\ Notification.type n = n_success.
Proof.
  destruct (@stale_reference_handling sampleRuntime env1 [] adminState)
    as (HP & HE & HT & HD).
  split; [apply HP; reflexivity|]. split; [apply HE; reflexivity|].
  split; [apply HT; reflexivity|]. apply HD; [discriminate|reflexivity].
Defined.

Lemma vendor_payment_without_match_witness :
  let r :=
    appReducer (H := sampleRuntime) env1 [sampleVendor "vnd_1" 5000]
      (sampleState Admin [] [] [] [] [0%nat])
      (RECORD_VENDOR_PAYMENT
         (RecordVendorPayment.mk ["vnd_7"] "2024-03-01" 1000 "Full payment"
            "UTR3" true None)) in
  fst r = [sampleVendor "vnd_1" 5000]
  /\ AppState.transactions (snd r) = []
  /\ length (AppState.auditLogs (snd r)) = 1%nat
  /\ length (AppState.notifications (snd r)) = 1%nat.
Proof.
  destruct (@vendor_payment_without_match sampleRuntime env1
              [sampleVendor "vnd_1" 5000]
              (sampleState Admin [] [] [] [] [0%nat])
              (RecordVendorPayment.mk ["vnd_7"] "2024-03-01" 1000
                 "Full payment" "UTR3" true None))
    as (Hh & _ & Ht & log & n & _ & _ & Hla & Hln & _).
  - intros vid l v Hvid Hl Hv.
    destruct Hvid as [<-|[]]. destruct Hl as [<-|[]].
    injection Hv as <-. discriminate.
  - split; [exact Hh|]. split; [exact Ht|]. split; [exact Hla|exact Hln].
Defined.

(** ** The vendor store *)

Lemma mapVendors_extends f refs : forall h,
  exists new, fst (mapVendors f h refs) = h ++ new.
Proof.
  induction refs as [|l refs IH]; intros h; cbn [mapVendors].
  - exists []. cbn. symmetry. apply app_nil_r.
  - destruct (h !! l) as [v|].
    + destruct (f v) as [v'|].
      * unfold alloc. destruct (IH (h ++ [v'])) as [new Hn].
        destruct (mapVendors f (h ++ [v']) refs) as [h2 ls].
        cbn [fst] in *. exists (v' :: new). rewrite Hn.
        rewrite <- app_assoc. reflexivity.
      * destruct (IH h) as [new Hn].
        destruct (mapVendors f h refs) as [h2 ls]. exists new. exact Hn.
    + destruct (IH h) as [new Hn].
      destruct (mapVendors f h refs) as [h2 ls]. exists new. exact Hn.
Qed.

Lemma wfRefs_app h new refs : wfRefs h refs -> wfRefs (h ++ new) refs.
Proof.
  unfold wfRefs. intros Hwf. eapply Forall_impl; [exact Hwf|].
  cbn. intros l Hl. rewrite length_app. lia.
Qed.

Lemma mapVendors_view f refs : forall h,
  wfRefs h refs ->
  let h2 := fst (mapVendors f h refs) in
  let ls := snd (mapVendors f h refs) in
  List.map (fun l => h2 !! l) ls
    = List.map (fun l => mapped f <$> h !! l) refs
  /\ wfRefs h2 ls.
Proof.
  induction refs as [|l refs IH]; intros h Hwf; cbn [mapVendors].
  - split; [reflexivity|constructor].
  - inversion Hwf as [|? ? Hl Hwf']; subst.
    destruct (lookup_lt_is_Some_2 h l Hl) as [v Hv]. rewrite Hv.
    cbn beta iota. destruct (f v) as [v'|] eqn:Ef.
    + unfold alloc.
      assert (Hwf1 : wfRefs (h ++ [v']) refs) by (apply wfRefs_app; exact Hwf').
      destruct (IH (h ++ [v']) Hwf1) as [Hview Hwf2].
      destruct (mapVendors_extends f refs (h ++ [v'])) as [new Hn].
      destruct (mapVendors f (h ++ [v']) refs) as [h2 ls].
      cbn [fst snd] in *. subst h2. split.
      * cbn [List.map]. f_equal.
        -- rewrite <- app_assoc. rewrite lookup_app_r by lia.
           replace (length h - length h)%nat with 0%nat by lia.
           rewrite Hv. cbn. unfold mapped. rewrite Ef. reflexivity.
        -- rewrite Hview. apply map_ext_in. intros l0 Hl0.
           f_equal. apply lookup_app_l.
           unfold wfRefs in Hwf'. rewrite Forall_forall in Hwf'.
           apply Hwf'. apply list_elem_of_In. exact Hl0.
      * constructor; [|exact Hwf2].
        rewrite !length_app. cbn. lia.
    + destruct (IH h Hwf') as [Hview Hwf2].
      destruct (mapVendors_extends f refs h) as [new Hn].
      destruct (mapVendors f h refs) as [h2 ls].
      cbn [fst snd] in *. subst h2. split.
      * cbn [List.map]. f_equal; [|exact Hview].
        rewrite lookup_app_l by exact Hl. rewrite Hv.
        cbn. unfold mapped. rewrite Ef. reflexivity.
      * constructor; [|exact Hwf2]. rewrite length_app. lia.
Qed.

Lemma mapVendors_nonneg f refs :
  (forall v v', f v = Some v' -> 0 <= Vendor.balance v ->
                0 <= Vendor.balance v') ->
  forall h,
    refsNonneg h refs ->
    refsNonneg (fst (mapVendors f h refs)) (snd (mapVendors f h refs))
    /\ forall l v, (length h <= l)%nat ->
         fst (mapVendors f h refs) !! l = Some v -> 0 <= Vendor.balance v.
Proof.
  intros Hf. induction refs as [|l refs IH]; intros h Hnn; cbn [mapVendors].
  - cbn [fst snd]. split; [intros l v []|].
    intros l v Hl Hv. apply lookup_lt_Some in Hv. lia.
  - assert (Hrest : refsNonneg h refs).
    { intros l0 v0 Hin. apply Hnn. right. exact Hin. }
    assert (Hkeep : forall h2 ls,
               mapVendors f h refs = (h2, ls) ->
               refsNonneg h2 (l :: ls)
               /\ forall l0 v0, (length h <= l0)%nat -> h2 !! l0 = Some v0 ->
                    0 <= Vendor.balance v0).
    { intros h2 ls E. destruct (IH h Hrest) as [Hls Hnew].
      destruct (mapVendors_extends f refs h) as [new Hn].
      rewrite E in *. cbn [fst snd] in *. subst h2.
      split; [|exact Hnew].
      intros l0 v0 [<-|Hin] Hv0; [|exact (Hls l0 v0 Hin Hv0)].
      destruct (Nat.lt_ge_cases l (length h)) as [Hlt|Hge].
      - rewrite lookup_app_l in Hv0 by exact Hlt.
        apply (Hnn l v0); [left; reflexivity|exact Hv0].
      - exact (Hnew l v0 Hge Hv0). }
    destruct (h !! l) as [v|] eqn:Hv.
    + destruct (f v) as [v'|] eqn:Ef.
      * unfold alloc.
        assert (Hv' : 0 <= Vendor.balance v').
        { apply (Hf v v' Ef). apply (Hnn l v); [left; reflexivity|exact Hv]. }
        assert (Hnn1 : refsNonneg (h ++ [v']) refs).
        { intros l0 v0 Hin Hv0.
          destruct (Nat.lt_ge_cases l0 (length h)) as [Hlt|Hge].
          - rewrite lookup_app_l in Hv0 by exact Hlt.
            exact (Hrest l0 v0 Hin Hv0).
          - rewrite lookup_app_r in Hv0 by exact Hge.
            destruct (l0 - length h)%nat; cbn in Hv0; [|discriminate].
            injection Hv0 as <-. exact Hv'. }
        destruct (IH (h ++ [v']) Hnn1) as [Hls Hnew].
        destruct (mapVendors_extends f refs (h ++ [v'])) as [new Hn].
        destruct (mapVendors f (h ++ [v']) refs) as [h2 ls].
        cbn [fst snd] in *. subst h2.
        assert (Hall : forall l0 v0, (length h <= l0)%nat ->
                   ((h ++ [v']) ++ new) !! l0 = Some v0 ->
                   0 <= Vendor.balance v0).
        { intros l0 v0 Hge Hv0.
          destruct (Nat.eq_dec l0 (length h)) as [->|Hne].
          - rewrite <- app_assoc in Hv0. rewrite lookup_app_r in Hv0 by lia.
            replace (length h - length h)%nat with 0%nat in Hv0 by lia.
            cbn in Hv0. injection Hv0 as <-. exact Hv'.
          - apply (Hnew l0 v0); [rewrite length_app; cbn; lia|exact Hv0]. }
        split; [|exact Hall].
        intros l0 v0 [<-|Hin] Hv0; [|exact (Hls l0 v0 Hin Hv0)].
        apply (Hall (length h) v0); [lia|exact Hv0].
      * destruct (mapVendors f h refs) as [h2 ls] eqn:E.
        exact (Hkeep h2 ls eq_refl).
    + destruct (mapVendors f h refs) as [h2 ls] eqn:E.
      exact (Hkeep h2 ls eq_refl).
Qed.

(** ** Vendor balances *)

Section VendorFacts.
Context `{Runtime}.

(** One round of the [forEach] either leaves the store alone or overwrites
    exactly the object it found, with the floored balance. *)
Lemma payVendor_store env p refs h txs vid :
  fst (payVendor env p refs (h, txs) vid) = h
  \/ exists l v,
       findVendor h refs vid = Some l /\ h !! l = Some v
       /\ fst (payVendor env p refs (h, txs) vid)
          = <[l := Vendor.touch
                     (Z.max 0 (Vendor.balance v -
                               (RecordVendorPayment.amount p + vendorTds p)))
                     (toISOString (Date_now env)) v]> h.
Proof.
  unfold payVendor. destruct (findVendor h refs vid) as [l|] eqn:E.
  - destruct (h !! l) as [v|] eqn:Hv.
    + right. exists l, v. auto.
    + left. reflexivity.
  - left. reflexivity.
Qed.

Lemma payVendor_nonneg env p refs refs' h txs vid :
  refsNonneg h refs' ->
  refsNonneg (fst (payVendor env p refs (h, txs) vid)) refs'.
Proof.
  intros Hnn.
  destruct (payVendor_store env p refs h txs vid)
    as [->|(l & v & _ & Hv & ->)]; [exact Hnn|].
  intros l0 v0 Hin Hv0.
  destruct (Nat.eq_dec l l0) as [<-|Hne].
  - rewrite list_lookup_insert_eq in Hv0 by (eapply lookup_lt_Some; exact Hv).
    injection Hv0 as <-. cbn. lia.
  - rewrite list_lookup_insert_ne in Hv0 by exact Hne.
    exact (Hnn l0 v0 Hin Hv0).
Qed.

Lemma payVendors_nonneg env p refs refs' vids : forall h txs,
  refsNonneg h refs' ->
  refsNonneg (fst (fold_left (payVendor env p refs) vids (h, txs))) refs'.
Proof.
  induction vids as [|vid vids IH]; intros h txs Hnn; cbn [fold_left].
  - exact Hnn.
  - pose proof (payVendor_nonneg env p refs refs' h txs vid Hnn) as Hstep.
    destruct (payVendor env p refs (h, txs) vid) as [h1 txs1].
    apply IH. exact Hstep.
Qed.

Lemma recordVendorPayment_fields env h state p :
  AppState.vendors (snd (recordVendorPayment env h state p))
    = AppState.vendors state
  /\ AppState.bookings (snd (recordVendorPayment env h state p))
     = AppState.bookings state
  /\ AppState.expenses (snd (recordVendorPayment env h state p))
     = AppState.expenses state
  /\ fst (recordVendorPayment env h state p)
     = fst (fold_left (payVendor env p (AppState.vendors state))
                      (RecordVendorPayment.vendorIds p) (h, [])).
Proof.
  unfold recordVendorPayment.
  destruct (fold_left _ _ _) as [h' txs]. cbn. repeat split.
Qed.

(** The three ways COMPLETE_TRIP can go. *)
Lemma completeTrip_cases env h state bookingId :
  (List.find (fun b => String.eqb (Booking.id b) bookingId)
             (AppState.bookings state) = None
   /\ completeTrip env h state bookingId = (h, state))
  \/ (exists n,
        completeTrip env h state bookingId
          = (h, AppState.set_notifications
                  (AppState.notifications state ++ [n]) state)
        /\ (Notification.type n = n_error \/
            (Notification.type n = n_warning
             /\ exists e, List.find (isFreightOf bookingId)
                                    (AppState.expenses state) = Some e)))
  \/ (exists booking,
        List.find (fun b => String.eqb (Booking.id b) bookingId)
                  (AppState.bookings state) = Some booking
        /\ truthy (Booking.vendorId booking) = true
        /\ List.find (isFreightOf bookingId) (AppState.expenses state) = None
        /\ completeTrip env h state bookingId
           = (fst (mapVendors (creditVendor env booking) h
                              (AppState.vendors state)),
              postedState env state bookingId booking
                (snd (mapVendors (creditVendor env booking) h
                                 (AppState.vendors state))))).
Proof.
  unfold completeTrip.
  destruct (List.find _ (AppState.bookings state)) as [booking|] eqn:Eb.
  - destruct (truthy (Booking.vendorId booking)) eqn:Ev; cbn [negb].
    + destruct (List.find (isFreightOf bookingId) (AppState.expenses state))
        as [e|] eqn:Ee.
      * right. left. eexists. split; [reflexivity|].
        right. split; [reflexivity|]. exists e. reflexivity.
      * right. right. exists booking.
        destruct (mapVendors _ h _) as [h' ls]. cbn [fst snd]. auto.
    + right. left. eexists. split; [reflexivity|]. left. reflexivity.
  - left. auto.
Qed.

Lemma completeTrip_posting env h state bookingId booking :
  List.find (fun b => String.eqb (Booking.id b) bookingId)
            (AppState.bookings state) = Some booking ->
  truthy (Booking.vendorId booking) = true ->
  List.find (isFreightOf bookingId) (AppState.expenses state) = None ->
  completeTrip env h state bookingId
  = (fst (mapVendors (creditVendor env booking) h (AppState.vendors state)),
     postedState env state bookingId booking
       (snd (mapVendors (creditVendor env booking) h (AppState.vendors state)))).
Proof.
  intros Hb Hv He. unfold completeTrip. rewrite Hb, Hv. cbn [negb].
  rewrite He. destruct (mapVendors _ h _) as [h' ls]. reflexivity.
Qed.

Lemma creditVendor_nonneg env booking v v' :
  0 <= Booking.expense booking ->
  creditVendor env booking v = Some v' ->
  0 <= Vendor.balance v -> 0 <= Vendor.balance v'.
Proof.
  unfold creditVendor. intros He.
  destruct (opt_eqb _ _); [|discriminate].
  intros E Hv. injection E as <-. cbn. lia.
Qed.

Lemma vendorFlow_step env h state a :
  isVendorFlow a ->
  refsNonneg h (AppState.vendors state) ->
  expensesNonneg state ->
  refsNonneg (fst (appReducer env h state a))
             (AppState.vendors (snd (appReducer env h state a)))
  /\ expensesNonneg (snd (appReducer env h state a)).
Proof.
  intros Ha Hnn Hex. destruct a; try contradiction; cbn [appReducer].
  - destruct (recordVendorPayment_fields env h state payload)
      as (Hv & Hb & _ & Hh).
    unfold expensesNonneg. rewrite Hv, Hb, Hh. split; [|exact Hex].
    apply payVendors_nonneg. exact Hnn.
  - destruct (completeTrip_cases env h state bookingId)
      as [[_ ->]|[(n & -> & _)|(booking & Hb & _ & _ & ->)]];
      cbn [fst snd]; try (split; [exact Hnn|exact Hex]).
    unfold postedState.
    cbn [AppState.vendors AppState.bookings AppState.set_notifications
         AppState.set_auditLogs AppState.set_expenses AppState.set_vendors].
    split; [|exact Hex].
    apply mapVendors_nonneg; [|exact Hnn].
    intros v v'. apply creditVendor_nonneg.
    apply List.find_some in Hb as [Hin _].
    unfold expensesNonneg in Hex. rewrite Forall_forall in Hex.
    apply Hex. apply list_elem_of_In. exact Hin.
Qed.

(** C5.  From a state whose vendor balances and booking expenses are not
    negative, any sequence of RECORD_VENDOR_PAYMENT and COMPLETE_TRIP
    actions leads to a state whose vendor balances are not negative.  A
    payment to a vendor that is found sets its balance to
    [max(0, balance - (amount + tdsAmount))], and posting a trip adds the
    booking's expense to the balance of the booking's vendor and changes
    no other balance. *)
Theorem vendor_balance_floor steps h state :
  refsNonneg h (AppState.vendors state) ->
  expensesNonneg state ->
  Forall (fun ea => isVendorFlow (snd ea)) steps ->
  refsNonneg (fst (dispatchAll h state steps))
             (AppState.vendors (snd (dispatchAll h state steps)))
  /\ (forall env p vid l v,
        RecordVendorPayment.vendorIds p = [vid] ->
        findVendor h (AppState.vendors state) vid = Some l ->
        h !! l = Some v ->
        let tdsAmount :=
          if RecordVendorPayment.autoTds p
          then Math_round (Qmult (Qdiv (inject_Z (RecordVendorPayment.amount p))
                                       (98 # 100)) (2 # 100))
          else 0 in
        option_map Vendor.balance
          (fst (appReducer env h state (RECORD_VENDOR_PAYMENT p)) !! l)
        = Some (Z.max 0 (Vendor.balance v -
                         (RecordVendorPayment.amount p + tdsAmount))))
  /\ (forall env bookingId booking,
        wfRefs h (AppState.vendors state) ->
        List.find (fun b => String.eqb (Booking.id b) bookingId)
                  (AppState.bookings state) = Some booking ->
        truthy (Booking.vendorId booking) = true ->
        List.find (isFreightOf bookingId) (AppState.expenses state) = None ->
        List.map (option_map Vendor.balance)
          (vendorsOf (fst (appReducer env h state (COMPLETE_TRIP bookingId)))
                     (snd (appReducer env h state (COMPLETE_TRIP bookingId))))
        = List.map
            (option_map (fun v =>
               if opt_eqb (Booking.vendorId booking) (Vendor.id v)
               then Vendor.balance v + Booking.expense booking
               else Vendor.balance v))
            (vendorsOf h state)).
Proof.
  intros Hnn Hex Hsteps. split; [|split].
  - revert h state Hnn Hex.
    induction Hsteps as [|[env a] steps Ha _ IH]; intros h state Hnn Hex;
      cbn [dispatchAll]; [exact Hnn|].
    destruct (vendorFlow_step env h state a Ha Hnn Hex) as [Hnn' Hex'].
    destruct (appReducer env h state a) as [h' state'].
    apply IH; assumption.
  - intros env p vid l v Hids Hfind Hv tdsAmount. cbn [appReducer].
    destruct (recordVendorPayment_fields env h state p) as (_ & _ & _ & ->).
    rewrite Hids. cbn [fold_left]. unfold payVendor. rewrite Hfind, Hv.
    cbn [fst]. rewrite list_lookup_insert_eq by (eapply lookup_lt_Some; exact Hv).
    cbn. unfold vendorTds, tdsOf. reflexivity.
  - intros env bookingId booking Hwf Hb Hv He. cbn [appReducer].
    rewrite (completeTrip_posting env h state bookingId booking Hb Hv He).
    unfold vendorsOf, postedState.
    cbn [fst snd AppState.vendors AppState.set_notifications
         AppState.set_auditLogs AppState.set_expenses AppState.set_vendors].
    destruct (mapVendors_view (creditVendor env booking)
                (AppState.vendors state) h Hwf) as [Hview _].
    cbn zeta in Hview. rewrite !List.map_map.
    rewrite <- (List.map_map (fun l => _ !! l) (option_map Vendor.balance)).
    rewrite Hview. rewrite List.map_map. apply map_ext. intros l.
    destruct (h !! l) as [v|]; [|reflexivity]. cbn.
    unfold mapped, creditVendor.
    destruct (opt_eqb (Booking.vendorId booking) (Vendor.id v)); reflexivity.
Qed.

End VendorFacts.

(** ** COMPLETE_TRIP dispatched twice *)

Section FreightPosting.
Context `{Runtime}.

Lemma find_app_last {A : Type} (p : A -> bool) (l : list A) (x : A) :
  List.find p l = None -> p x = true -> List.find p (l ++ [x]) = Some x.
Proof.
  induction l as [|y l IH]; cbn; intros Hn Hx.
  - rewrite Hx. reflexivity.
  - destruct (p y); [discriminate|]. apply IH; assumption.
Qed.

Lemma filter_app_last {A : Type} (p : A -> bool) (l : list A) (x : A) :
  List.find p l = None -> p x = true -> List.filter p (l ++ [x]) = [x].
Proof.
  induction l as [|y l IH]; cbn; intros Hn Hx.
  - rewrite Hx. reflexivity.
  - destruct (p y); [discriminate|]. apply IH; assumption.
Qed.

Lemma freightExpense_linked env bookingId booking bookings :
  List.find (fun b => String.eqb (Booking.id b) bookingId) bookings
    = Some booking ->
  isFreightOf bookingId (freightExpense env booking) = true.
Proof.
  intros Hb. apply List.find_some in Hb as [_ Hid].
  unfold isFreightOf, freightExpense. cbn. rewrite Hid. reflexivity.
Qed.

(** C6, as the code has it: the specification's statement holds for a
    booking that exists, has a vendor assigned and has no Freight expense
    in the state yet. *)
Theorem freight_posting_once envA envB h state bookingId booking :
  wfRefs h (AppState.vendors state) ->
  List.find (fun b => String.eqb (Booking.id b) bookingId)
            (AppState.bookings state) = Some booking ->
  truthy (Booking.vendorId booking) = true ->
  List.find (isFreightOf bookingId) (AppState.expenses state) = None ->
  postsOnce envA envB h state bookingId booking.
Proof.
  intros Hwf Hb Hv He. unfold postsOnce. cbn [appReducer].
  rewrite (completeTrip_posting envA h state bookingId booking Hb Hv He).
  cbn [fst snd].
  set (h1 := fst (mapVendors (creditVendor envA booking) h
                             (AppState.vendors state))).
  set (ls := snd (mapVendors (creditVendor envA booking) h
                             (AppState.vendors state))).
  set (s1 := postedState envA state bookingId booking ls).
  pose proof (freightExpense_linked envA bookingId booking _ Hb) as Hlinked.
  assert (Hsecond :
            completeTrip envB h1 s1 bookingId
            = (h1, AppState.set_notifications
                     (AppState.notifications s1 ++
                      [notify envB "n_" n_warning
                         ("Trip " +:+ bookingId +:+ " already posted to ledger.")])
                     s1)).
  { unfold completeTrip.
    replace (AppState.bookings s1) with (AppState.bookings state)
      by reflexivity.
    rewrite Hb, Hv. cbn [negb].
    replace (AppState.expenses s1)
      with (AppState.expenses state ++ [freightExpense envA booking])
      by reflexivity.
    rewrite (find_app_last _ _ _ He Hlinked). reflexivity. }
  rewrite Hsecond. cbn [fst snd]. repeat split.
  - exists (freightExpense envA booking). split; [|repeat split].
    cbn [AppState.expenses AppState.set_notifications].
    exact (filter_app_last _ _ _ He Hlinked).
  - unfold vendorsOf. cbn [AppState.vendors AppState.set_notifications].
    replace (AppState.vendors s1) with ls by reflexivity.
    destruct (mapVendors_view (creditVendor envA booking)
                (AppState.vendors state) h Hwf) as [Hview _].
    cbn zeta in Hview. fold h1 ls in Hview. rewrite !List.map_map.
    rewrite <- (List.map_map (fun l => _ !! l) (option_map Vendor.balance)).
    rewrite Hview. rewrite List.map_map. apply map_ext. intros l.
    destruct (h !! l) as [v|]; [|reflexivity]. cbn.
    unfold mapped, creditVendor.
    destruct (opt_eqb (Booking.vendorId booking) (Vendor.id v)); reflexivity.
  - eexists. split; reflexivity.
Qed.

End FreightPosting.

Example complete_trip_twice :
  let r1 := appReducer (H := sampleRuntime) env1 tripHeap tripState
              (COMPLETE_TRIP "BK-1") in
  let r2 := appReducer (H := sampleRuntime) env2 (fst r1) (snd r1)
              (COMPLETE_TRIP "BK-1") in
  List.map (option_map Vendor.balance) (vendorsOf (fst r1) (snd r1))
    = [Some 10000]
  /\ List.map (option_map Vendor.balance) (vendorsOf (fst r2) (snd r2))
     = [Some 10000]
  /\ length (AppState.expenses (snd r2)) = 1%nat
  /\ List.map Notification.type (AppState.notifications (snd r2))
     = [n_success; n_warning].
Proof. vm_compute. repeat split. Qed.

Lemma freight_posting_once_witness :
  postsOnce (H := sampleRuntime) env1 env2 tripHeap tripState "BK-1" tripBooking.
Proof.
  apply (@freight_posting_once sampleRuntime env1 env2 tripHeap tripState
           "BK-1" tripBooking).
  - repeat constructor.
  - reflexivity.
  - reflexivity.
  - reflexivity.
Defined.

(** C6 as stated fails where the freight is already posted: the booking
    exists and has a vendor, but two dispatches leave the vendor's balance
    at 5000 instead of raising it by the booking's expense. *)
Lemma already_posted_not_once :
  List.find (fun b => String.eqb (Booking.id b) "BK-1")
            (AppState.bookings alreadyPosted) = Some tripBooking
  /\ truthy (Booking.vendorId tripBooking) = true
  /\ ~ postsOnce (H := sampleRuntime) env1 env2 tripHeap alreadyPosted "BK-1"
         tripBooking.
Proof.
  split; [reflexivity|]. split; [reflexivity|].
  unfold postsOnce. intros (_ & Hbal & _). vm_compute in Hbal. discriminate.
Qed.

(** ** Purity of the reducer *)

Section Purity.
Context `{Runtime}.

Lemma completeTrip_extends env h state bookingId :
  exists new, fst (completeTrip env h state bookingId) = h ++ new.
Proof.
  destruct (completeTrip_cases env h state bookingId)
    as [[_ ->]|[(n & -> & _)|(booking & _ & _ & _ & ->)]]; cbn [fst].
  - exists []. symmetry. apply app_nil_r.
  - exists []. symmetry. apply app_nil_r.
  - apply mapVendors_extends.
Qed.

(** C3, as the code has it.  The result is determined by the state, the
    action and what the invocation reads from the clock and from
    [Math.random]; the branches that read neither return the same result
    at every instant; and every action other than RECORD_VENDOR_PAYMENT
    leaves each object of the store it was given as it was, adding at most
    new objects. *)
Theorem reducer_effects env h state a :
  (forall env',
     Date_now env' = Date_now env -> Math_random env' = Math_random env ->
     appReducer env' h state a = appReducer env h state a)
  /\ (readsNoEnv a = true ->
      forall env', appReducer env' h state a = appReducer env h state a)
  /\ (isVendorPayment a = false ->
      (exists new, fst (appReducer env h state a) = h ++ new)
      /\ forall l v, h !! l = Some v ->
           fst (appReducer env h state a) !! l = Some v).
Proof.
  split; [|split].
  - intros [n r] Hn Hr. destruct env as [n0 r0]. cbn in Hn, Hr.
    subst. reflexivity.
  - intros Ha env'. destruct a; try discriminate; reflexivity.
  - intros Ha.
    assert (Hext : exists new, fst (appReducer env h state a) = h ++ new).
    { destruct a; try discriminate; cbn [appReducer fst];
        try (exists []; symmetry; apply app_nil_r).
      apply completeTrip_extends. }
    split; [exact Hext|]. destruct Hext as [new ->].
    intros l v Hv. rewrite lookup_app_l; [exact Hv|].
    eapply lookup_lt_Some. exact Hv.
Qed.

End Purity.

Example vendor_payment_with_tds :
  let r := appReducer (H := sampleRuntime) env1 tripHeap tripState
             (RECORD_VENDOR_PAYMENT payVnd1) in
  List.map (option_map Vendor.balance) (vendorsOf (fst r) (snd r)) = [Some 3980]
  /\ List.map Transaction.amount (AppState.transactions (snd r)) = [1000; 20].
Proof. vm_compute. split; reflexivity. Qed.

(** C3 as stated fails twice over.  The same state and action give
    different results at different instants, because ids are made from the
    clock; and RECORD_VENDOR_PAYMENT writes the vendor object of the state
    it was given: read again after the call, the input state shows the
    balance 3980 where it had 5000. *)
Lemma reducer_not_pure :
  ~ pureAt (H := sampleRuntime) env1 env2 tripHeap tripState
      (ADD_NOTIFICATION "Download started" n_success)
  /\ ~ pureAt (H := sampleRuntime) env1 env1 tripHeap tripState
         (RECORD_VENDOR_PAYMENT payVnd1)
  /\ List.map (option_map Vendor.balance) (vendorsOf tripHeap tripState)
     = [Some 5000]
  /\ List.map (option_map Vendor.balance)
       (vendorsOf (fst (appReducer (H := sampleRuntime) env1 tripHeap tripState
                          (RECORD_VENDOR_PAYMENT payVnd1)))
                  tripState)
     = [Some 3980].
Proof.
  split; [|split; [|split; reflexivity]].
  - intros [E _]. vm_compute in E. discriminate.
  - intros [_ E]. vm_compute in E. discriminate.
Qed.

Lemma reducer_effects_witness :
  fst (appReducer (H := sampleRuntime) env1 tripHeap tripState
         (COMPLETE_TRIP "BK-1")) !! 0%nat
  = Some (sampleVendor "vnd_1" 5000)
  /\ appReducer (H := sampleRuntime) env2 tripHeap tripState (SET_LOADING true)
     = appReducer (H := sampleRuntime) env1 tripHeap tripState (SET_LOADING true).
Proof.
  split.
  - destruct (@reducer_effects sampleRuntime env1 tripHeap tripState
                (COMPLETE_TRIP "BK-1")) as (_ & _ & Hkeep).
    destruct (Hkeep eq_refl) as [_ Hobj]. apply Hobj. reflexivity.
  - destruct (@reducer_effects sampleRuntime env1 tripHeap tripState
                (SET_LOADING true)) as (_ & Hsame & _).
    apply Hsame. reflexivity.
Defined.

Lemma vendor_balance_floor_witness :
  let steps :=
    [(env1, COMPLETE_TRIP "BK-1"); (env2, RECORD_VENDOR_PAYMENT payVnd1)] in
  refsNonneg
    (fst (dispatchAll (H := sampleRuntime) tripHeap tripState steps))
    (AppState.vendors
       (snd (dispatchAll (H := sampleRuntime) tripHeap tripState steps))).
Proof.
  refine (proj1 (@vendor_balance_floor sampleRuntime
                   [(env1, COMPLETE_TRIP "BK-1");
                    (env2, RECORD_VENDOR_PAYMENT payVnd1)]
                   tripHeap tripState _ _ _)).
  - intros l v [<-|[]] Hv. injection Hv as <-. cbn. lia.
  - repeat constructor. cbn. lia.
  - repeat constructor.
Defined.

(** ** Sorting with a consistent comparator *)

Section SortFacts.
Context {A : Type} (comparefn : A -> A -> option Z).

(** The comparator is consistent on the elements that satisfy [P]. *)
Variable P : A -> Prop.
Hypothesis inOrder_trans : forall a b c,
  P a -> P b -> P c -> inOrder comparefn a b -> inOrder comparefn b c -> inOrder comparefn a c.
Hypothesis inOrder_total : forall a b,
  P a -> P b -> 0 < SortCompare comparefn a b -> inOrder comparefn b a.

Lemma sort_insert_perm x l : Permutation (sort_insert comparefn x l) (x :: l).
Proof.
  induction l as [|y l IH]; cbn [sort_insert]; [reflexivity|].
  destruct (0 <? SortCompare comparefn x y); [|reflexivity].
  rewrite IH. apply perm_swap.
Qed.

Lemma Array_sort_perm l : Permutation (Array_sort comparefn l) l.
Proof.
  induction l as [|x l IH]; cbn [Array_sort]; [reflexivity|].
  rewrite sort_insert_perm. constructor. exact IH.
Qed.

Lemma sort_insert_sorted x l :
  P x -> List.Forall P l -> StronglySorted (inOrder comparefn) l ->
  StronglySorted (inOrder comparefn) (sort_insert comparefn x l).
Proof.
  intros Hx HP Hs. induction Hs as [|y l Hs IH Hy]; cbn [sort_insert].
  - constructor; [constructor|constructor].
  - inversion HP as [|? ? HPy HPl]; subst.
    destruct (Z.ltb_spec 0 (SortCompare comparefn x y)) as [Hgt|Hle].
    + constructor; [exact (IH HPl)|].
      eapply Permutation_Forall; [symmetry; apply sort_insert_perm|].
      constructor; [|exact Hy]. apply inOrder_total; assumption.
    + constructor; [constructor; assumption|].
      constructor; [exact Hle|].
      rewrite List.Forall_forall in *. intros z Hz.
      apply (inOrder_trans x y z); auto.
Qed.

Lemma Array_sort_sorted l :
  List.Forall P l -> StronglySorted (inOrder comparefn) (Array_sort comparefn l).
Proof.
  induction l as [|x l IH]; intros HP; cbn [Array_sort]; [constructor|].
  inversion HP as [|? ? Hx Hl]; subst.
  apply sort_insert_sorted; [exact Hx| |exact (IH Hl)].
  eapply Permutation_Forall; [symmetry; apply Array_sort_perm|exact Hl].
Qed.

(** Stability: a class of elements that no member jumps over keeps its
    order. *)
Lemma sort_insert_stable (c : A -> bool) x l :
  (forall y, In y l -> c x = true -> 0 < SortCompare comparefn x y ->
             c y = false) ->
  List.filter c (sort_insert comparefn x l) = List.filter c (x :: l).
Proof.
  induction l as [|y l IH]; intros Hc; cbn [sort_insert]; [reflexivity|].
  destruct (Z.ltb_spec 0 (SortCompare comparefn x y)) as [Hgt|Hle];
    [|reflexivity].
  cbn [List.filter]. rewrite IH by (intros z Hz; apply Hc; right; exact Hz).
  cbn [List.filter]. destruct (c x) eqn:Ex; [|reflexivity].
  rewrite (Hc y (or_introl eq_refl) eq_refl Hgt). reflexivity.
Qed.

Lemma Array_sort_stable (c : A -> bool) l :
  (forall x y, In x l -> In y l -> c x = true ->
               0 < SortCompare comparefn x y -> c y = false) ->
  List.filter c (Array_sort comparefn l) = List.filter c l.
Proof.
  induction l as [|x l IH]; intros Hc; cbn [Array_sort]; [reflexivity|].
  rewrite sort_insert_stable.
  - cbn [List.filter]. rewrite IH; [reflexivity|].
    intros a b Ha Hb. apply Hc; right; assumption.
  - intros y Hy. apply Hc; [left; reflexivity|right].
    eapply Permutation_in; [apply Array_sort_perm|exact Hy].
Qed.

End SortFacts.

(** ** The customer ledger: order and running balance *)

Section LedgerOrder.
Context `{Runtime}.

Lemma inOrder_iff a b :
  validDate a -> validDate b ->
  (inOrder cmpE a b <->
   timeOf a < timeOf b
   \/ (timeOf a = timeOf b /\ (isInv b = true -> isInv a = true))).
Proof.
  unfold validDate, inOrder, SortCompare, CustomerLedger.compareEntries,
    CustomerLedger.getTime, timeOf.
  destruct (Date_parse (LedgerEntry.date a)) as [ta|]; [|congruence].
  destruct (Date_parse (LedgerEntry.date b)) as [tb|]; [|congruence].
  intros _ _. cbn beta iota.
  destruct (Z.eqb_spec (ta - tb) 0) as [E|E]; cbn [negb].
  - destruct (isInv a), (isInv b); cbn;
      (split;
       [intros Hle; first [lia|right; split; [lia|auto]]
       |intros [?|[_ Hc]]; first [lia|specialize (Hc eq_refl); discriminate]]).
  - split; [intros; left; lia|]. intros [?|[? _]]; lia.
Qed.

Lemma outOfOrder_iff a b :
  validDate a -> validDate b ->
  (0 < SortCompare cmpE a b <->
   timeOf b < timeOf a
   \/ (timeOf a = timeOf b /\ isInv a = false /\ isInv b = true)).
Proof.
  unfold validDate, SortCompare, CustomerLedger.compareEntries,
    CustomerLedger.getTime, timeOf.
  destruct (Date_parse (LedgerEntry.date a)) as [ta|]; [|congruence].
  destruct (Date_parse (LedgerEntry.date b)) as [tb|]; [|congruence].
  intros _ _. cbn beta iota.
  destruct (Z.eqb_spec (ta - tb) 0) as [E|E]; cbn [negb].
  - destruct (isInv a), (isInv b); cbn;
      (split;
       [intros Hlt; first [lia|right; split; [lia|split; reflexivity]]
       |intros [?|(_ & Ea & Eb)]; first [lia|discriminate]]).
  - split; [intros; left; lia|]. intros [?|[? _]]; lia.
Qed.

Lemma inOrder_trans_valid a b c :
  validDate a -> validDate b -> validDate c ->
  inOrder cmpE a b -> inOrder cmpE b c -> inOrder cmpE a c.
Proof.
  intros Ha Hb Hc. rewrite !inOrder_iff by assumption.
  intros [?|[? ?]] [?|[? ?]]; [left; lia|left; lia|left; lia|].
  right. split; [lia|auto].
Qed.

Lemma inOrder_total_valid a b :
  validDate a -> validDate b ->
  0 < SortCompare cmpE a b -> inOrder cmpE b a.
Proof.
  intros Ha Hb. rewrite outOfOrder_iff, inOrder_iff by assumption.
  intros [?|(? & Ea & Eb)]; [left; lia|]. right. split; [lia|congruence].
Qed.

Lemma timeIs_timeOf d e : timeIs d e = true -> timeOf e = d.
Proof.
  unfold timeIs, timeOf.
  destruct (Date_parse (LedgerEntry.date e)); [|discriminate].
  cbn. apply Z.eqb_eq.
Qed.

(** In a sorted list the rows of one date are the invoice rows followed
    by the other rows. *)
Lemma sorted_date_split d l :
  List.Forall validDate l -> StronglySorted (inOrder cmpE) l ->
  List.filter (timeIs d) l
  = List.filter (fun e => timeIs d e && isInv e) l
    ++ List.filter (fun e => timeIs d e && negb (isInv e)) l.
Proof.
  intros Hv Hs. induction Hs as [|x l Hs IH Hx]; [reflexivity|].
  inversion Hv as [|? ? Hvx Hvl]; subst. cbn [List.filter].
  destruct (timeIs d x) eqn:Ed; cbn [andb]; [|exact (IH Hvl)].
  destruct (isInv x) eqn:Ei; cbn [negb].
  - cbn [app]. f_equal. exact (IH Hvl).
  - rewrite (IH Hvl).
    assert (Hnil : List.filter (fun e => timeIs d e && isInv e) l = []).
    { clear IH Hs Hv. induction l as [|y l IHl]; [reflexivity|].
      inversion Hx as [|? ? Hxy Hxl]; subst.
      inversion Hvl as [|? ? Hvy Hvl']; subst.
      cbn [List.filter]. rewrite (IHl Hxl Hvl').
      destruct (timeIs d y) eqn:Edy; cbn [andb]; [|reflexivity].
      destruct (isInv y) eqn:Eiy; [|reflexivity].
      exfalso. apply inOrder_iff in Hxy; [|assumption|assumption].
      apply timeIs_timeOf in Ed, Edy.
      destruct Hxy as [?|[_ Hc]]; [lia|]. specialize (Hc Eiy). congruence. }
    rewrite Hnil. reflexivity.
Qed.

Lemma sort_keeps_class (c : LedgerEntry.t -> bool) d (inv : bool) l :
  List.Forall validDate l ->
  (forall e, c e = timeIs d e && Bool.eqb (isInv e) inv) ->
  List.filter c (Array_sort cmpE l) = List.filter c l.
Proof.
  intros Hv Hc. apply Array_sort_stable.
  intros x y Hx Hy Hcx Hgt. rewrite List.Forall_forall in Hv.
  apply outOfOrder_iff in Hgt; [|apply Hv; exact Hx|apply Hv; exact Hy].
  rewrite Hc in *. apply andb_true_iff in Hcx as [Hdx Hix].
  apply timeIs_timeOf in Hdx. apply Bool.eqb_prop in Hix.
  destruct (timeIs d y) eqn:Edy; [|reflexivity]. cbn [andb].
  apply timeIs_timeOf in Edy.
  destruct Hgt as [?|(_ & Ea & Eb)]; [lia|].
  rewrite Eb, <- Hix, Ea. reflexivity.
Qed.

End LedgerOrder.

Section LedgerRows.
Context `{Runtime}.

Lemma invoiceEntries_fresh invoices cid :
  List.Forall freshRow (CustomerLedger.invoiceEntries invoices cid).
Proof.
  unfold CustomerLedger.invoiceEntries. apply List.Forall_forall.
  intros e He. apply in_map_iff in He as (i & <- & _). split; reflexivity.
Qed.

Lemma transactionEntries_fresh invoices transactions cid :
  List.Forall freshRow
    (CustomerLedger.transactionEntries invoices transactions cid).
Proof.
  unfold CustomerLedger.transactionEntries. apply List.Forall_forall.
  intros e He. apply in_map_iff in He as (t & <- & _). split; reflexivity.
Qed.

Lemma invoiceEntries_isInv invoices cid :
  List.Forall (fun e => isInv e = true)
    (CustomerLedger.invoiceEntries invoices cid).
Proof.
  unfold CustomerLedger.invoiceEntries. apply List.Forall_forall.
  intros e He. apply in_map_iff in He as (i & <- & _). reflexivity.
Qed.

Lemma invoiceEntries_valid invoices cid :
  List.Forall (fun i => Date_parse (Invoice.date i) <> None) invoices ->
  List.Forall validDate (CustomerLedger.invoiceEntries invoices cid).
Proof.
  intros Hv. unfold CustomerLedger.invoiceEntries. apply List.Forall_forall.
  intros e He. apply in_map_iff in He as (i & <- & Hi).
  rewrite List.Forall_forall in Hv. apply (Hv i).
  destruct (String.eqb cid "all"); [exact Hi|].
  apply filter_In in Hi as [Hi _]. exact Hi.
Qed.

Lemma transactionEntries_valid invoices transactions cid :
  List.Forall (fun t => Date_parse (Transaction.date t) <> None) transactions ->
  List.Forall validDate
    (CustomerLedger.transactionEntries invoices transactions cid).
Proof.
  intros Hv. unfold CustomerLedger.transactionEntries.
  apply List.Forall_forall.
  intros e He. apply in_map_iff in He as (t & <- & Ht).
  rewrite List.Forall_forall in Hv. apply (Hv t).
  apply filter_In in Ht as [Ht _].
  destruct (String.eqb cid "all"); [exact Ht|].
  apply filter_In in Ht as [Ht _]. exact Ht.
Qed.

Lemma set_balance_fresh l :
  List.Forall freshRow l -> List.map (LedgerEntry.set_balance 0) l = l.
Proof.
  induction 1 as [|e l [Hb _] _ IH]; cbn [List.map]; [reflexivity|].
  rewrite IH. f_equal. destruct e; cbn in *. subst. reflexivity.
Qed.

Lemma set_flag_fresh l :
  List.Forall (fun e => LedgerEntry.showShortPayment e = None) l ->
  List.map (LedgerEntry.set_showShortPayment None) l = l.
Proof.
  induction 1 as [|e l Hf _ IH]; cbn [List.map]; [reflexivity|].
  rewrite IH. f_equal. destruct e; cbn in *. subst. reflexivity.
Qed.

Lemma withRunningBalance_rows b l :
  List.map (LedgerEntry.set_balance 0) (CustomerLedger.withRunningBalance b l)
  = List.map (LedgerEntry.set_balance 0) l.
Proof.
  revert b. induction l as [|e l IH]; intros b;
    cbn [CustomerLedger.withRunningBalance List.map]; [reflexivity|].
  rewrite IH. reflexivity.
Qed.

Lemma withRunningBalance_flags b l :
  List.Forall (fun e => LedgerEntry.showShortPayment e = None) l ->
  List.Forall (fun e => LedgerEntry.showShortPayment e = None)
    (CustomerLedger.withRunningBalance b l).
Proof.
  intros Hf. revert b. induction Hf as [|e l He _ IH]; intros b;
    cbn [CustomerLedger.withRunningBalance]; constructor; auto.
Qed.

(** The balance of the [k]-th row is the opening balance plus the net of
    the rows up to and including it. *)
Lemma withRunningBalance_lookup l : forall b k e,
  CustomerLedger.withRunningBalance b l !! k = Some e ->
  LedgerEntry.balance e
  = b + netOf (take (S k) (CustomerLedger.withRunningBalance b l)).
Proof.
  induction l as [|x l IH]; intros b k e;
    cbn [CustomerLedger.withRunningBalance]; [intros E; discriminate E|].
  destruct k as [|k]; intros E.
  - injection E as <-. rewrite firstn_cons, firstn_O. cbn. lia.
  - apply IH in E. rewrite E. rewrite (firstn_cons (S k)).
    unfold netOf. cbn [fold_right LedgerEntry.debit LedgerEntry.credit
                       LedgerEntry.set_balance]. lia.
Qed.

Lemma flagShortPayments_rows l : forall seen,
  List.map (LedgerEntry.set_showShortPayment None)
    (CustomerLedger.flagShortPayments seen l)
  = List.map (LedgerEntry.set_showShortPayment None) l.
Proof.
  induction l as [|e l IH]; intros seen;
    cbn [CustomerLedger.flagShortPayments List.map]; [reflexivity|].
  destruct (truthy (LedgerEntry.invoiceId e) && _);
    cbn [List.map]; rewrite IH; reflexivity.
Qed.

Lemma sorted_by_time l :
  List.Forall validDate l -> StronglySorted (inOrder cmpE) l ->
  StronglySorted (fun a b => timeOf a <= timeOf b) l.
Proof.
  intros Hv Hs. induction Hs as [|x l Hs IH Hx]; [constructor|].
  inversion Hv as [|? ? Hvx Hvl]; subst.
  constructor; [exact (IH Hvl)|].
  rewrite List.Forall_forall in *. intros y Hy.
  specialize (Hx y Hy). apply inOrder_iff in Hx; [lia|exact Hvx|auto].
Qed.

Lemma StronglySorted_lookup {A : Type} (R : A -> A -> Prop) (l : list A) :
  StronglySorted R l ->
  forall i j a b,
    (i < j)%nat -> l !! i = Some a -> l !! j = Some b -> R a b.
Proof.
  induction 1 as [|x l Hs IH Hx]; intros i j a b Hij Ha Hb;
    [discriminate Ha|].
  destruct j as [|j]; [lia|]. destruct i as [|i].
  - injection Ha as <-. rewrite List.Forall_forall in Hx. apply Hx.
    apply (list_elem_of_In l b). eapply list_elem_of_lookup_2. exact Hb.
  - apply (IH i j a b); [lia|exact Ha|exact Hb].
Qed.

(** The balance of a row is the balance of the row before it, or the
    opening balance, plus its debit less its credit. *)
Lemma withRunningBalance_step l : forall b k e,
  CustomerLedger.withRunningBalance b l !! k = Some e ->
  LedgerEntry.balance e
  = match k with
    | O => b
    | S k' =>
        match CustomerLedger.withRunningBalance b l !! k' with
        | Some e' => LedgerEntry.balance e'
        | None => 0
        end
    end + LedgerEntry.debit e - LedgerEntry.credit e.
Proof.
  induction l as [|x l IH]; intros b k e;
    cbn [CustomerLedger.withRunningBalance]; [intros E; discriminate E|].
  destruct k as [|k]; intros E.
  - injection E as <-. reflexivity.
  - apply IH in E. rewrite E. destruct k as [|k]; reflexivity.
Qed.


End LedgerRows.

(** ** The customer ledger: the short-payment flag *)

Section ShortPayment.
Context `{Runtime}.

Lemma truthy_some o :
  truthy o = true -> exists s, o = Some s /\ str_or o EmptyString = s.
Proof.
  destruct o as [s|]; [|discriminate]. cbn. intros Hs. exists s.
  split; [reflexivity|].
  destruct (String.eqb s EmptyString); [discriminate|reflexivity].
Qed.

Lemma flagShortPayments_spec l : forall seen k e,
  CustomerLedger.flagShortPayments seen l !! k = Some e ->
  (LedgerEntry.showShortPayment e = Some true
   \/ LedgerEntry.showShortPayment e = Some false)
  /\ (LedgerEntry.showShortPayment e = Some true <->
      truthy (LedgerEntry.invoiceId e) = true
      /\ isInv e = false
      /\ Set_has seen (str_or (LedgerEntry.invoiceId e) EmptyString) = false
      /\ forall j e', (j < k)%nat ->
           CustomerLedger.flagShortPayments seen l !! j = Some e' ->
           LedgerEntry.invoiceId e' <> LedgerEntry.invoiceId e).
Proof.
  induction l as [|entry rest IH]; intros seen k e;
    cbn [CustomerLedger.flagShortPayments]; [intros E; discriminate E|].
  set (id0 := str_or (LedgerEntry.invoiceId entry) EmptyString).
  destruct (truthy (LedgerEntry.invoiceId entry)) eqn:Et; cbn [andb].
  - destruct (Set_has seen id0) eqn:Es; cbn [negb].
    + (* already seen *)
      destruct k as [|k]; intros E.
      * injection E as <-. cbn. split; [right; reflexivity|].
        split; [discriminate|]. fold id0. intros (_ & _ & Hs & _). congruence.
      * destruct (IH seen k e E) as [Hb Hiff]. split; [exact Hb|].
        rewrite Hiff. split.
        -- intros (H1 & H2 & H3 & H4). repeat split; try assumption.
           intros [|j] e' Hj Ej.
           ++ injection Ej as <-. cbn. intros Heq.
              rewrite <- Heq in H3. fold id0 in H3. congruence.
           ++ apply (H4 j e'); [lia|exact Ej].
        -- intros (H1 & H2 & H3 & H4). repeat split; try assumption.
           intros j e' Hj Ej. apply (H4 (S j) e'); [lia|exact Ej].
    + (* first row of this invoice *)
      destruct k as [|k]; intros E.
      * injection E as <-. cbn. fold id0.
        split; [destruct (isInv entry); auto|].
        split.
        -- intros Hb. injection Hb as Hb. apply negb_true_iff in Hb.
           repeat split; try assumption. intros j e' Hj. lia.
        -- intros (_ & Hi & _). unfold CustomerLedger.isInvoiceRow.
           rewrite Hi. reflexivity.
      * destruct (IH (id0 :: seen) k e E) as [Hb Hiff]. split; [exact Hb|].
        rewrite Hiff. cbn [Set_has existsb].
        change (existsb
                  (String.eqb (str_or (LedgerEntry.invoiceId e) EmptyString))
                  seen)
          with (Set_has seen (str_or (LedgerEntry.invoiceId e) EmptyString)).
        destruct (truthy_some _ Et) as (s0 & Hs0 & Hid0). fold id0 in Hid0.
        split.
        -- intros (H1 & H2 & H3 & H4). apply orb_false_iff in H3 as [H3a H3b].
           repeat split; try assumption.
           intros [|j] e' Hj Ej.
           ++ injection Ej as <-. cbn. intros Heq.
              rewrite <- Heq in H3a. fold id0 in H3a.
              rewrite String.eqb_refl in H3a. discriminate.
           ++ apply (H4 j e'); [lia|exact Ej].
        -- intros (H1 & H2 & H3 & H4). repeat split; try assumption.
           ++ apply orb_false_iff. split; [|exact H3].
              apply String.eqb_neq. intros Heq.
              destruct (truthy_some _ H1) as (s & Hs & Hid).
              apply (H4 0%nat (LedgerEntry.set_showShortPayment
                                 (Some (negb (isInv entry))) entry));
                [lia|reflexivity|].
              cbn. rewrite Hs0, Hs. congruence.
           ++ intros j e' Hj Ej. apply (H4 (S j) e'); [lia|exact Ej].
  - (* not linked to an invoice *)
    destruct k as [|k]; intros E.
    + injection E as <-. cbn. split; [right; reflexivity|].
      split; [discriminate|]. intros (Ht & _). congruence.
    + destruct (IH seen k e E) as [Hb Hiff]. split; [exact Hb|].
      rewrite Hiff. split.
      * intros (H1 & H2 & H3 & H4). repeat split; try assumption.
        intros [|j] e' Hj Ej.
        -- injection Ej as <-. cbn. intros Heq. rewrite Heq in Et. congruence.
        -- apply (H4 j e'); [lia|exact Ej].
      * intros (H1 & H2 & H3 & H4). repeat split; try assumption.
        intros j e' Hj Ej. apply (H4 (S j) e'); [lia|exact Ej].
Qed.

(** C9, as the code has it.  In the list [ledgerData] returns (newest
    first), a row is flagged exactly when it is linked to an invoice, is
    not an invoice row, and no earlier row of the list is linked to the
    same invoice: the flag goes to the newest row of each invoice, provided
    that row is not the invoice row.  So at most one row per invoice is
    flagged, and an invoice row never is. *)
Theorem short_payment_flag invoices transactions localSearch selectedCustomerId :
  let out :=
    CustomerLedger.ledgerData invoices transactions localSearch
      selectedCustomerId in
  (forall k e,
     out !! k = Some e ->
     (LedgerEntry.showShortPayment e = Some true <->
      truthy (LedgerEntry.invoiceId e) = true
      /\ isInv e = false
      /\ forall j e', (j < k)%nat -> out !! j = Some e' ->
           LedgerEntry.invoiceId e' <> LedgerEntry.invoiceId e))
  /\ (forall j k e1 e2,
        out !! j = Some e1 -> out !! k = Some e2 ->
        LedgerEntry.showShortPayment e1 = Some true ->
        LedgerEntry.showShortPayment e2 = Some true ->
        LedgerEntry.invoiceId e1 = LedgerEntry.invoiceId e2 -> j = k)
  /\ (forall k e,
        out !! k = Some e -> isInv e = true ->
        LedgerEntry.showShortPayment e = Some false).
Proof.
  intros out.
  assert (Hchar : forall k e,
            out !! k = Some e ->
            (LedgerEntry.showShortPayment e = Some true
             \/ LedgerEntry.showShortPayment e = Some false)
            /\ (LedgerEntry.showShortPayment e = Some true <->
                truthy (LedgerEntry.invoiceId e) = true
                /\ isInv e = false
                /\ forall j e', (j < k)%nat -> out !! j = Some e' ->
                     LedgerEntry.invoiceId e' <> LedgerEntry.invoiceId e)).
  { intros k e He. subst out. unfold CustomerLedger.ledgerData in *.
    destruct (flagShortPayments_spec _ [] k e He) as [Hb Hiff].
    split; [exact Hb|]. rewrite Hiff. cbn [Set_has existsb]. tauto. }
  split; [|split].
  - intros k e He. apply (Hchar k e He).
  - intros j k e1 e2 H1 H2 F1 F2 Heq.
    destruct (Hchar j e1 H1) as [_ I1]. destruct (Hchar k e2 H2) as [_ I2].
    apply I1 in F1 as (_ & _ & N1). apply I2 in F2 as (_ & _ & N2).
    destruct (Nat.lt_trichotomy j k) as [Hlt|[Heq'|Hgt]]; [|exact Heq'|].
    + exfalso. exact (N2 j e1 Hlt H1 Heq).
    + exfalso. exact (N1 k e2 Hgt H2 (eq_sym Heq)).
  - intros k e He Hi. destruct (Hchar k e He) as [[Hb|Hb] Hiff]; [|exact Hb].
    apply Hiff in Hb as (_ & Hn & _). congruence.
Qed.

End ShortPayment.

Example ledger_same_day :
  let out :=
    CustomerLedger.ledgerData (H := sampleRuntime) [febInvoice] [febPayment]
      EmptyString "all" in
  List.map LedgerEntry.id out = ["led_tx_tx_2"; "led_inv_inv_1"]
  /\ List.map LedgerEntry.balance out = [5100; 10000]
  /\ List.map LedgerEntry.showShortPayment out = [Some true; Some false].
Proof. vm_compute. repeat split. Qed.



(** C9 as stated fails when the invoice row is the newest row of its
    invoice: the advance of 15 January is the most recent transaction of
    INV-001, yet no row is flagged. *)
Lemma advance_before_invoice_unflagged :
  let out :=
    CustomerLedger.ledgerData (H := sampleRuntime) [febInvoice] [janAdvance]
      EmptyString "all" in
  List.map LedgerEntry.id out = ["led_inv_inv_1"; "led_tx_tx_1"]
  /\ List.map LedgerEntry.showShortPayment out = [Some false; Some false]
  /\ latestTransactionFlags [] out = [false; true]
  /\ ~ flagsAsSpecified out.
Proof.
  cbv zeta. split; [reflexivity|]. split; [reflexivity|].
  split; [reflexivity|]. unfold flagsAsSpecified. intros E.
  vm_compute in E. discriminate.
Qed.

Lemma short_payment_flag_witness :
  option_map LedgerEntry.showShortPayment
    (CustomerLedger.ledgerData (H := sampleRuntime) [febInvoice] [febPayment]
       EmptyString "all" !! 1%nat)
  = Some (Some false).
Proof.
  destruct (CustomerLedger.ledgerData (H := sampleRuntime) [febInvoice]
              [febPayment] EmptyString "all" !! 1%nat) as [e|] eqn:He.
  - cbn [option_map]. f_equal.
    destruct (@short_payment_flag sampleRuntime [febInvoice] [febPayment]
                EmptyString "all") as (_ & _ & Hinv).
    apply (Hinv 1%nat e He).
    vm_compute in He. injection He as <-. reflexivity.
  - vm_compute in He. discriminate.
Defined.

(** ** Further properties of the reducer: what an action can touch *)

Section Frames.
Context `{Runtime}.

Ltac open_branch :=
  cbn [appReducer snd fst];
  unfold deleteInvoice, addExpense, approveExpense, updateInvoiceStatus,
    recordPayment, recordVendorPayment, sendReminders, completeTrip;
  repeat match goal with
         | |- context [if ?b then _ else _] => destruct b
         | |- context [match List.find ?p ?l with _ => _ end] =>
             destruct (List.find p l)
         | |- context [let '(_, _) := ?x in _] => destruct x
         end;
  cbn [snd fst AppState.auditLogs AppState.transactions AppState.invoices
       AppState.expenses AppState.notifications AppState.bookings
       AppState.set_isLoading AppState.set_searchQuery
       AppState.set_currentUser AppState.set_invoices AppState.set_bookings
       AppState.set_expenses AppState.set_transactions AppState.set_vendors
       AppState.set_bankFeed AppState.set_userProfile
       AppState.set_notifications AppState.set_auditLogs].

(** One action adds at most one audit entry, in front, and that entry
    names the user who was current when the action arrived. *)
Lemma auditLogs_step env h state a :
  isSetData a = false ->
  exists new,
    AppState.auditLogs (snd (appReducer env h state a))
      = new ++ AppState.auditLogs state
    /\ (length new <= 1)%nat
    /\ List.Forall (attributedTo state) new.
Proof.
  intros Ha. destruct a; try discriminate; open_branch;
    first [ exists []; split; [reflexivity|]; split; [cbn; lia|constructor]
          | eexists [_]; split; [reflexivity|]; split;
            [cbn; lia|constructor; [repeat split|constructor]] ].
Qed.

(** X1.  Over any run of actions without SET_DATA the audit log only
    grows at the front: the entries it had are still there, in place and
    unedited, and at most one entry per action has been added. *)
Theorem audit_log_append_only steps : forall h state,
  List.Forall (fun ea => isSetData (snd ea) = false) steps ->
  exists new,
    AppState.auditLogs (snd (dispatchAll h state steps))
      = new ++ AppState.auditLogs state
    /\ (length new <= length steps)%nat.
Proof.
  induction steps as [|[env a] steps IH]; intros h state Hs;
    cbn [dispatchAll].
  - exists []. split; [reflexivity|cbn; lia].
  - inversion Hs as [|? ? Ha Hrest]; subst. cbn [snd] in Ha.
    destruct (auditLogs_step env h state a Ha) as (n1 & E1 & L1 & _).
    destruct (appReducer env h state a) as [h' state'] eqn:E.
    cbn [snd] in E1.
    destruct (IH h' state' Hrest) as (n2 & E2 & L2).
    exists (n2 ++ n1). rewrite E2, E1, app_assoc. split; [reflexivity|].
    rewrite length_app. cbn [length]. lia.
Qed.

(** X2.  Whatever the action (SET_DATA apart), the entry it writes to the
    audit log, if any, carries the id, name and role of the user who was
    current in the state the action was applied to; SWITCH_USER itself
    writes none. *)
Theorem audit_entry_attribution env h state a :
  isSetData a = false ->
  (exists new,
     AppState.auditLogs (snd (appReducer env h state a))
       = new ++ AppState.auditLogs state
     /\ (length new <= 1)%nat
     /\ List.Forall (attributedTo state) new)
  /\ forall role,
       a = SWITCH_USER role ->
       AppState.auditLogs (snd (appReducer env h state a))
       = AppState.auditLogs state.
Proof.
  intros Ha. split; [apply auditLogs_step; exact Ha|].
  intros role ->. reflexivity.
Qed.

Lemma transactions_step env h state a :
  isSetData a = false ->
  exists new,
    AppState.transactions (snd (appReducer env h state a))
      = new ++ AppState.transactions state
    /\ (match a with
        | RECORD_PAYMENT _ | RECORD_VENDOR_PAYMENT _ => True
        | _ => new = []
        end).
Proof.
  intros Ha. destruct a; try discriminate; open_branch;
    first [ exists []; split; reflexivity
          | eexists; split; [reflexivity|exact I]
          | exists []; split; [reflexivity|exact I] ].
Qed.

(** X3.  Over any run of actions without SET_DATA the transaction list
    only grows at the front: no recorded transaction is ever edited or
    removed, and a run without payment actions leaves the list as it was. *)
Theorem transactions_append_only steps : forall h state,
  List.Forall (fun ea => isSetData (snd ea) = false) steps ->
  (exists new,
     AppState.transactions (snd (dispatchAll h state steps))
       = new ++ AppState.transactions state)
  /\ (List.Forall
        (fun ea => match snd ea with
                   | RECORD_PAYMENT _ | RECORD_VENDOR_PAYMENT _ => False
                   | _ => True
                   end) steps ->
      AppState.transactions (snd (dispatchAll h state steps))
      = AppState.transactions state).
Proof.
  induction steps as [|[env a] steps IH]; intros h state Hs;
    cbn [dispatchAll].
  - split; [exists []; reflexivity|reflexivity].
  - inversion Hs as [|? ? Ha Hrest]; subst. cbn [snd] in Ha.
    destruct (transactions_step env h state a Ha) as (n1 & E1 & K1).
    destruct (appReducer env h state a) as [h' state'] eqn:E.
    cbn [snd] in E1.
    destruct (IH h' state' Hrest) as [(n2 & E2) Hnone]. split.
    + exists (n2 ++ n1). rewrite E2, E1, app_assoc. reflexivity.
    + intros Hno. inversion Hno as [|? ? Hna Hnrest]; subst.
      rewrite (Hnone Hnrest), E1. cbn [snd] in Hna.
      destruct a; try contradiction; rewrite K1; reflexivity.
Qed.

Lemma map_money_status st l :
  List.map moneyOf
    (List.map (fun i => if String.eqb (Invoice.id i) st.1
                        then Invoice.set_status st.2 i else i) l)
  = List.map moneyOf l.
Proof.
  rewrite List.map_map. apply map_ext. intros i.
  destruct (String.eqb (Invoice.id i) st.1); reflexivity.
Qed.

(** X4.  The money fields of the invoices (id, gross amount, paid amount,
    adjustments) are changed by RECORD_PAYMENT alone: every action other
    than SET_DATA, ADD_INVOICE, DELETE_INVOICE and RECORD_PAYMENT leaves
    them exactly as they were, invoice by invoice; in particular status
    updates and reminders do. *)
Theorem invoice_money_frame env h state a :
  touchesInvoiceMoney a = false ->
  List.map moneyOf (AppState.invoices (snd (appReducer env h state a)))
  = List.map moneyOf (AppState.invoices state).
Proof.
  intros Ha. destruct a; try discriminate; open_branch; try reflexivity.
  - apply (map_money_status (id, status)).
  - rewrite List.map_map. apply map_ext. intros i.
    destruct (Set_has payload (Invoice.id i)); reflexivity.
Qed.

(** X5.  No action other than SET_DATA removes an expense, changes its
    amount or takes an approval back: the expenses afterwards are the old
    ones, each either untouched or set to approved, with at most one new
    expense in front (ADD_EXPENSE) or at the end (COMPLETE_TRIP). *)
Theorem expenses_frame env h state a :
  isSetData a = false ->
  exists pre post g,
    AppState.expenses (snd (appReducer env h state a))
      = pre ++ List.map g (AppState.expenses state) ++ post
    /\ (length pre + length post <= 1)%nat
    /\ forall e, g e = e \/ g e = Expense.set_status approved e.
Proof.
  intros Ha.
  assert (Hid : forall l : list Expense.t, l = [] ++ List.map (fun e => e) l ++ []).
  { intros l. rewrite List.map_id, app_nil_r. reflexivity. }
  destruct a; try discriminate; open_branch;
    first
      [ exists [], [], (fun e => e); split; [apply Hid|];
        split; [cbn; lia|intros e; left; reflexivity]
      | eexists [_], [], (fun e => e); split;
        [cbn [app]; rewrite List.map_id, app_nil_r; reflexivity
        |split; [cbn; lia|intros e; left; reflexivity]]
      | eexists [], [_], (fun e => e); split;
        [cbn [app]; rewrite List.map_id; reflexivity
        |split; [cbn; lia|intros e; left; reflexivity]]
      | exists [], []; eexists; split;
        [cbn [app]; rewrite app_nil_r; reflexivity
        |split; [cbn; lia
                |intros e; cbn beta;
                 destruct (String.eqb (Expense.id e) _); auto]] ].
Qed.

End Frames.

(** ** Further properties of the reducer: single branches and how they
    compose *)

Section Branches.
Context `{Runtime}.

(** X6.  ADD_EXPENSE stores the expense as pending approval exactly when
    its amount exceeds 50000, whatever status the payload carried (50000
    itself is approved at once); a following APPROVE_EXPENSE for its id
    finds it, sets it to approved, and leaves its amount and the number of
    expenses unchanged. *)
Theorem add_then_approve_expense envA envB h state payload :
  let s1 := snd (appReducer envA h state (ADD_EXPENSE payload)) in
  let s2 := snd (appReducer envB h s1 (APPROVE_EXPENSE (Expense.id payload))) in
  (exists e,
      AppState.expenses s1 = e :: AppState.expenses state
      /\ Expense.id e = Expense.id payload
      /\ Expense.amount e = Expense.amount payload
      /\ (Expense.status e = pending_approval <-> 50000 < Expense.amount payload)
      /\ (Expense.status e = approved <-> Expense.amount payload <= 50000))
  /\ (exists e' rest,
        AppState.expenses s2 = e' :: rest
        /\ Expense.id e' = Expense.id payload
        /\ Expense.amount e' = Expense.amount payload
        /\ Expense.status e' = approved
        /\ length rest = length (AppState.expenses state)).
Proof.
  cbn zeta. cbn [appReducer snd]. split.
  - unfold addExpense.
    cbn [AppState.expenses AppState.set_notifications AppState.set_auditLogs
         AppState.set_expenses].
    eexists. split; [reflexivity|].
    cbn [Expense.set_status Expense.id Expense.amount Expense.status].
    split; [reflexivity|]. split; [reflexivity|].
    destruct (Z.ltb_spec 50000 (Expense.amount payload)); split;
      split; intros; (reflexivity || lia || discriminate).
  - unfold approveExpense, addExpense.
    cbn [AppState.expenses AppState.set_notifications AppState.set_auditLogs
         AppState.set_expenses List.find Expense.set_status Expense.id].
    rewrite String.eqb_refl.
    cbn [AppState.expenses AppState.set_notifications AppState.set_auditLogs
         AppState.set_expenses List.map Expense.set_status Expense.id].
    rewrite String.eqb_refl. eexists. eexists. split; [reflexivity|].
    cbn [Expense.id Expense.amount Expense.status Expense.set_status].
    repeat split. apply length_map.
Qed.

Lemma Booking_set_status_twice st b :
  Booking.set_status st (Booking.set_status st b) = Booking.set_status st b.
Proof. reflexivity. Qed.

(** X7.  MARK_BOOKINGS_INVOICED writes neither an audit entry nor a
    notification, never turns an invoiced booking back to pending, and is
    idempotent: dispatching it again with the same ids returns the state
    unchanged. *)
Theorem mark_bookings_invoiced_idempotent envA envB h state ids :
  let s1 := snd (appReducer envA h state (MARK_BOOKINGS_INVOICED ids)) in
  appReducer envB h s1 (MARK_BOOKINGS_INVOICED ids) = (h, s1)
  /\ AppState.auditLogs s1 = AppState.auditLogs state
  /\ AppState.notifications s1 = AppState.notifications state
  /\ List.map Booking.id (AppState.bookings s1)
     = List.map Booking.id (AppState.bookings state)
  /\ List.Forall2
       (fun b b' =>
          Booking.status b' = invoiced <->
          Booking.status b = invoiced \/ In (Booking.id b) ids)
       (AppState.bookings state) (AppState.bookings s1).
Proof.
  cbn zeta. cbn [appReducer snd].
  cbn [AppState.bookings AppState.auditLogs AppState.notifications
       AppState.set_bookings].
  split; [|split; [reflexivity|split; [reflexivity|split]]].
  - destruct state; unfold AppState.set_bookings; cbn. do 2 f_equal.
    rewrite List.map_map. apply map_ext. intros b.
    destruct (Set_has ids (Booking.id b)) eqn:E; cbn [Booking.set_status Booking.id];
      rewrite E; reflexivity.
  - rewrite List.map_map. apply map_ext. intros b.
    destruct (Set_has ids (Booking.id b)); reflexivity.
  - induction (AppState.bookings state) as [|b l IH]; cbn [List.map];
      constructor; [|exact IH].
    unfold Set_has. destruct (existsb _ ids) eqn:E.
    + cbn. apply existsb_exists in E as (x & Hx & Ex).
      apply String.eqb_eq in Ex. subst x. tauto.
    + split; [tauto|]. intros [Hs|Hin]; [exact Hs|].
      assert (existsb (String.eqb (Booking.id b)) ids = true).
      { apply existsb_exists. exists (Booking.id b).
        split; [exact Hin|apply String.eqb_refl]. }
      congruence.
Qed.

Lemma filter_unmatched_map payload l :
  List.filter
    (fun bt => match BankTransaction.status bt with
               | unmatched => true
               | matched => false
               end)
    (List.map (fun t => if String.eqb (BankTransaction.id t) payload
                        then BankTransaction.set_status matched t else t) l)
  = List.filter
      (fun bt => negb (String.eqb (BankTransaction.id bt) payload))
      (List.filter
         (fun bt => match BankTransaction.status bt with
                    | unmatched => true
                    | matched => false
                    end) l).
Proof.
  induction l as [|t l IH]; cbn [List.map List.filter]; [reflexivity|].
  destruct (String.eqb (BankTransaction.id t) payload) eqn:E.
  - cbn [BankTransaction.set_status BankTransaction.status]. rewrite IH.
    destruct (BankTransaction.status t); [reflexivity|].
    cbn [List.filter]. rewrite E. reflexivity.
  - rewrite IH. destruct (BankTransaction.status t); [reflexivity|].
    cbn [List.filter]. rewrite E. reflexivity.
Qed.

(** X8.  After MATCH_BANK_TRANSACTION the reconciliation screen's list
    of unmatched bank transactions is the former list without the entries
    of that id, the others in their order; amounts in the feed are
    unchanged, nothing is logged, and matching again changes nothing. *)
Theorem match_bank_transaction_unmatched envA envB h state id :
  let s1 := snd (appReducer envA h state (MATCH_BANK_TRANSACTION id)) in
  unmatchedBankTx s1
  = List.filter (fun bt => negb (String.eqb (BankTransaction.id bt) id))
                (unmatchedBankTx state)
  /\ List.map (fun bt => (BankTransaction.id bt, BankTransaction.amount bt))
       (AppState.bankFeed s1)
     = List.map (fun bt => (BankTransaction.id bt, BankTransaction.amount bt))
         (AppState.bankFeed state)
  /\ AppState.auditLogs s1 = AppState.auditLogs state
  /\ appReducer envB h s1 (MATCH_BANK_TRANSACTION id) = (h, s1).
Proof.
  cbn zeta. cbn [appReducer snd]. unfold unmatchedBankTx.
  cbn [AppState.bankFeed AppState.auditLogs AppState.set_bankFeed].
  split; [apply filter_unmatched_map|]. split; [|split; [reflexivity|]].
  - rewrite List.map_map. apply map_ext. intros bt.
    destruct (String.eqb (BankTransaction.id bt) id); reflexivity.
  - destruct state; unfold AppState.set_bankFeed; cbn. do 2 f_equal.
    rewrite List.map_map. apply map_ext. intros bt.
    destruct (String.eqb (BankTransaction.id bt) id) eqn:E;
      cbn [BankTransaction.set_status BankTransaction.id]; rewrite E;
      reflexivity.
Qed.

(** X9.  Notification ids are made from the clock alone, so two
    notifications added in the same millisecond share their id, and
    removing that id takes both away: after two ADD_NOTIFICATIONs at one
    instant and one REMOVE_NOTIFICATION of the id, the notifications are
    the original ones less those that had this id already. *)
Theorem notifications_same_instant env envR h state m1 t1 m2 t2 :
  let nid := "notif_" +:+ showZ (Date_now env) in
  let s1 := snd (appReducer env h state (ADD_NOTIFICATION m1 t1)) in
  let s2 := snd (appReducer env h s1 (ADD_NOTIFICATION m2 t2)) in
  let s3 := snd (appReducer envR h s2 (REMOVE_NOTIFICATION nid)) in
  List.map Notification.id (AppState.notifications s2)
    = List.map Notification.id (AppState.notifications state) ++ [nid; nid]
  /\ AppState.notifications s3
     = List.filter (fun n => negb (String.eqb (Notification.id n) nid))
         (AppState.notifications state)
  /\ List.find (fun n => String.eqb (Notification.id n) nid)
       (AppState.notifications s3) = None.
Proof.
  cbn zeta. cbn [appReducer snd AppState.notifications AppState.set_notifications].
  unfold notify. split; [|split].
  - rewrite <- app_assoc, List.map_app. reflexivity.
  - rewrite <- app_assoc, List.filter_app. cbn [app List.filter Notification.id].
    rewrite String.eqb_refl. cbn [negb]. apply app_nil_r.
  - apply (find_filter_none (fun n => String.eqb (Notification.id n) _)).
Qed.

(** X10.  SWITCH_USER installs a user with the requested role, except
    that a request for Viewer installs the Operations Manager; and the
    deletion gate follows the switch: right after switching, DELETE_INVOICE
    is refused exactly for the Accountant. *)
Theorem switch_user_then_delete envA envB h state targetRole id :
  let s1 := snd (appReducer envA h state (SWITCH_USER targetRole)) in
  let s2 := snd (appReducer envB h s1 (DELETE_INVOICE id)) in
  SystemUser.role (AppState.currentUser s1)
    = match targetRole with Viewer => OperationsManager | r => r end
  /\ AppState.invoices s1 = AppState.invoices state
  /\ AppState.invoices s2
     = match targetRole with
       | Accountant => AppState.invoices state
       | _ => List.filter (fun i => negb (hasId id i)) (AppState.invoices state)
       end.
Proof.
  cbn zeta. cbn [appReducer snd]. unfold deleteInvoice.
  cbn [AppState.currentUser AppState.invoices AppState.set_notifications
       AppState.set_currentUser].
  destruct targetRole; cbn; repeat split.
Qed.

End Branches.

(** ** Further properties of RECORD_PAYMENT and of the TDS amount *)

Section Payments.
Context `{Runtime}.

Lemma rawBalance_settle p a st i :
  rawBalance (Invoice.settle p a st i) = Invoice.amount i - (p + a).
Proof. reflexivity. Qed.

Lemma statusFor_range env invoice b :
  (statusFor env invoice b = paid \/ statusFor env invoice b = sent
   \/ statusFor env invoice b = overdue)
  /\ (statusFor env invoice b = paid <-> b <= 5).
Proof.
  unfold statusFor. destruct (Z.leb_spec b 5).
  - split; [auto|]. split; [lia|reflexivity].
  - destruct (b <? Invoice.amount invoice);
      [|destruct (isOverdue env (Invoice.dueDate invoice))];
      (split; [auto|split; [discriminate|lia]]).
Qed.

(** X11.  After RECORD_PAYMENT the stored status of the settled invoice is
    [paid], [sent] or [overdue], never [draft] or [partial], whatever it
    was before; it is [paid] exactly when at most 5 is left of the
    (unfloored) balance, so the payment dialog, which lists the invoices
    whose status is not [paid], offers the invoice again exactly when more
    than 5 is left. *)
Theorem record_payment_reopens env h state p invoice :
  List.find (hasId (RecordPayment.invoiceId p)) (AppState.invoices state)
    = Some invoice ->
  let state' := snd (appReducer env h state (RECORD_PAYMENT p)) in
  exists invoice',
    List.find (hasId (RecordPayment.invoiceId p)) (AppState.invoices state')
      = Some invoice'
    /\ (Invoice.status invoice' = paid \/ Invoice.status invoice' = sent
        \/ Invoice.status invoice' = overdue)
    /\ (Invoice.status invoice' = paid <-> rawBalance invoice' <= 5)
    /\ (In invoice' (openInvoices state') <-> 5 < rawBalance invoice').
Proof.
  intros Hf state'.
  destruct (recordPayment_found env state p invoice Hf) as [Hinv _].
  subst state'. cbn [appReducer snd]. eexists. split; [exact Hinv|].
  rewrite rawBalance_settle.
  cbn [Invoice.settle Invoice.status]. unfold newStatusOf.
  set (b := Invoice.amount invoice
            - (newPaidOf p invoice + newAdjustmentsOf p invoice)).
  destruct (statusFor_range env invoice b) as [Hr Hp].
  split; [exact Hr|]. split; [exact Hp|].
  unfold openInvoices. rewrite filter_In.
  cbn [Invoice.status].
  apply List.find_some in Hinv as [Hin _].
  unfold newStatusOf in Hin. fold b in Hin. split.
  - intros [_ Hs]. destruct (Z.le_gt_cases b 5) as [Hle|Hgt]; [|exact Hgt].
    apply Hp in Hle. rewrite Hle in Hs. discriminate.
  - intros Hgt. split; [exact Hin|].
    destruct (statusFor env invoice b) eqn:Es; try reflexivity.
    assert (b <= 5) by (apply Hp; reflexivity). lia.
Qed.

(** X12.  A debit never takes the automatic TDS back.  When a credit is
    followed by the debit of the same payload, the debit writes one debit
    transaction of the amount and no TDS entry; for a cash category it
    lowers the paid amount by the amount and leaves the adjustments as the
    credit left them, the TDS included; for a non-cash category it lowers
    the adjustments by the amount and leaves the paid amount alone. *)
Theorem credit_then_debit env env' h state p invoice :
  List.find (hasId (RecordPayment.invoiceId p)) (AppState.invoices state)
    = Some invoice ->
  RecordPayment.type p = credit ->
  let reversal :=
    RecordPayment.mk (RecordPayment.invoiceId p) (RecordPayment.date p)
      (RecordPayment.reference p) (RecordPayment.amount p) debit
      (RecordPayment.category p) (RecordPayment.debitNoteNo p)
      (RecordPayment.autoTds p) in
  let s1 := snd (appReducer env h state (RECORD_PAYMENT p)) in
  let s2 := snd (appReducer env' h s1 (RECORD_PAYMENT reversal)) in
  let cash := negb (Array_includes nonCash (RecordPayment.category p)) in
  exists invoice' invoice'' t,
    List.find (hasId (RecordPayment.invoiceId p)) (AppState.invoices s1)
      = Some invoice'
    /\ List.find (hasId (RecordPayment.invoiceId p)) (AppState.invoices s2)
       = Some invoice''
    /\ (flag (RecordPayment.autoTds p) && cash = true ->
        Invoice.adjustments invoice'
        = Some (num_or0 (Invoice.adjustments invoice)
                + tdsOf (RecordPayment.amount p)))
    /\ (cash = true ->
        Invoice.adjustments invoice'' = Invoice.adjustments invoice'
        /\ Invoice.paidAmount invoice''
           = Some (num_or0 (Invoice.paidAmount invoice')
                   - RecordPayment.amount p))
    /\ (cash = false ->
        Invoice.paidAmount invoice'' = Invoice.paidAmount invoice'
        /\ Invoice.adjustments invoice''
           = Some (num_or0 (Invoice.adjustments invoice')
                   - RecordPayment.amount p))
    /\ AppState.transactions s2 = t :: AppState.transactions s1
    /\ Transaction.type t = debit
    /\ Transaction.amount t = RecordPayment.amount p.
Proof.
  intros Hf Hty reversal s1 s2 cash.
  destruct (recordPayment_found env state p invoice Hf) as [Hinv1 Htx1].
  assert (Hf1 : List.find (hasId (RecordPayment.invoiceId reversal))
                  (AppState.invoices s1)
                = Some (Invoice.settle (newPaidOf p invoice)
                          (newAdjustmentsOf p invoice)
                          (newStatusOf env p invoice) invoice))
    by exact Hinv1.
  destruct (recordPayment_found env' s1 reversal _ Hf1) as [Hinv2 Htx2].
  eexists. eexists. eexists.
  split; [exact Hinv1|]. split; [exact Hinv2|].
  subst s2. cbn [appReducer snd]. rewrite Htx2.
  unfold newPaidOf, newAdjustmentsOf, newTransactionsOf, tdsApplies,
    isNonCashAdjustment.
  cbn [Invoice.settle Invoice.paidAmount Invoice.adjustments num_or0
       RecordPayment.type RecordPayment.category RecordPayment.amount
       RecordPayment.autoTds reversal].
  rewrite Hty. subst cash. rewrite andb_false_r. cbn [andb app].
  destruct (Array_includes nonCash (RecordPayment.category p));
    destruct (flag (RecordPayment.autoTds p)); cbn [negb andb];
    (split; [intros E; first [discriminate E|reflexivity]|]);
    (split; [intros E; first [discriminate E|split; reflexivity]|]);
    (split; [intros E; first [discriminate E|split; reflexivity]|]);
    (split; [reflexivity|split; reflexivity]).
Qed.

End Payments.

(** ** The payment dialog and the derived invoice view *)

Section InvoiceViews.
Context `{Runtime}.

Lemma floor98 b : Math_floor (Qmult (inject_Z b) (98 # 100)) = (98 * b) / 100.
Proof.
  unfold Math_floor, Qmult, inject_Z, Qfloor. cbn [Qnum Qden].
  rewrite Z.mul_comm. reflexivity.
Qed.

(** The amount the dialog proposes with the automatic TDS on, plus the TDS
    the reducer then adds, against a balance of any precision: at most a
    half above it and less than 74/49 below it. *)
Lemma full_suggestion_bounds (q : Q) :
  let N := Math_floor (Qmult q (98 # 100)) in
  (inject_Z (N + tdsOf N) <= q + (1 # 2))%Q
  /\ (q - (74 # 49) < inject_Z (N + tdsOf N))%Q.
Proof.
  intros N. unfold Math_floor in N.
  pose proof (Qfloor_le (Qmult q (98 # 100))) as Hlo.
  pose proof (Qlt_floor (Qmult q (98 # 100))) as Hhi.
  fold N in Hlo, Hhi. rewrite tdsOf_div.
  set (t := (2 * N + 49) / 98).
  pose proof (Z.div_mod (2 * N + 49) 98 ltac:(lia)) as Hd.
  pose proof (Z.mod_pos_bound (2 * N + 49) 98 ltac:(lia)) as Hm.
  fold t in Hd.
  assert (H1 : (inject_Z 98 * inject_Z t
                <= inject_Z 2 * inject_Z N + inject_Z 49)%Q).
  { rewrite <- !inject_Z_mult, <- !inject_Z_plus, <- Zle_Qle. lia. }
  assert (H2 : (inject_Z 2 * inject_Z N + inject_Z 49
                <= inject_Z 98 * inject_Z t + inject_Z 97)%Q).
  { rewrite <- !inject_Z_mult, <- !inject_Z_plus, <- Zle_Qle. lia. }
  rewrite inject_Z_plus in Hhi. rewrite inject_Z_plus.
  change (inject_Z 98) with (98 # 1)%Q in *.
  change (inject_Z 2) with (2 # 1)%Q in *.
  change (inject_Z 49) with (49 # 1)%Q in *.
  change (inject_Z 97) with (97 # 1)%Q in *.
  change (inject_Z 1) with (1 # 1)%Q in *.
  split; lra.
Qed.

(** X14.  When "Full payment" is chosen, the dialog proposes the whole
    balance, or 98% of it rounded down when the automatic TDS is on (0 when
    that is not positive).  Submitting that proposal as a credit leaves the
    invoice with status [paid].  With the TDS on, whatever the precision of
    the balance, what remains of it after the proposed amount and the
    rounded TDS is less than 74/49, and at least minus a half when the
    proposal is positive. *)
Theorem full_payment_settles env h state I invoice autoTds reference dn date :
  I <> EmptyString ->
  List.find (hasId I) (AppState.invoices state) = Some invoice ->
  let data :=
    PaymentForm.mk credit I "Full payment"
      (suggestedAmount autoTds (formBalance state I)) reference dn date
      autoTds in
  (exists a invoice',
     onSubmit data = Some a
     /\ List.find (hasId I)
          (AppState.invoices (snd (appReducer env h state a)))
        = Some invoice'
     /\ Invoice.status invoice' = paid)
  /\ forall q : Q,
       let N := Math_floor (Qmult q (98 # 100)) in
       let proposed := if 0 <? N then N else 0 in
       (q - inject_Z (proposed + tdsOf proposed) < 74 # 49)%Q
       /\ (0 < N -> (- (1 # 2) <= q - inject_Z (proposed + tdsOf proposed))%Q).
Proof.
  intros HI Hf data. split.
  - unfold onSubmit. cbn [PaymentForm.invoiceId data].
    destruct (String.eqb_spec I EmptyString) as [E|_]; [contradiction|].
    pose (p := RecordPayment.mk I date reference
                 (suggestedAmount autoTds (formBalance state I)) credit
                 "Full payment" (Some dn) (Some autoTds)).
    assert (Hfp : List.find (hasId (RecordPayment.invoiceId p))
                    (AppState.invoices state) = Some invoice) by exact Hf.
    destruct (recordPayment_found env state p invoice Hfp) as [Hinv _].
    exists (RECORD_PAYMENT p),
      (Invoice.settle (newPaidOf p invoice) (newAdjustmentsOf p invoice)
                      (newStatusOf env p invoice) invoice).
    split; [reflexivity|].
    cbn [appReducer snd]. split; [exact Hinv|].
    cbn [Invoice.settle Invoice.status].
    assert (Hb : formBalance state I = rawBalance invoice).
    { unfold formBalance.
      change (fun i : Invoice.t => String.eqb (Invoice.id i) I) with (hasId I).
      rewrite Hf. reflexivity. }
    assert (Hcash : Array_includes nonCash "Full payment" = false)
      by reflexivity.
    assert (Hp : newPaidOf p invoice
                 = num_or0 (Invoice.paidAmount invoice)
                   + suggestedAmount autoTds (rawBalance invoice)).
    { unfold newPaidOf, isNonCashAdjustment.
      cbn [RecordPayment.category RecordPayment.type RecordPayment.amount p].
      rewrite Hcash, Hb. reflexivity. }
    assert (Ha : newAdjustmentsOf p invoice
                 = num_or0 (Invoice.adjustments invoice)
                   + if autoTds
                     then tdsOf (suggestedAmount autoTds (rawBalance invoice))
                     else 0).
    { unfold newAdjustmentsOf, tdsApplies, isNonCashAdjustment.
      cbn [RecordPayment.category RecordPayment.type RecordPayment.amount
           RecordPayment.autoTds flag p].
      rewrite Hcash, Hb. destruct autoTds; cbn [andb negb]; lia. }
    unfold newStatusOf. rewrite Hp, Ha.
    set (b := rawBalance invoice).
    apply statusFor_range.
    assert (Hbal : Invoice.amount invoice
                   - (num_or0 (Invoice.paidAmount invoice)
                      + suggestedAmount autoTds b
                      + (num_or0 (Invoice.adjustments invoice)
                         + (if autoTds
                            then tdsOf (suggestedAmount autoTds b) else 0)))
                   = b - suggestedAmount autoTds b
                     - (if autoTds then tdsOf (suggestedAmount autoTds b)
                        else 0)).
    { subst b. unfold rawBalance. lia. }
    rewrite Hbal. unfold suggestedAmount. destruct autoTds.
    + rewrite floor98.
      pose proof (Z.div_mod (98 * b) 100 ltac:(lia)) as Hd.
      pose proof (Z.mod_pos_bound (98 * b) 100 ltac:(lia)) as Hm.
      destruct (Z.ltb_spec 0 (98 * b / 100)) as [Hpos|Hneg].
      * rewrite tdsOf_div.
        pose proof (Z.div_mod (2 * (98 * b / 100) + 49) 98 ltac:(lia)) as Hd2.
        pose proof (Z.mod_pos_bound (2 * (98 * b / 100) + 49) 98 ltac:(lia))
          as Hm2.
        lia.
      * change (tdsOf 0) with 0. lia.
    + destruct (Z.ltb_spec 0 b); lia.
  - intros q N proposed.
    destruct (full_suggestion_bounds q) as [Hup Hlow]. fold N in Hup, Hlow.
    pose proof (Qlt_floor (Qmult q (98 # 100))) as Hhi.
    change (Qfloor (Qmult q (98 # 100))) with N in Hhi.
    subst proposed. destruct (Z.ltb_spec 0 N) as [Hpos|Hneg].
    + split; [lra|]. intros _. lra.
    + change (tdsOf 0) with 0. split; [|intros Hc; lia].
      assert (Hn : (inject_Z (N + 1) <= 1 # 1)%Q).
      { change (1 # 1)%Q with (inject_Z 1). rewrite <- Zle_Qle. lia. }
      change (inject_Z (0 + 0)) with (0 # 1)%Q. lra.
Qed.

Lemma Math_ceil_pos d :
  0 < d -> 0 < Math_ceil (Qdiv (inject_Z d) (inject_Z msPerDay)).
Proof.
  intros Hd. unfold Math_ceil.
  set (q := Qdiv (inject_Z d) (inject_Z msPerDay)).
  assert (Hq : (0 < q)%Q).
  { subst q. change msPerDay with 86400000.
    unfold Qdiv, Qmult, Qinv, inject_Z, Qlt. cbn. lia. }
  pose proof (Qle_ceiling q) as Hc.
  pose proof (Qlt_le_trans _ _ _ Hq Hc) as Hlt.
  unfold Qlt, inject_Z in Hlt. cbn in Hlt. lia.
Qed.

Lemma derive_balance env inv p :
  Invoice.paidAmount inv = Some p ->
  DerivedInvoice.balanceAmount (deriveInvoiceData env inv)
  = Z.max 0 (rawBalance inv).
Proof.
  intros Hp. unfold deriveInvoiceData, rawBalance. rewrite Hp.
  cbn [DerivedInvoice.balanceAmount num_or0].
  destruct (Z.ltb_spec (Invoice.amount inv
                        - (p + num_or0 (Invoice.adjustments inv))) 0); lia.
Qed.

(** X15.  The status the invoice table derives agrees with the status
    RECORD_PAYMENT has stored: for the settled invoice, at the instant of
    the payment or any later one, the derived status is Paid exactly when
    the stored status is [paid], a stored [overdue] is shown as Overdue,
    and the derived balance is the stored one floored at 0. *)
Theorem derived_status_consistent env env' h state p invoice :
  List.find (hasId (RecordPayment.invoiceId p)) (AppState.invoices state)
    = Some invoice ->
  Date_now env <= Date_now env' ->
  exists invoice',
    List.find (hasId (RecordPayment.invoiceId p))
      (AppState.invoices (snd (appReducer env h state (RECORD_PAYMENT p))))
      = Some invoice'
    /\ let d := deriveInvoiceData env' invoice' in
       DerivedInvoice.balanceAmount d = Z.max 0 (rawBalance invoice')
       /\ (DerivedInvoice.displayStatus d = Paid <->
           Invoice.status invoice' = paid)
       /\ (Invoice.status invoice' = overdue ->
           DerivedInvoice.displayStatus d = Overdue
           /\ 0 < DerivedInvoice.overdueDays d).
Proof.
  intros Hf Hnow.
  destruct (recordPayment_found env state p invoice Hf) as [Hinv _].
  cbn [appReducer snd]. eexists. split; [exact Hinv|].
  set (np := newPaidOf p invoice). set (na := newAdjustmentsOf p invoice).
  set (st := newStatusOf env p invoice).
  cbn zeta. split; [apply (derive_balance _ _ np); reflexivity|].
  assert (Hst : st = statusFor env invoice (Invoice.amount invoice - (np + na)))
    by reflexivity.
  set (b := Invoice.amount invoice - (np + na)) in *.
  unfold deriveInvoiceData.
  cbn [Invoice.settle Invoice.paidAmount Invoice.adjustments Invoice.amount
       Invoice.dueDate Invoice.status num_or0
       DerivedInvoice.displayStatus DerivedInvoice.overdueDays].
  fold b.
  destruct (statusFor_range env invoice b) as [_ Hpaid].
  rewrite <- Hst in Hpaid. split.
  - rewrite Hpaid.
    destruct (Z.ltb_spec b 0) as [Hneg|Hpos].
    + cbn. split; [intros; lia|reflexivity].
    + destruct (Z.leb_spec b 5) as [Hle|Hgt]; [split; auto|].
      split; [|intros; lia].
      destruct ((0 <? b) && _); [discriminate|].
      destruct ((_ || _) && _); discriminate.
  - intros Hov. rewrite Hst in Hov. unfold statusFor in Hov.
    destruct (Z.leb_spec b 5) as [Hle|Hgt]; [discriminate|].
    destruct (b <? Invoice.amount invoice); [discriminate|].
    destruct (isOverdue env (Invoice.dueDate invoice)) eqn:Eo; [|discriminate].
    apply isOverdue_spec in Eo as (t & Ht & Hlt).
    rewrite Ht.
    destruct (Z.ltb_spec b 0) as [Hneg|Hpos]; [lia|].
    destruct (Z.leb_spec b 5) as [Hle|_]; [lia|].
    destruct (Z.ltb_spec 0 b) as [_|Hb0]; [|lia].
    destruct (Z.ltb_spec 0 (Date_now env' - t)) as [Hd|Hd]; [|lia].
    cbn [andb]. pose proof (Math_ceil_pos _ Hd) as Hc.
    destruct (Z.ltb_spec 0 (Math_ceil (Qdiv (inject_Z (Date_now env' - t))
                                            (inject_Z msPerDay)))); [|lia].
    split; [reflexivity|exact Hc].
Qed.

Lemma exposure_fold (f : Invoice.t -> Z) (l : list Invoice.t) :
  (forall i, 0 <= f i) ->
  forall a, 0 <= a ->
    let r := fold_left (fun acc inv => acc + f inv) l a in
    a <= r
    /\ (forall i, In i l -> f i <= r)
    /\ (r = a <-> forall i, In i l -> f i = 0).
Proof.
  intros Hf. induction l as [|x l IH]; intros a Ha; cbn [fold_left].
  - cbn zeta. split; [lia|]. split; [intros i []|].
    split; [intros _ i []|reflexivity].
  - cbn zeta. specialize (Hf x) as Hx.
    destruct (IH (a + f x) ltac:(lia)) as (H1 & H2 & H3). cbn zeta in *.
    split; [lia|]. split.
    + intros i [<-|Hi]; [lia|exact (H2 i Hi)].
    + split.
      * intros E i [<-|Hi]; [lia|]. apply H3; [lia|exact Hi].
      * intros Hall. assert (E0 : f x = 0) by (apply Hall; left; reflexivity).
        rewrite E0, Z.add_0_r. rewrite E0, Z.add_0_r in H3.
        apply H3. intros i Hi. apply Hall. right. exact Hi.
Qed.

(** X16.  The credit exposure of a customer is never negative and is 0
    when no single customer is selected.  Every invoice of the customer
    counts with its own balance floored at 0: the exposure is at least the
    balance of each single invoice, so an overpaid invoice does not offset
    the others, and it is 0 exactly when no invoice of the customer has a
    positive balance. *)
Theorem customer_exposure_floor invoices selectedCustomerId :
  let balanceOf i :=
    Invoice.amount i - num_or0 (Invoice.paidAmount i)
    - num_or0 (Invoice.adjustments i) in
  0 <= customerExposure invoices selectedCustomerId
  /\ customerExposure invoices "all" = 0
  /\ (forall i,
        In i invoices -> Invoice.customerId i = selectedCustomerId ->
        selectedCustomerId <> "all" ->
        balanceOf i <= customerExposure invoices selectedCustomerId)
  /\ (customerExposure invoices selectedCustomerId = 0 <->
      forall i,
        In i (customerAllInvoices invoices selectedCustomerId) ->
        balanceOf i <= 0).
Proof.
  intros balanceOf. unfold customerExposure.
  destruct (exposure_fold (fun inv => Z.max 0 (balanceOf inv))
              (customerAllInvoices invoices selectedCustomerId)
              ltac:(intros; lia) 0 ltac:(lia)) as (H1 & H2 & H3).
  cbn zeta in H1, H2, H3. subst balanceOf. cbn beta in *.
  split; [exact H1|]. split; [reflexivity|]. split.
  - intros i Hi Hc Hall.
    assert (Hin : In i (customerAllInvoices invoices selectedCustomerId)).
    { unfold customerAllInvoices.
      destruct (String.eqb_spec selectedCustomerId "all"); [contradiction|].
      apply filter_In. split; [exact Hi|]. apply String.eqb_eq. exact Hc. }
    specialize (H2 i Hin). lia.
  - rewrite H3. split; intros Hall i Hi; specialize (Hall i Hi); lia.
Qed.

End InvoiceViews.

(** ** The vendor page: the rows of the operational ledger *)

Section VendorLedgerFacts.
Context `{Runtime}.

Lemma findVendor_id h refs vid l v :
  findVendor h refs vid = Some l -> h !! l = Some v -> Vendor.id v = vid.
Proof.
  unfold findVendor. intros Hf Hv. apply List.find_some in Hf as [_ Hp].
  rewrite Hv in Hp. apply String.eqb_eq. exact Hp.
Qed.

Lemma findVendor_lookup h refs vid l :
  findVendor h refs vid = Some l ->
  exists v, h !! l = Some v /\ Vendor.id v = vid.
Proof.
  intros Hf. pose proof Hf as Hf'. unfold findVendor in Hf'.
  apply List.find_some in Hf' as [_ Hp].
  destruct (h !! l) as [v|] eqn:Hv; [|discriminate].
  exists v. split; [reflexivity|]. apply String.eqb_eq. exact Hp.
Qed.

Lemma vendorRunning_rows l : forall b,
  List.map rowAmounts (vendorRunning b l)
  = List.map (fun e => (VendorEntry.debit e, VendorEntry.credit e)) l.
Proof.
  induction l as [|e l IH]; intros b; cbn [vendorRunning List.map];
    [reflexivity|].
  rewrite IH. reflexivity.
Qed.

(** Read newest first, the balance of a row is the balance of the row
    after it, or the opening balance, plus its freight less its paid
    amount. *)
Lemma vendorRunning_step l : forall b k r,
  rev (vendorRunning b l) !! k = Some r ->
  VendorRow.balance r
  = match rev (vendorRunning b l) !! S k with
    | Some r' => VendorRow.balance r'
    | None => b
    end + VendorRow.freightAmount r - VendorRow.paidAmount r.
Proof.
  induction l as [|e l IH]; intros b k r; cbn [vendorRunning rev];
    [intros E; discriminate E|].
  set (b' := b + VendorEntry.debit e - VendorEntry.credit e).
  set (R := rev (vendorRunning b' l)).
  intros E. destruct (Nat.lt_ge_cases k (length R)) as [Hk|Hk].
  - rewrite lookup_app_l in E by exact Hk.
    rewrite (IH b' k r E). fold R.
    destruct (Nat.lt_ge_cases (S k) (length R)) as [Hk'|Hk'].
    + rewrite lookup_app_l by exact Hk'.
      destruct (lookup_lt_is_Some_2 R (S k) Hk') as [r' Hr'].
      rewrite Hr'. reflexivity.
    + rewrite lookup_app_r by exact Hk'.
      replace (S k - length R)%nat with 0%nat by lia.
      rewrite (lookup_ge_None_2 R (S k) Hk'). reflexivity.
  - rewrite lookup_app_r in E by exact Hk.
    destruct (k - length R)%nat as [|n] eqn:En; [|discriminate E].
    injection E as <-.
    rewrite lookup_ge_None_2 by (rewrite length_app; cbn [length]; lia).
    reflexivity.
Qed.

Lemma vendorDebits_rows state vendor :
  List.map (fun e => (VendorEntry.debit e, VendorEntry.credit e))
    (vendorDebits state vendor)
  = List.map (fun e => (Expense.amount e, 0))
      (List.filter (fun e => opt_eqb (Expense.vendorId e) (Vendor.id vendor))
                   (AppState.expenses state)).
Proof. unfold vendorDebits. rewrite List.map_map. reflexivity. Qed.

Lemma vendorCredits_rows state vendor :
  List.map (fun e => (VendorEntry.debit e, VendorEntry.credit e))
    (vendorCredits state vendor)
  = List.map (fun t => (0, Transaction.amount t))
      (List.filter
         (fun t => opt_eqb (Transaction.vendorId t) (Vendor.id vendor)
                   && match Transaction.type t with
                      | credit => true
                      | debit => false
                      end)
         (AppState.transactions state)).
Proof. unfold vendorCredits. rewrite List.map_map. reflexivity. Qed.

(** The rows of the ledger of a vendor of the state are the vendor's
    expenses and the vendor's credit transactions, in some order. *)
Lemma vendorLedger_perm h state id l vendor :
  findVendor h (AppState.vendors state) id = Some l ->
  h !! l = Some vendor ->
  Permutation (List.map rowAmounts (vendorLedgerData h state id))
    (List.map (fun e => (Expense.amount e, 0))
       (List.filter (fun e => opt_eqb (Expense.vendorId e) id)
                    (AppState.expenses state))
     ++ List.map (fun t => (0, Transaction.amount t))
          (List.filter
             (fun t => opt_eqb (Transaction.vendorId t) id
                       && match Transaction.type t with
                          | credit => true
                          | debit => false
                          end)
             (AppState.transactions state))).
Proof.
  intros Hf Hv. unfold vendorLedgerData. rewrite Hf, Hv.
  pose proof (findVendor_id _ _ _ _ _ Hf Hv) as Hid.
  rewrite List.map_rev, vendorRunning_rows.
  rewrite <- Permutation_rev.
  rewrite (Permutation_map _ (Array_sort_perm compareByDate _)).
  rewrite List.map_app, vendorDebits_rows, vendorCredits_rows, Hid.
  reflexivity.
Qed.

(** X18.  The ledger of the vendor page, read newest first: the balance
    of each row is the balance of the row after it (0 after the oldest)
    plus the row's freight less its paid amount; for a vendor of the state
    the rows are the expenses booked on the vendor, as freight, and the
    credit transactions booked on the vendor, as paid amounts, each exactly
    once; for an unknown id the ledger is empty. *)
Theorem vendor_ledger_rows h state id :
  let ledgerData := vendorLedgerData h state id in
  (forall k r,
     ledgerData !! k = Some r ->
     VendorRow.balance r
     = match ledgerData !! S k with
       | Some r' => VendorRow.balance r'
       | None => 0
       end + VendorRow.freightAmount r - VendorRow.paidAmount r)
  /\ (forall l vendor,
        findVendor h (AppState.vendors state) id = Some l ->
        h !! l = Some vendor ->
        Permutation (List.map rowAmounts ledgerData)
          (List.map (fun e => (Expense.amount e, 0))
             (List.filter (fun e => opt_eqb (Expense.vendorId e) id)
                          (AppState.expenses state))
           ++ List.map (fun t => (0, Transaction.amount t))
                (List.filter
                   (fun t => opt_eqb (Transaction.vendorId t) id
                             && match Transaction.type t with
                                | credit => true
                                | debit => false
                                end)
                   (AppState.transactions state))))
  /\ (findVendor h (AppState.vendors state) id = None -> ledgerData = []).
Proof.
  cbn zeta. split; [|split].
  - intros k r. unfold vendorLedgerData.
    destruct (findVendor h (AppState.vendors state) id) as [l|];
      [|intros E; discriminate E].
    destruct (h !! l) as [vendor|]; [|intros E; discriminate E].
    apply vendorRunning_step.
  - intros l vendor Hf Hv. exact (vendorLedger_perm h state id l vendor Hf Hv).
  - intros Hf. unfold vendorLedgerData. rewrite Hf. reflexivity.
Qed.

(** *** What a batch of vendor payments writes *)

Lemma sameVendors_refl h : sameVendors h h.
Proof. unfold sameVendors. induction h; constructor; auto. Qed.

Lemma findVendor_same h h' refs vid :
  sameVendors h h' -> findVendor h' refs vid = findVendor h refs vid.
Proof.
  intros Hs. unfold findVendor.
  induction refs as [|l refs IH]; cbn [List.find]; [reflexivity|].
  rewrite IH. destruct (h !! l) as [v|] eqn:Hv.
  - destruct (Forall2_lookup_l _ _ _ _ _ Hs Hv) as (v' & Hv' & Hid & _).
    rewrite Hv', Hid. reflexivity.
  - apply lookup_ge_None in Hv.
    rewrite (Forall2_length _ _ _ Hs) in Hv.
    rewrite (lookup_ge_None_2 _ _ Hv). reflexivity.
Qed.

Lemma vendorTransactions_name env p vid v v' :
  Vendor.name v' = Vendor.name v ->
  vendorTransactions env p vid v' = vendorTransactions env p vid v.
Proof. intros E. unfold vendorTransactions. rewrite E. reflexivity. Qed.

Lemma payVendors_fold env p refs h vids : forall h0 txs,
  sameVendors h h0 ->
  snd (fold_left (payVendor env p refs) vids (h0, txs))
    = txs ++ flat_map (roundTransactions env p h refs) vids
  /\ sameVendors h (fst (fold_left (payVendor env p refs) vids (h0, txs))).
Proof.
  induction vids as [|vid vids IH]; intros h0 txs Hs; cbn [fold_left flat_map].
  - rewrite app_nil_r. split; [reflexivity|exact Hs].
  - unfold payVendor at 2 4. unfold roundTransactions at 1.
    rewrite (findVendor_same h h0 refs vid Hs).
    destruct (findVendor h refs vid) as [l|] eqn:Hf.
    + destruct (findVendor_lookup _ _ _ _ Hf) as (v & Hv & _).
      destruct (Forall2_lookup_l _ _ _ _ _ Hs Hv) as (v0 & Hv0 & Hid & Hname).
      rewrite Hv, Hv0.
      rewrite (vendorTransactions_name env p vid v v0 Hname).
      rewrite app_assoc. apply IH.
      unfold sameVendors. rewrite <- (list_insert_id h l v Hv).
      apply Forall2_insert; [exact Hs|]. split; [exact Hid|exact Hname].
    + cbn [app]. apply IH. exact Hs.
Qed.

(** The transactions RECORD_VENDOR_PAYMENT adds: those of each round, in
    the order of [vendorIds], in front of the old ones. *)
Lemma recordVendorPayment_transactions env h state p :
  AppState.transactions (snd (recordVendorPayment env h state p))
    = flat_map (roundTransactions env p h (AppState.vendors state))
               (RecordVendorPayment.vendorIds p)
      ++ AppState.transactions state
  /\ sameVendors h (fst (recordVendorPayment env h state p)).
Proof.
  unfold recordVendorPayment.
  destruct (payVendors_fold env p (AppState.vendors state) h
              (RecordVendorPayment.vendorIds p) h [] (sameVendors_refl h))
    as [Htx Hs].
  destruct (fold_left _ _ _) as [h' txs]. cbn [fst snd] in *.
  subst txs. split; [reflexivity|exact Hs].
Qed.

Lemma roundTransactions_length env p h state vids :
  length (flat_map (roundTransactions env p h (AppState.vendors state)) vids)
  = (length
       (List.filter
          (fun vid => match findVendor h (AppState.vendors state) vid with
                      | Some _ => true
                      | None => false
                      end) vids)
     * if RecordVendorPayment.autoTds p && (0 <? vendorTds p)%Z
       then 2 else 1)%nat.
Proof.
  induction vids as [|vid vids IH]; cbn [flat_map List.filter];
    [reflexivity|].
  rewrite length_app, IH. unfold roundTransactions at 1.
  destruct (findVendor h (AppState.vendors state) vid) as [l|] eqn:Hf.
  - destruct (findVendor_lookup _ _ _ _ Hf) as (v & Hv & _). rewrite Hv.
    unfold vendorTransactions.
    destruct (RecordVendorPayment.autoTds p && (0 <? vendorTds p));
      cbn [length app]; lia.
  - cbn [length]. lia.
Qed.

(** X13.  The vendor path writes its TDS transaction only when [autoTds]
    is set and the TDS amount is positive: a batch adds, for every id of
    the list that names a vendor of the state, two transactions in that
    case and one otherwise.  The customer path has no such test: whenever
    [autoTds] applies it adds a TDS transaction next to the receipt, of the
    rounded amount, whatever its sign. *)
Theorem tds_entry_guard env h state :
  (forall p,
     length (AppState.transactions
               (snd (appReducer env h state (RECORD_VENDOR_PAYMENT p))))
     = (length (AppState.transactions state)
        + length (paidIds h state p)
          * if RecordVendorPayment.autoTds p && (0 <? vendorTds p)%Z
            then 2 else 1)%nat)
  /\ (forall p invoice,
        List.find (hasId (RecordPayment.invoiceId p)) (AppState.invoices state)
          = Some invoice ->
        tdsApplies p = true ->
        exists t1 t2,
          AppState.transactions
            (snd (appReducer env h state (RECORD_PAYMENT p)))
          = t1 :: t2 :: AppState.transactions state
          /\ Transaction.amount t2 = tdsOf (RecordPayment.amount p)
          /\ Transaction.type t2 = credit).
Proof.
  split.
  - intros p. cbn [appReducer].
    destruct (recordVendorPayment_transactions env h state p) as [-> _].
    rewrite length_app, roundTransactions_length. unfold paidIds. lia.
  - intros p invoice Hf Happ.
    destruct (recordPayment_found env state p invoice Hf) as [_ Htx].
    cbn [appReducer snd]. rewrite Htx. unfold newTransactionsOf.
    rewrite Happ. eexists. eexists. split; [reflexivity|].
    split; reflexivity.
Qed.

Lemma roundTransactions_rows env p h state id l v vids :
  findVendor h (AppState.vendors state) id = Some l ->
  h !! l = Some v ->
  List.map (fun t => (0, Transaction.amount t))
    (List.filter
       (fun t => opt_eqb (Transaction.vendorId t) id
                 && match Transaction.type t with
                    | credit => true
                    | debit => false
                    end)
       (flat_map (roundTransactions env p h (AppState.vendors state)) vids))
  = flat_map (fun vid => if String.eqb vid id then paymentRows p else []) vids.
Proof.
  intros Hf Hv. induction vids as [|vid vids IH]; cbn [flat_map];
    [reflexivity|].
  rewrite List.filter_app, List.map_app, IH. f_equal.
  unfold roundTransactions.
  destruct (String.eqb_spec vid id) as [->|Hne].
  - rewrite Hf, Hv. unfold vendorTransactions, paymentRows.
    destruct (RecordVendorPayment.autoTds p && (0 <? vendorTds p));
      cbn [app List.filter Transaction.vendorId Transaction.type opt_eqb];
      rewrite String.eqb_refl; cbn [andb List.map Transaction.amount];
      reflexivity.
  - assert (Hno : String.eqb vid id = false) by (apply String.eqb_neq; exact Hne).
    destruct (findVendor h (AppState.vendors state) vid) as [l0|];
      [|reflexivity].
    destruct (h !! l0) as [v0|]; [|reflexivity].
    unfold vendorTransactions.
    destruct (RecordVendorPayment.autoTds p && (0 <? vendorTds p));
      cbn [app List.filter Transaction.vendorId Transaction.type opt_eqb];
      rewrite Hno; reflexivity.
Qed.

Lemma paymentRows_absent p id vids :
  ~ In id vids ->
  flat_map (fun vid => if String.eqb vid id then paymentRows p else []) vids
  = [].
Proof.
  induction vids as [|vid vids IH]; intros Hno; cbn [flat_map];
    [reflexivity|].
  destruct (String.eqb_spec vid id) as [->|_].
  - exfalso. apply Hno. left. reflexivity.
  - cbn [app]. apply IH. intros Hin. apply Hno. right. exact Hin.
Qed.

(** X19.  A batch of vendor payments shows in the ledger of a vendor of
    the state as new credit rows and nothing else: for every occurrence of
    the vendor's id in the list, one row of the amount paid, and one of the
    TDS when [autoTds] is set and the TDS is positive; every row the ledger
    had is still there with its amounts, and a batch that does not list the
    vendor adds none. *)
Theorem vendor_payment_in_ledger env h state p id l v :
  findVendor h (AppState.vendors state) id = Some l ->
  h !! l = Some v ->
  let h' := fst (appReducer env h state (RECORD_VENDOR_PAYMENT p)) in
  let state' := snd (appReducer env h state (RECORD_VENDOR_PAYMENT p)) in
  Permutation
    (List.map rowAmounts (vendorLedgerData h' state' id))
    (flat_map (fun vid => if String.eqb vid id then paymentRows p else [])
              (RecordVendorPayment.vendorIds p)
     ++ List.map rowAmounts (vendorLedgerData h state id))
  /\ (~ In id (RecordVendorPayment.vendorIds p) ->
      Permutation (List.map rowAmounts (vendorLedgerData h' state' id))
                  (List.map rowAmounts (vendorLedgerData h state id))).
Proof.
  intros Hf Hv h' state'.
  destruct (recordVendorPayment_transactions env h state p) as [Htx Hs].
  destruct (recordVendorPayment_fields env h state p)
    as (Hvs & _ & Hes & _).
  change (recordVendorPayment env h state p)
    with (appReducer env h state (RECORD_VENDOR_PAYMENT p)) in Htx, Hs, Hvs, Hes.
  fold h' in Hs. fold state' in Htx, Hvs, Hes.
  assert (Hf' : findVendor h' (AppState.vendors state') id = Some l).
  { rewrite Hvs, (findVendor_same h h' _ id Hs). exact Hf. }
  destruct (Forall2_lookup_l _ _ _ _ _ Hs Hv) as (v' & Hv' & _).
  assert (Hmain :
    Permutation
      (List.map rowAmounts (vendorLedgerData h' state' id))
      (flat_map (fun vid => if String.eqb vid id then paymentRows p else [])
                (RecordVendorPayment.vendorIds p)
       ++ List.map rowAmounts (vendorLedgerData h state id))).
  { rewrite (vendorLedger_perm h' state' id l v' Hf' Hv').
    rewrite (vendorLedger_perm h state id l v Hf Hv).
    rewrite Hes, Htx, List.filter_app, List.map_app.
    rewrite (roundTransactions_rows env p h state id l v _ Hf Hv).
    apply Permutation_app_swap_app. }
  split; [exact Hmain|].
  intros Hno. rewrite Hmain.
  rewrite (paymentRows_absent p id _ Hno). reflexivity.
Qed.

End VendorLedgerFacts.

(** ** Posting a trip, seen from the vendor page *)

Section TripViews.
Context `{Runtime}.

Lemma existsb_find {A : Type} (P : A -> bool) (l : list A) :
  existsb P l = match List.find P l with Some _ => true | None => false end.
Proof.
  induction l as [|x l IH]; cbn [existsb List.find]; [reflexivity|].
  destruct (P x); [reflexivity|exact IH].
Qed.

Lemma isFreightOf_new env booking bookingId b' :
  String.eqb (Booking.id booking) bookingId = true ->
  isFreightOf b' (freightExpense env booking) = String.eqb b' bookingId.
Proof.
  intros Hid. apply String.eqb_eq in Hid. subst bookingId.
  unfold isFreightOf, freightExpense.
  cbn [Expense.bookingId Expense.category opt_eqb is_Freight].
  rewrite andb_true_r. apply String.eqb_sym.
Qed.

(** X20.  After COMPLETE_TRIP the vendor page shows a booking as posted
    exactly when it did before, or when it is the booking of the action,
    that booking exists and has a vendor assigned; the posted flag of every
    other booking is as it was. *)
Theorem posted_flag_after_trip env h state bookingId b' :
  isBookingPosted (snd (appReducer env h state (COMPLETE_TRIP bookingId))) b'
  = isBookingPosted state b'
    || (String.eqb b' bookingId
        && match List.find (fun b => String.eqb (Booking.id b) bookingId)
                           (AppState.bookings state) with
           | Some booking => truthy (Booking.vendorId booking)
           | None => false
           end).
Proof.
  cbn [appReducer]. unfold completeTrip.
  destruct (List.find _ (AppState.bookings state)) as [booking|] eqn:Eb.
  - destruct (truthy (Booking.vendorId booking)) eqn:Ev; cbn [negb snd].
    + destruct (List.find (isFreightOf bookingId) (AppState.expenses state))
        as [e|] eqn:Ee.
      * cbn [snd]. unfold isBookingPosted.
        cbn [AppState.expenses AppState.set_notifications].
        rewrite andb_true_r.
        destruct (String.eqb_spec b' bookingId) as [->|_];
          [|rewrite orb_false_r; reflexivity].
        rewrite existsb_find, Ee. reflexivity.
      * destruct (mapVendors _ h _) as [h' ls]. cbn [snd].
        unfold isBookingPosted.
        cbn [AppState.expenses AppState.set_notifications
             AppState.set_auditLogs AppState.set_expenses].
        rewrite existsb_app. cbn [existsb]. rewrite orb_false_r.
        apply List.find_some in Eb as [_ Hid].
        rewrite (isFreightOf_new env booking bookingId b' Hid).
        rewrite andb_true_r. reflexivity.
    + unfold isBookingPosted.
      cbn [AppState.expenses AppState.set_notifications].
      rewrite andb_false_r, orb_false_r. reflexivity.
  - cbn [snd]. rewrite andb_false_r, orb_false_r. reflexivity.
Qed.

Lemma findVendor_app h new refs vid :
  wfRefs h refs -> findVendor (h ++ new) refs vid = findVendor h refs vid.
Proof.
  unfold findVendor, wfRefs.
  induction 1 as [|l refs Hl _ IH]; cbn [List.find]; [reflexivity|].
  rewrite IH. rewrite lookup_app_l by exact Hl. reflexivity.
Qed.

(** The vendor a lookup by id finds is found again, mapped, in the list
    [refs.map] returns, when the callback keeps the ids. *)
Lemma mapVendors_find f vid
    (Hid : forall v v', f v = Some v' -> Vendor.id v' = Vendor.id v) refs :
  forall h l v,
    wfRefs h refs ->
    findVendor h refs vid = Some l -> h !! l = Some v ->
    exists l',
      findVendor (fst (mapVendors f h refs)) (snd (mapVendors f h refs)) vid
        = Some l'
      /\ fst (mapVendors f h refs) !! l' = Some (mapped f v).
Proof.
  induction refs as [|l0 refs IH]; intros h l v Hwf Hf Hv;
    [discriminate Hf|].
  inversion Hwf as [|? ? Hl0 Hwf']; subst.
  destruct (lookup_lt_is_Some_2 h l0 Hl0) as [v0 Hv0].
  cbn [mapVendors]. rewrite Hv0. cbn beta iota.
  unfold findVendor in Hf. cbn [List.find] in Hf. rewrite Hv0 in Hf.
  fold (findVendor h refs vid) in Hf.
  destruct (f v0) as [v0'|] eqn:Ef.
  - unfold alloc.
    assert (Hwf1 : wfRefs (h ++ [v0']) refs)
      by (apply wfRefs_app; exact Hwf').
    destruct (mapVendors_extends f refs (h ++ [v0'])) as [new Hn].
    specialize (IH (h ++ [v0'])).
    destruct (mapVendors f (h ++ [v0']) refs) as [h2 ls].
    cbn [fst snd] in *. subst h2.
    assert (Hnew : ((h ++ [v0']) ++ new) !! length h = Some v0').
    { rewrite <- app_assoc. rewrite lookup_app_r by lia.
      replace (length h - length h)%nat with 0%nat by lia. reflexivity. }
    unfold findVendor at 1. cbn [List.find]. rewrite Hnew.
    rewrite (Hid v0 v0' Ef).
    destruct (String.eqb (Vendor.id v0) vid) eqn:E0.
    + injection Hf as <-. rewrite Hv0 in Hv. injection Hv as <-.
      exists (length h). split; [reflexivity|].
      rewrite Hnew. unfold mapped. rewrite Ef. reflexivity.
    + fold (findVendor ((h ++ [v0']) ++ new) ls vid).
      apply (IH l v Hwf1).
      * rewrite findVendor_app by exact Hwf'. exact Hf.
      * apply lookup_app_l_Some. exact Hv.
  - destruct (mapVendors_extends f refs h) as [new Hn].
    specialize (IH h).
    destruct (mapVendors f h refs) as [h2 ls].
    cbn [fst snd] in *. subst h2.
    assert (Hold : (h ++ new) !! l0 = Some v0)
      by (apply lookup_app_l_Some; exact Hv0).
    unfold findVendor at 1. cbn [List.find]. rewrite Hold.
    destruct (String.eqb (Vendor.id v0) vid) eqn:E0.
    + injection Hf as <-. rewrite Hv0 in Hv. injection Hv as <-.
      exists l0. split; [reflexivity|].
      rewrite Hold. unfold mapped. rewrite Ef. reflexivity.
    + fold (findVendor (h ++ new) ls vid).
      apply (IH l v Hwf' Hf Hv).
Qed.

(** X21.  Posting the freight of an existing, not yet posted booking whose
    vendor is in the state adds one row to that vendor's ledger, with the
    booking's expense as freight and nothing paid, and leaves the amounts
    of the rows the ledger had; the balance stored on the vendor rises by
    the booking's expense. *)
Theorem trip_posting_in_ledger env h state bookingId booking vid l v :
  wfRefs h (AppState.vendors state) ->
  List.find (fun b => String.eqb (Booking.id b) bookingId)
            (AppState.bookings state) = Some booking ->
  Booking.vendorId booking = Some vid ->
  vid <> EmptyString ->
  isBookingPosted state bookingId = false ->
  findVendor h (AppState.vendors state) vid = Some l ->
  h !! l = Some v ->
  let h' := fst (appReducer env h state (COMPLETE_TRIP bookingId)) in
  let state' := snd (appReducer env h state (COMPLETE_TRIP bookingId)) in
  Permutation
    (List.map rowAmounts (vendorLedgerData h' state' vid))
    ((Booking.expense booking, 0)
     :: List.map rowAmounts (vendorLedgerData h state vid))
  /\ exists l' v',
       findVendor h' (AppState.vendors state') vid = Some l'
       /\ h' !! l' = Some v'
       /\ Vendor.balance v' = Vendor.balance v + Booking.expense booking.
Proof.
  intros Hwf Hb Hvid Hne Hposted Hf Hv.
  assert (Ht : truthy (Booking.vendorId booking) = true).
  { rewrite Hvid. cbn [truthy].
    destruct (String.eqb_spec vid EmptyString); [contradiction|reflexivity]. }
  assert (He : List.find (isFreightOf bookingId) (AppState.expenses state)
               = None).
  { unfold isBookingPosted in Hposted. rewrite existsb_find in Hposted.
    destruct (List.find (isFreightOf bookingId) _);
      [discriminate|reflexivity]. }
  cbn [appReducer].
  rewrite (completeTrip_posting env h state bookingId booking Hb Ht He).
  cbn [fst snd]. cbn zeta.
  assert (Hkeep : forall v0 v0', creditVendor env booking v0 = Some v0' ->
                                 Vendor.id v0' = Vendor.id v0).
  { intros v0 v0'. unfold creditVendor.
    destruct (opt_eqb _ _); [|discriminate]. intros E. injection E as <-.
    reflexivity. }
  destruct (mapVendors_find (creditVendor env booking) vid Hkeep
              (AppState.vendors state) h l v Hwf Hf Hv) as (l' & Hf' & Hv').
  set (h' := fst (mapVendors _ h _)) in *.
  set (ls := snd (mapVendors _ h _)) in *.
  set (state' := postedState env state bookingId booking ls).
  assert (Hvs : AppState.vendors state' = ls) by reflexivity.
  assert (Hes : AppState.expenses state'
                = AppState.expenses state ++ [freightExpense env booking])
    by reflexivity.
  assert (Hts : AppState.transactions state' = AppState.transactions state)
    by reflexivity.
  rewrite <- Hvs in Hf'.
  pose proof (findVendor_id _ _ _ _ _ Hf Hv) as Hidv.
  split.
  - rewrite (vendorLedger_perm h' state' vid l' _ Hf' Hv').
    rewrite (vendorLedger_perm h state vid l v Hf Hv).
    rewrite Hes, Hts, List.filter_app, List.map_app.
    cbn [List.filter freightExpense Expense.vendorId].
    rewrite Hvid. cbn [opt_eqb]. rewrite String.eqb_refl.
    cbn [List.map Expense.amount].
    rewrite <- app_assoc. cbn [app].
    symmetry. apply Permutation_middle.
  - exists l', (mapped (creditVendor env booking) v).
    split; [exact Hf'|]. split; [exact Hv'|].
    unfold mapped, creditVendor. rewrite Hvid. cbn [opt_eqb].
    rewrite Hidv, String.eqb_refl. reflexivity.
Qed.

End TripViews.

(** ** Bank reconciliation: the suggested matches *)

Section ReconciliationFacts.
Context `{Runtime}.

Lemma within1pct_spec x amount :
  within1pct x amount = true <-> 100 * Z.abs (x - amount) < amount.
Proof.
  unfold within1pct, Qltb, Qle_bool, Qmult, inject_Z.
  cbn [Qnum Qden]. rewrite negb_true_iff, Z.leb_gt. lia.
Qed.

(** X22.  The reconciliation page suggests invoices for a credit line and
    expenses for a debit line, and nothing else: every suggestion copies
    the id, date and amount of an invoice (or expense) of the state, and
    its amount and the line's amount are both positive.  An invoice whose
    amount equals that of a credit line with a positive amount is always
    suggested, whatever its status.  A line whose amount is zero or
    negative gets no suggestion, and neither does an empty selection. *)
Theorem suggestions_from_state state bt :
  (forall s,
     In s (suggestedMatches state (Some bt)) ->
     0 < BankTransaction.amount bt
     /\ 0 < Suggestion.amount s
     /\ match BankTransaction.type bt with
        | credit =>
            Suggestion.type s = M_Invoice
            /\ exists inv,
                 In inv (AppState.invoices state)
                 /\ Suggestion.id s = Invoice.id inv
                 /\ Suggestion.date s = Invoice.date inv
                 /\ Suggestion.amount s = Invoice.amount inv
        | debit =>
            Suggestion.type s = M_Expense
            /\ exists exp,
                 In exp (AppState.expenses state)
                 /\ Suggestion.id s = Expense.id exp
                 /\ Suggestion.date s = Expense.date exp
                 /\ Suggestion.amount s = Expense.amount exp
        end)
  /\ (forall inv,
        BankTransaction.type bt = credit ->
        In inv (AppState.invoices state) ->
        0 < BankTransaction.amount bt ->
        Invoice.amount inv = BankTransaction.amount bt ->
        exists s, In s (suggestedMatches state (Some bt))
                  /\ Suggestion.id s = Invoice.id inv
                  /\ Suggestion.amount s = Invoice.amount inv)
  /\ (BankTransaction.amount bt <= 0 -> suggestedMatches state (Some bt) = [])
  /\ suggestedMatches state None = [].
Proof.
  split; [|split; [|split]].
  - intros s Hs. unfold suggestedMatches in Hs.
    destruct (BankTransaction.type bt);
      apply in_map_iff in Hs as (x & <- & Hx);
      apply filter_In in Hx as [Hin Hx];
      apply within1pct_spec in Hx;
      cbn [Suggestion.amount Suggestion.type Suggestion.id Suggestion.date];
      (split; [lia|]); (split; [lia|]);
      (split; [reflexivity|]); exists x; repeat split; exact Hin.
  - intros inv Ht Hin Hpos Heq. unfold suggestedMatches. rewrite Ht.
    eexists. split.
    + apply in_map_iff. exists inv. split; [reflexivity|].
      apply filter_In. split; [exact Hin|].
      apply within1pct_spec. lia.
    + split; reflexivity.
  - intros Hle. unfold suggestedMatches.
    destruct (BankTransaction.type bt).
    + destruct (List.filter _ (AppState.invoices state)) as [|x l] eqn:E;
        [reflexivity|].
      assert (Hx : In x (x :: l)) by (left; reflexivity).
      rewrite <- E in Hx. apply filter_In in Hx as [_ Hx].
      apply within1pct_spec in Hx. lia.
    + destruct (List.filter _ (AppState.expenses state)) as [|x l] eqn:E;
        [reflexivity|].
      assert (Hx : In x (x :: l)) by (left; reflexivity).
      rewrite <- E in Hx. apply filter_In in Hx as [_ Hx].
      apply within1pct_spec in Hx. lia.
  - reflexivity.
Qed.

End ReconciliationFacts.

(** ** SEND_REMINDERS *)

Section Reminders.
Context `{Runtime}.

Lemma Set_has_In l x : Set_has l x = true <-> In x l.
Proof.
  unfold Set_has. rewrite existsb_exists. split.
  - intros (y & Hy & E). apply String.eqb_eq in E. subst y. exact Hy.
  - intros Hx. exists x. split; [exact Hx|apply String.eqb_refl].
Qed.

Lemma Set_size_zero l : (Set_size l =? 0) = true <-> l = [].
Proof.
  unfold Set_size. rewrite Z.eqb_eq. split.
  - destruct l as [|x l]; [reflexivity|]. intros E.
    assert (Hx : In x (nodup string_dec (x :: l)))
      by (apply nodup_In; left; reflexivity).
    destruct (nodup string_dec (x :: l)); [destruct Hx|].
    cbn [length] in E. lia.
  - intros ->. reflexivity.
Qed.

(** X23.  SEND_REMINDERS with an empty list does nothing at all.  With any
    other list it stamps exactly the invoices whose id is in the list, once
    each however often the id is listed: they get the instant of the call
    as [lastReminderSent] and their notes extended, the earlier notes kept
    in front; every other invoice and every money field and status is as it
    was; and one audit entry and one notification are written, also when no
    invoice has a listed id. *)
Theorem send_reminders_effect env h state payload :
  let state' := snd (appReducer env h state (SEND_REMINDERS payload)) in
  (payload = [] -> state' = state)
  /\ (payload <> [] ->
      length (AppState.auditLogs state')
        = S (length (AppState.auditLogs state))
      /\ length (AppState.notifications state')
         = S (length (AppState.notifications state))
      /\ Forall2
           (fun i i' =>
              moneyOf i' = moneyOf i
              /\ Invoice.status i' = Invoice.status i
              /\ (In (Invoice.id i) payload ->
                  Invoice.lastReminderSent i'
                    = Some (toISOString (Date_now env))
                  /\ exists added,
                       added <> EmptyString
                       /\ Invoice.notes i'
                          = Some (str_or (Invoice.notes i) EmptyString
                                  +:+ added))
              /\ (~ In (Invoice.id i) payload -> i' = i))
           (AppState.invoices state) (AppState.invoices state')).
Proof.
  cbn zeta. cbn [appReducer snd]. unfold sendReminders. split.
  - intros ->. reflexivity.
  - intros Hne.
    destruct (Set_size payload =? 0) eqn:E0;
      [apply Set_size_zero in E0; contradiction|].
    cbn [AppState.auditLogs AppState.notifications AppState.invoices
         AppState.set_notifications AppState.set_auditLogs
         AppState.set_invoices].
    split; [reflexivity|]. split; [rewrite length_app; cbn; lia|].
    induction (AppState.invoices state) as [|i l IH]; cbn [List.map];
      constructor; [|exact IH].
    destruct (Set_has payload (Invoice.id i)) eqn:Eh.
    + split; [reflexivity|]. split; [reflexivity|]. split.
      * intros _. split; [reflexivity|].
        cbn [Invoice.remind Invoice.notes].
        destruct (String.eqb_spec (str_or (Invoice.notes i) EmptyString)
                                  EmptyString) as [->|_].
        -- eexists. split; [|reflexivity]. discriminate.
        -- eexists. split; [|reflexivity]. discriminate.
      * intros Hno. exfalso. apply Hno. apply Set_has_In. exact Eh.
    + split; [reflexivity|]. split; [reflexivity|]. split.
      * intros Hin. apply Set_has_In in Hin. congruence.
      * reflexivity.
Qed.

End Reminders.

(** ** The further properties on the sample data *)

Lemma audit_log_append_only_witness :
  exists new,
    AppState.auditLogs
      (snd (dispatchAll (H := sampleRuntime) tripHeap tripState postThenPay))
      = new ++ AppState.auditLogs tripState
    /\ (length new <= length postThenPay)%nat.
Proof.
  apply (@audit_log_append_only sampleRuntime postThenPay tripHeap tripState).
  repeat constructor.
Defined.

Lemma audit_entry_attribution_witness :
  exists new,
    AppState.auditLogs
      (snd (appReducer (H := sampleRuntime) env1 [] adminState
              (DELETE_INVOICE "inv_1")))
      = new ++ AppState.auditLogs adminState
    /\ (length new <= 1)%nat
    /\ List.Forall (attributedTo adminState) new.
Proof.
  exact (proj1 (@audit_entry_attribution sampleRuntime env1 [] adminState
                  (DELETE_INVOICE "inv_1") eq_refl)).
Defined.

Lemma transactions_append_only_witness :
  exists new,
    AppState.transactions
      (snd (dispatchAll (H := sampleRuntime) tripHeap tripState postThenPay))
      = new ++ AppState.transactions tripState.
Proof.
  apply (@transactions_append_only sampleRuntime postThenPay tripHeap
           tripState).
  repeat constructor.
Defined.

Lemma invoice_money_frame_witness :
  List.map moneyOf
    (AppState.invoices
       (snd (appReducer (H := sampleRuntime) env1 [] adminState
               (UPDATE_INVOICE_STATUS "inv_1" overdue))))
  = List.map moneyOf (AppState.invoices adminState).
Proof.
  apply (@invoice_money_frame sampleRuntime env1 [] adminState
           (UPDATE_INVOICE_STATUS "inv_1" overdue)).
  reflexivity.
Defined.

Lemma expenses_frame_witness :
  exists pre post g,
    AppState.expenses
      (snd (appReducer (H := sampleRuntime) env1 tripHeap tripState
              (COMPLETE_TRIP "BK-1")))
      = pre ++ List.map g (AppState.expenses tripState) ++ post
    /\ (length pre + length post <= 1)%nat
    /\ forall e, g e = e \/ g e = Expense.set_status approved e.
Proof.
  apply (@expenses_frame sampleRuntime env1 tripHeap tripState
           (COMPLETE_TRIP "BK-1")).
  reflexivity.
Defined.

Lemma record_payment_reopens_witness :
  let state' :=
    snd (appReducer (H := sampleRuntime) env1 [] adminState
           (RECORD_PAYMENT payFull)) in
  exists invoice',
    List.find (hasId "inv_1") (AppState.invoices state') = Some invoice'
    /\ (Invoice.status invoice' = paid \/ Invoice.status invoice' = sent
        \/ Invoice.status invoice' = overdue)
    /\ (Invoice.status invoice' = paid <-> rawBalance invoice' <= 5)
    /\ (In invoice' (openInvoices state') <-> 5 < rawBalance invoice').
Proof.
  apply (@record_payment_reopens sampleRuntime env1 [] adminState payFull
           freshInvoice).
  reflexivity.
Defined.

Lemma credit_then_debit_witness :
  let reversal :=
    RecordPayment.mk "inv_1" "2024-03-01" "UTR1" 9800 debit "Full payment"
      None (Some true) in
  let s1 :=
    snd (appReducer (H := sampleRuntime) env1 [] adminState
           (RECORD_PAYMENT payFull)) in
  let s2 :=
    snd (appReducer (H := sampleRuntime) env2 [] s1 (RECORD_PAYMENT reversal)) in
  exists invoice' invoice'' t,
    List.find (hasId "inv_1") (AppState.invoices s1) = Some invoice'
    /\ List.find (hasId "inv_1") (AppState.invoices s2) = Some invoice''
    /\ Invoice.adjustments invoice' = Some 200
    /\ Invoice.adjustments invoice'' = Some 200
    /\ Invoice.paidAmount invoice'' = Some 0
    /\ AppState.transactions s2 = t :: AppState.transactions s1.
Proof.
  destruct (@credit_then_debit sampleRuntime env1 env2 [] adminState payFull
              freshInvoice eq_refl eq_refl)
    as (i1 & i2 & t & H1 & H2 & Htds & Hcash & _ & Htx & _).
  exists i1, i2, t. split; [exact H1|]. split; [exact H2|].
  destruct (Hcash eq_refl) as [Hadj Hpaid].
  pose proof (Htds eq_refl) as Ha1.
  split; [exact Ha1|]. split; [rewrite Hadj; exact Ha1|].
  split; [|exact Htx].
  rewrite Hpaid. injection H1 as <-. reflexivity.
Defined.

Lemma full_payment_settles_witness :
  let data :=
    PaymentForm.mk credit "inv_1" "Full payment"
      (suggestedAmount true (formBalance adminState "inv_1")) "UTR1"
      EmptyString "2024-03-01" true in
  exists a invoice',
    onSubmit data = Some a
    /\ List.find (hasId "inv_1")
         (AppState.invoices
            (snd (appReducer (H := sampleRuntime) env1 [] adminState a)))
       = Some invoice'
    /\ Invoice.status invoice' = paid.
Proof.
  apply (@full_payment_settles sampleRuntime env1 [] adminState "inv_1"
           freshInvoice true "UTR1" EmptyString "2024-03-01").
  - discriminate.
  - reflexivity.
Defined.

Lemma derived_status_consistent_witness :
  exists invoice',
    List.find (hasId "inv_1")
      (AppState.invoices
         (snd (appReducer (H := sampleRuntime) env1 [] adminState
                 (RECORD_PAYMENT payFull))))
      = Some invoice'
    /\ let d := deriveInvoiceData (H := sampleRuntime) env2 invoice' in
       DerivedInvoice.balanceAmount d = Z.max 0 (rawBalance invoice')
       /\ (DerivedInvoice.displayStatus d = Paid <->
           Invoice.status invoice' = paid)
       /\ (Invoice.status invoice' = overdue ->
           DerivedInvoice.displayStatus d = Overdue
           /\ 0 < DerivedInvoice.overdueDays d).
Proof.
  apply (@derived_status_consistent sampleRuntime env1 env2 [] adminState
           payFull freshInvoice).
  - reflexivity.
  - cbn. lia.
Defined.

Lemma customer_exposure_floor_witness :
  10000 - 4900 - 0 <= customerExposure [febInvoice] "cust_1".
Proof.
  apply (proj1 (proj2 (proj2 (customer_exposure_floor [febInvoice] "cust_1")))
           febInvoice).
  - left. reflexivity.
  - reflexivity.
  - discriminate.
Defined.

Lemma tds_entry_guard_witness :
  exists t1 t2,
    AppState.transactions
      (snd (appReducer (H := sampleRuntime) env1 [] adminState
              (RECORD_PAYMENT payFull)))
    = t1 :: t2 :: AppState.transactions adminState
    /\ Transaction.amount t2 = tdsOf 9800
    /\ Transaction.type t2 = credit.
Proof.
  exact (proj2 (@tds_entry_guard sampleRuntime env1 [] adminState)
           payFull freshInvoice eq_refl eq_refl).
Defined.

Lemma vendor_ledger_rows_witness :
  Permutation
    (List.map rowAmounts
       (vendorLedgerData (H := sampleRuntime) tripHeap alreadyPosted "vnd_1"))
    [(5000, 0)].
Proof.
  exact (proj1 (proj2 (@vendor_ledger_rows sampleRuntime tripHeap
                         alreadyPosted "vnd_1"))
           0%nat (sampleVendor "vnd_1" 5000) eq_refl eq_refl).
Defined.

Lemma vendor_payment_in_ledger_witness :
  let r :=
    appReducer (H := sampleRuntime) env1 tripHeap alreadyPosted
      (RECORD_VENDOR_PAYMENT payVnd1) in
  Permutation
    (List.map rowAmounts
       (vendorLedgerData (H := sampleRuntime) (fst r) (snd r) "vnd_1"))
    ([(0, 1000); (0, 20)]
     ++ List.map rowAmounts
          (vendorLedgerData (H := sampleRuntime) tripHeap alreadyPosted
             "vnd_1")).
Proof.
  exact (proj1 (@vendor_payment_in_ledger sampleRuntime env1 tripHeap
                  alreadyPosted payVnd1 "vnd_1" 0%nat
                  (sampleVendor "vnd_1" 5000) eq_refl eq_refl)).
Defined.

Lemma trip_posting_in_ledger_witness :
  let r :=
    appReducer (H := sampleRuntime) env1 tripHeap tripState
      (COMPLETE_TRIP "BK-1") in
  Permutation
    (List.map rowAmounts
       (vendorLedgerData (H := sampleRuntime) (fst r) (snd r) "vnd_1"))
    ((5000, 0)
     :: List.map rowAmounts
          (vendorLedgerData (H := sampleRuntime) tripHeap tripState "vnd_1"))
  /\ exists l' v',
       findVendor (fst r) (AppState.vendors (snd r)) "vnd_1" = Some l'
       /\ fst r !! l' = Some v'
       /\ Vendor.balance v' = 5000 + 5000.
Proof.
  apply (@trip_posting_in_ledger sampleRuntime env1 tripHeap tripState "BK-1"
           tripBooking "vnd_1" 0%nat (sampleVendor "vnd_1" 5000)).
  - repeat constructor.
  - reflexivity.
  - reflexivity.
  - discriminate.
  - reflexivity.
  - reflexivity.
  - reflexivity.
Defined.

Lemma suggestions_from_state_witness :
  exists s,
    In s (suggestedMatches adminState (Some sampleBankLine))
    /\ Suggestion.id s = "inv_1"
    /\ Suggestion.amount s = 10000.
Proof.
  apply (proj1 (proj2 (suggestions_from_state adminState sampleBankLine))
           freshInvoice).
  - reflexivity.
  - left. reflexivity.
  - reflexivity.
  - reflexivity.
Defined.

Lemma send_reminders_effect_witness :
  let state' :=
    snd (appReducer (H := sampleRuntime) env1 [] adminState
           (SEND_REMINDERS ["inv_1"; "inv_1"])) in
  length (AppState.auditLogs state') = 1%nat
  /\ length (AppState.notifications state') = 1%nat
  /\ Forall2
       (fun i i' =>
          moneyOf i' = moneyOf i
          /\ Invoice.status i' = Invoice.status i
          /\ (In (Invoice.id i) ["inv_1"; "inv_1"] ->
              Invoice.lastReminderSent i'
                = Some (toISOString (Runtime := sampleRuntime) (Date_now env1))
              /\ exists added,
                   added <> EmptyString
                   /\ Invoice.notes i'
                      = Some (str_or (Invoice.notes i) EmptyString +:+ added))
          /\ (~ In (Invoice.id i) ["inv_1"; "inv_1"] -> i' = i))
       (AppState.invoices adminState) (AppState.invoices state').
Proof.
  apply (proj2 (@send_reminders_effect sampleRuntime env1 [] adminState
                  ["inv_1"; "inv_1"])).
  discriminate.
Defined.
